(** * wp-interactivity-frontend-demo: the stores behind the demo widgets

    A shallow embedding of the TypeScript stores
    - [src/complex/kanban/kanban.ts]       (command history, drag and drop),
    - [src/complex/live-search/live-search.ts] (restartable search task),
    - [src/intermediate/todo-list/todo-list.ts],
    and the properties their specification states about them.

    Conventions of the embedding.
    - A JavaScript number that is used as an index or a counter is a [Z];
      an index returned by [findIndex] is [option nat], [None] standing
      for [-1].
    - [string | null] and optional string fields are [option string];
      [null] and [undefined] are both [None].
    - Strings are Rocq strings (byte sequences); [trim] removes the ASCII
      white space characters.
    - Card objects live in a store [gmap CardRef KanbanCard]: a column
      holds references, a [CreateCommand] holds the reference of the very
      object it pushed, and a [DeleteCommand] holds the reference of the
      copy made by [{ ...card }].  Columns are never created, copied or
      removed, so a column object is identified with its position in
      [context.columns].
    - [context.item], provided by [data-wp-each], is an explicit argument
      of the actions that read it; [Date.now()] and [Math.random()] are
      arguments as well.
    - A [TypeError] (reading a property of [undefined]) is [None] in the
      functions that can raise one. *)

From stdpp Require Import prelude gmap strings pretty sorting.
From Stdlib Require Import ZArith Lia.

Local Open Scope string_scope.
Local Open Scope Z_scope.

(** ** JavaScript primitives used by the stores *)

Module JS.

(** Truthiness of a string: only the empty string is falsy. *)
Definition truthy (s : string) : bool := bool_decide (s ≠ "").

(** Truthiness of [string | null | undefined]. *)
Definition truthy_opt (o : option string) : bool :=
  match o with
  | Some s => truthy s
  | None => false
  end.

(** [s || undefined] *)
Definition or_undefined (s : string) : option string :=
  if truthy s then Some s else None.

(** [o || ''] *)
Definition or_empty (o : option string) : string :=
  match o with
  | Some s => if truthy s then s else ""
  | None => ""
  end.

(** White space removed by [String.prototype.trim] (ASCII part). *)
Definition is_white (a : Ascii.ascii) : bool :=
  match Ascii.nat_of_ascii a with
  | 9%nat | 10%nat | 11%nat | 12%nat | 13%nat | 32%nat => true
  | _ => false
  end.

Fixpoint trimStart (s : string) : string :=
  match s with
  | String a s' => if is_white a then trimStart s' else s
  | EmptyString => EmptyString
  end.

Definition trimEnd (s : string) : string :=
  String.rev (trimStart (String.rev s)).

Definition trim (s : string) : string := trimEnd (trimStart s).

(** [String.prototype.toLowerCase] (ASCII letters). *)
Definition lower (a : Ascii.ascii) : Ascii.ascii :=
  let n := Ascii.nat_of_ascii a in
  if (65 <=? n)%nat && (n <=? 90)%nat then Ascii.ascii_of_nat (n + 32) else a.

Fixpoint toLowerCase (s : string) : string :=
  match s with
  | String a s' => String (lower a) (toLowerCase s')
  | EmptyString => EmptyString
  end.

(** [s.includes( part )] *)
Fixpoint includes (s part : string) : bool :=
  String.prefix part s ||
  match s with
  | String _ s' => includes s' part
  | EmptyString => false
  end.

(** Relative index of [slice] and [splice]: a negative index counts from
    the end, and the result is clamped into [0 .. len]. *)
Definition rel_index (len : nat) (i : Z) : nat :=
  if i <? 0 then Z.to_nat (Z.max (Z.of_nat len + i) 0)
  else Z.to_nat (Z.min i (Z.of_nat len)).

Section Arrays.
Context {A : Type}.

(** [l.slice(start, end)] *)
Definition slice (l : list A) (start stop : Z) : list A :=
  let k := rel_index (length l) start in
  let f := rel_index (length l) stop in
  take (f - k) (drop k l).

(** [l.slice(start)] *)
Definition slice_from (l : list A) (start : Z) : list A :=
  drop (rel_index (length l) start) l.

(** [l.push(x)] *)
Definition push (l : list A) (x : A) : list A := l ++ [x].

(** [l.splice(i, 0, x)] *)
Definition splice_insert (i : Z) (x : A) (l : list A) : list A :=
  let k := rel_index (length l) i in
  take k l ++ x :: drop k l.

(** [l.splice(i, 1)] for an index [i] returned by [findIndex]:
    the array without its [i]-th element. *)
Definition splice_remove (i : nat) (l : list A) : list A := delete i l.

(** [l[i]]: [undefined] outside of [0 .. length - 1]. *)
Definition at_index (l : list A) (i : Z) : option A :=
  if i <? 0 then None else l !! Z.to_nat i.

(** [l.findIndex(p)]; [None] is [-1]. *)
Definition findIndex (P : A → Prop) `{∀ x, Decision (P x)}
    (l : list A) : option nat :=
  fst <$> list_find P l.
End Arrays.

End JS.

(** ** The kanban board: data model ([kanban.ts], lines 29-157) *)

Module Kanban.

Inductive Priority := High | Medium | Low.

#[global] Instance Priority_eq_dec : EqDecision Priority.
Proof. solve_decision. Defined.

Record KanbanCard := {
  card_id : string;
  card_title : string;
  card_description : option string;
  card_priority : Priority;
  card_assignee : option string;
  card_createdAt : Z;
}.

(** A card object is known by its reference. *)
Definition CardRef := nat.

Record KanbanColumn := {
  col_id : string;
  col_title : string;
  col_cards : list CardRef;
  col_color : string;
}.

Definition with_cards (column : KanbanColumn) (cards : list CardRef) :=
  {| col_id := col_id column; col_title := col_title column;
     col_cards := cards; col_color := col_color column |}.

Record BaseCommand := {
  timestamp : Z;
  description : string;
  seqId : Z;
}.

Record Place := { columnId : string; index : Z }.

Record Values := {
  v_title : string;
  v_priority : Priority;
  v_description : string;
  v_assignee : string;
}.

Inductive Command :=
| MoveCommand (base : BaseCommand) (cardId cardTitle : string)
    (from to : Place)
| CreateCommand (base : BaseCommand) (card : CardRef) (columnId : string)
| EditCommand (base : BaseCommand) (cardId : string)
    (oldValues newValues : Values)
| DeleteCommand (base : BaseCommand) (card : CardRef) (columnId : string)
    (index : Z).

Definition base_of (command : Command) : BaseCommand :=
  match command with
  | MoveCommand b _ _ _ _ | CreateCommand b _ _
  | EditCommand b _ _ _ | DeleteCommand b _ _ _ => b
  end.

Definition MAX_TITLE_LENGTH : nat := 200.
Definition MAX_HISTORY_SIZE : Z := 50.

(** ** The context of the board ([kanban.ts], lines 131-157) *)

Inductive DropPosition := Before | After.

Inductive PriorityFilter := FilterAll | FilterBy (p : Priority).

Record KanbanContext := {
  columns : list KanbanColumn;
  draggedCardId : option string;
  sourceColumnId : option string;
  dropTargetColumnId : option string;
  dropTargetCardId : option string;
  dropPosition : DropPosition;
  editingCardId : option string;
  editTitle : string;
  editPriority : Priority;
  editDescription : string;
  editAssignee : string;
  searchQuery : string;
  filterPriority : PriorityFilter;
  history : list Command;
  historyIndex : Z;
  newCardModalOpen : bool;
  newCardColumnId : option string;
  newCardTitle : string;
  newCardPriority : Priority;
  newCardDescription : string;
  newCardAssignee : string;
  revisionPanelOpen : bool;
  hoveredRevisionId : option string;
}.

(** Assignments [context.f = v], one per field the actions below write. *)

Definition set_columns (v : list KanbanColumn) (context : KanbanContext) :
    KanbanContext :=
  {| columns := v; draggedCardId := draggedCardId context;
     sourceColumnId := sourceColumnId context;
     dropTargetColumnId := dropTargetColumnId context;
     dropTargetCardId := dropTargetCardId context;
     dropPosition := dropPosition context;
     editingCardId := editingCardId context;
     editTitle := editTitle context; editPriority := editPriority context;
     editDescription := editDescription context;
     editAssignee := editAssignee context;
     searchQuery := searchQuery context;
     filterPriority := filterPriority context; history := history context;
     historyIndex := historyIndex context;
     newCardModalOpen := newCardModalOpen context;
     newCardColumnId := newCardColumnId context;
     newCardTitle := newCardTitle context;
     newCardPriority := newCardPriority context;
     newCardDescription := newCardDescription context;
     newCardAssignee := newCardAssignee context;
     revisionPanelOpen := revisionPanelOpen context;
     hoveredRevisionId := hoveredRevisionId context |}.

Definition set_draggedCardId (v : option string) (context : KanbanContext) :
    KanbanContext :=
  {| columns := columns context; draggedCardId := v;
     sourceColumnId := sourceColumnId context;
     dropTargetColumnId := dropTargetColumnId context;
     dropTargetCardId := dropTargetCardId context;
     dropPosition := dropPosition context;
     editingCardId := editingCardId context;
     editTitle := editTitle context; editPriority := editPriority context;
     editDescription := editDescription context;
     editAssignee := editAssignee context;
     searchQuery := searchQuery context;
     filterPriority := filterPriority context; history := history context;
     historyIndex := historyIndex context;
     newCardModalOpen := newCardModalOpen context;
     newCardColumnId := newCardColumnId context;
     newCardTitle := newCardTitle context;
     newCardPriority := newCardPriority context;
     newCardDescription := newCardDescription context;
     newCardAssignee := newCardAssignee context;
     revisionPanelOpen := revisionPanelOpen context;
     hoveredRevisionId := hoveredRevisionId context |}.

Definition set_sourceColumnId (v : option string) (context : KanbanContext) :
    KanbanContext :=
  {| columns := columns context; draggedCardId := draggedCardId context;
     sourceColumnId := v; dropTargetColumnId := dropTargetColumnId context;
     dropTargetCardId := dropTargetCardId context;
     dropPosition := dropPosition context;
     editingCardId := editingCardId context;
     editTitle := editTitle context; editPriority := editPriority context;
     editDescription := editDescription context;
     editAssignee := editAssignee context;
     searchQuery := searchQuery context;
     filterPriority := filterPriority context; history := history context;
     historyIndex := historyIndex context;
     newCardModalOpen := newCardModalOpen context;
     newCardColumnId := newCardColumnId context;
     newCardTitle := newCardTitle context;
     newCardPriority := newCardPriority context;
     newCardDescription := newCardDescription context;
     newCardAssignee := newCardAssignee context;
     revisionPanelOpen := revisionPanelOpen context;
     hoveredRevisionId := hoveredRevisionId context |}.

Definition set_dropTargetColumnId (v : option string) (context : KanbanContext) :
    KanbanContext :=
  {| columns := columns context; draggedCardId := draggedCardId context;
     sourceColumnId := sourceColumnId context; dropTargetColumnId := v;
     dropTargetCardId := dropTargetCardId context;
     dropPosition := dropPosition context;
     editingCardId := editingCardId context;
     editTitle := editTitle context; editPriority := editPriority context;
     editDescription := editDescription context;
     editAssignee := editAssignee context;
     searchQuery := searchQuery context;
     filterPriority := filterPriority context; history := history context;
     historyIndex := historyIndex context;
     newCardModalOpen := newCardModalOpen context;
     newCardColumnId := newCardColumnId context;
     newCardTitle := newCardTitle context;
     newCardPriority := newCardPriority context;
     newCardDescription := newCardDescription context;
     newCardAssignee := newCardAssignee context;
     revisionPanelOpen := revisionPanelOpen context;
     hoveredRevisionId := hoveredRevisionId context |}.

Definition set_dropTargetCardId (v : option string) (context : KanbanContext) :
    KanbanContext :=
  {| columns := columns context; draggedCardId := draggedCardId context;
     sourceColumnId := sourceColumnId context;
     dropTargetColumnId := dropTargetColumnId context;
     dropTargetCardId := v; dropPosition := dropPosition context;
     editingCardId := editingCardId context;
     editTitle := editTitle context; editPriority := editPriority context;
     editDescription := editDescription context;
     editAssignee := editAssignee context;
     searchQuery := searchQuery context;
     filterPriority := filterPriority context; history := history context;
     historyIndex := historyIndex context;
     newCardModalOpen := newCardModalOpen context;
     newCardColumnId := newCardColumnId context;
     newCardTitle := newCardTitle context;
     newCardPriority := newCardPriority context;
     newCardDescription := newCardDescription context;
     newCardAssignee := newCardAssignee context;
     revisionPanelOpen := revisionPanelOpen context;
     hoveredRevisionId := hoveredRevisionId context |}.

Definition set_editingCardId (v : option string) (context : KanbanContext) :
    KanbanContext :=
  {| columns := columns context; draggedCardId := draggedCardId context;
     sourceColumnId := sourceColumnId context;
     dropTargetColumnId := dropTargetColumnId context;
     dropTargetCardId := dropTargetCardId context;
     dropPosition := dropPosition context; editingCardId := v;
     editTitle := editTitle context; editPriority := editPriority context;
     editDescription := editDescription context;
     editAssignee := editAssignee context;
     searchQuery := searchQuery context;
     filterPriority := filterPriority context; history := history context;
     historyIndex := historyIndex context;
     newCardModalOpen := newCardModalOpen context;
     newCardColumnId := newCardColumnId context;
     newCardTitle := newCardTitle context;
     newCardPriority := newCardPriority context;
     newCardDescription := newCardDescription context;
     newCardAssignee := newCardAssignee context;
     revisionPanelOpen := revisionPanelOpen context;
     hoveredRevisionId := hoveredRevisionId context |}.

Definition set_history (v : list Command) (context : KanbanContext) :
    KanbanContext :=
  {| columns := columns context; draggedCardId := draggedCardId context;
     sourceColumnId := sourceColumnId context;
     dropTargetColumnId := dropTargetColumnId context;
     dropTargetCardId := dropTargetCardId context;
     dropPosition := dropPosition context;
     editingCardId := editingCardId context;
     editTitle := editTitle context; editPriority := editPriority context;
     editDescription := editDescription context;
     editAssignee := editAssignee context;
     searchQuery := searchQuery context;
     filterPriority := filterPriority context; history := v;
     historyIndex := historyIndex context;
     newCardModalOpen := newCardModalOpen context;
     newCardColumnId := newCardColumnId context;
     newCardTitle := newCardTitle context;
     newCardPriority := newCardPriority context;
     newCardDescription := newCardDescription context;
     newCardAssignee := newCardAssignee context;
     revisionPanelOpen := revisionPanelOpen context;
     hoveredRevisionId := hoveredRevisionId context |}.

Definition set_historyIndex (v : Z) (context : KanbanContext) :
    KanbanContext :=
  {| columns := columns context; draggedCardId := draggedCardId context;
     sourceColumnId := sourceColumnId context;
     dropTargetColumnId := dropTargetColumnId context;
     dropTargetCardId := dropTargetCardId context;
     dropPosition := dropPosition context;
     editingCardId := editingCardId context;
     editTitle := editTitle context; editPriority := editPriority context;
     editDescription := editDescription context;
     editAssignee := editAssignee context;
     searchQuery := searchQuery context;
     filterPriority := filterPriority context; history := history context;
     historyIndex := v; newCardModalOpen := newCardModalOpen context;
     newCardColumnId := newCardColumnId context;
     newCardTitle := newCardTitle context;
     newCardPriority := newCardPriority context;
     newCardDescription := newCardDescription context;
     newCardAssignee := newCardAssignee context;
     revisionPanelOpen := revisionPanelOpen context;
     hoveredRevisionId := hoveredRevisionId context |}.

Definition set_newCardModalOpen (v : bool) (context : KanbanContext) :
    KanbanContext :=
  {| columns := columns context; draggedCardId := draggedCardId context;
     sourceColumnId := sourceColumnId context;
     dropTargetColumnId := dropTargetColumnId context;
     dropTargetCardId := dropTargetCardId context;
     dropPosition := dropPosition context;
     editingCardId := editingCardId context;
     editTitle := editTitle context; editPriority := editPriority context;
     editDescription := editDescription context;
     editAssignee := editAssignee context;
     searchQuery := searchQuery context;
     filterPriority := filterPriority context; history := history context;
     historyIndex := historyIndex context; newCardModalOpen := v;
     newCardColumnId := newCardColumnId context;
     newCardTitle := newCardTitle context;
     newCardPriority := newCardPriority context;
     newCardDescription := newCardDescription context;
     newCardAssignee := newCardAssignee context;
     revisionPanelOpen := revisionPanelOpen context;
     hoveredRevisionId := hoveredRevisionId context |}.

Definition set_newCardColumnId (v : option string) (context : KanbanContext) :
    KanbanContext :=
  {| columns := columns context; draggedCardId := draggedCardId context;
     sourceColumnId := sourceColumnId context;
     dropTargetColumnId := dropTargetColumnId context;
     dropTargetCardId := dropTargetCardId context;
     dropPosition := dropPosition context;
     editingCardId := editingCardId context;
     editTitle := editTitle context; editPriority := editPriority context;
     editDescription := editDescription context;
     editAssignee := editAssignee context;
     searchQuery := searchQuery context;
     filterPriority := filterPriority context; history := history context;
     historyIndex := historyIndex context;
     newCardModalOpen := newCardModalOpen context; newCardColumnId := v;
     newCardTitle := newCardTitle context;
     newCardPriority := newCardPriority context;
     newCardDescription := newCardDescription context;
     newCardAssignee := newCardAssignee context;
     revisionPanelOpen := revisionPanelOpen context;
     hoveredRevisionId := hoveredRevisionId context |}.

Definition set_newCardTitle (v : string) (context : KanbanContext) :
    KanbanContext :=
  {| columns := columns context; draggedCardId := draggedCardId context;
     sourceColumnId := sourceColumnId context;
     dropTargetColumnId := dropTargetColumnId context;
     dropTargetCardId := dropTargetCardId context;
     dropPosition := dropPosition context;
     editingCardId := editingCardId context;
     editTitle := editTitle context; editPriority := editPriority context;
     editDescription := editDescription context;
     editAssignee := editAssignee context;
     searchQuery := searchQuery context;
     filterPriority := filterPriority context; history := history context;
     historyIndex := historyIndex context;
     newCardModalOpen := newCardModalOpen context;
     newCardColumnId := newCardColumnId context; newCardTitle := v;
     newCardPriority := newCardPriority context;
     newCardDescription := newCardDescription context;
     newCardAssignee := newCardAssignee context;
     revisionPanelOpen := revisionPanelOpen context;
     hoveredRevisionId := hoveredRevisionId context |}.

Definition set_newCardDescription (v : string) (context : KanbanContext) :
    KanbanContext :=
  {| columns := columns context; draggedCardId := draggedCardId context;
     sourceColumnId := sourceColumnId context;
     dropTargetColumnId := dropTargetColumnId context;
     dropTargetCardId := dropTargetCardId context;
     dropPosition := dropPosition context;
     editingCardId := editingCardId context;
     editTitle := editTitle context; editPriority := editPriority context;
     editDescription := editDescription context;
     editAssignee := editAssignee context;
     searchQuery := searchQuery context;
     filterPriority := filterPriority context; history := history context;
     historyIndex := historyIndex context;
     newCardModalOpen := newCardModalOpen context;
     newCardColumnId := newCardColumnId context;
     newCardTitle := newCardTitle context;
     newCardPriority := newCardPriority context; newCardDescription := v;
     newCardAssignee := newCardAssignee context;
     revisionPanelOpen := revisionPanelOpen context;
     hoveredRevisionId := hoveredRevisionId context |}.

Definition set_newCardAssignee (v : string) (context : KanbanContext) :
    KanbanContext :=
  {| columns := columns context; draggedCardId := draggedCardId context;
     sourceColumnId := sourceColumnId context;
     dropTargetColumnId := dropTargetColumnId context;
     dropTargetCardId := dropTargetCardId context;
     dropPosition := dropPosition context;
     editingCardId := editingCardId context;
     editTitle := editTitle context; editPriority := editPriority context;
     editDescription := editDescription context;
     editAssignee := editAssignee context;
     searchQuery := searchQuery context;
     filterPriority := filterPriority context; history := history context;
     historyIndex := historyIndex context;
     newCardModalOpen := newCardModalOpen context;
     newCardColumnId := newCardColumnId context;
     newCardTitle := newCardTitle context;
     newCardPriority := newCardPriority context;
     newCardDescription := newCardDescription context;
     newCardAssignee := v; revisionPanelOpen := revisionPanelOpen context;
     hoveredRevisionId := hoveredRevisionId context |}.

Definition set_editTitle (v : string) (context : KanbanContext) :
    KanbanContext :=
  {| columns := columns context; draggedCardId := draggedCardId context;
     sourceColumnId := sourceColumnId context;
     dropTargetColumnId := dropTargetColumnId context;
     dropTargetCardId := dropTargetCardId context;
     dropPosition := dropPosition context;
     editingCardId := editingCardId context; editTitle := v;
     editPriority := editPriority context;
     editDescription := editDescription context;
     editAssignee := editAssignee context;
     searchQuery := searchQuery context;
     filterPriority := filterPriority context; history := history context;
     historyIndex := historyIndex context;
     newCardModalOpen := newCardModalOpen context;
     newCardColumnId := newCardColumnId context;
     newCardTitle := newCardTitle context;
     newCardPriority := newCardPriority context;
     newCardDescription := newCardDescription context;
     newCardAssignee := newCardAssignee context;
     revisionPanelOpen := revisionPanelOpen context;
     hoveredRevisionId := hoveredRevisionId context |}.

Definition set_editPriority (v : Priority) (context : KanbanContext) :
    KanbanContext :=
  {| columns := columns context; draggedCardId := draggedCardId context;
     sourceColumnId := sourceColumnId context;
     dropTargetColumnId := dropTargetColumnId context;
     dropTargetCardId := dropTargetCardId context;
     dropPosition := dropPosition context;
     editingCardId := editingCardId context;
     editTitle := editTitle context; editPriority := v;
     editDescription := editDescription context;
     editAssignee := editAssignee context;
     searchQuery := searchQuery context;
     filterPriority := filterPriority context; history := history context;
     historyIndex := historyIndex context;
     newCardModalOpen := newCardModalOpen context;
     newCardColumnId := newCardColumnId context;
     newCardTitle := newCardTitle context;
     newCardPriority := newCardPriority context;
     newCardDescription := newCardDescription context;
     newCardAssignee := newCardAssignee context;
     revisionPanelOpen := revisionPanelOpen context;
     hoveredRevisionId := hoveredRevisionId context |}.

Definition set_editDescription (v : string) (context : KanbanContext) :
    KanbanContext :=
  {| columns := columns context; draggedCardId := draggedCardId context;
     sourceColumnId := sourceColumnId context;
     dropTargetColumnId := dropTargetColumnId context;
     dropTargetCardId := dropTargetCardId context;
     dropPosition := dropPosition context;
     editingCardId := editingCardId context;
     editTitle := editTitle context; editPriority := editPriority context;
     editDescription := v; editAssignee := editAssignee context;
     searchQuery := searchQuery context;
     filterPriority := filterPriority context; history := history context;
     historyIndex := historyIndex context;
     newCardModalOpen := newCardModalOpen context;
     newCardColumnId := newCardColumnId context;
     newCardTitle := newCardTitle context;
     newCardPriority := newCardPriority context;
     newCardDescription := newCardDescription context;
     newCardAssignee := newCardAssignee context;
     revisionPanelOpen := revisionPanelOpen context;
     hoveredRevisionId := hoveredRevisionId context |}.

Definition set_editAssignee (v : string) (context : KanbanContext) :
    KanbanContext :=
  {| columns := columns context; draggedCardId := draggedCardId context;
     sourceColumnId := sourceColumnId context;
     dropTargetColumnId := dropTargetColumnId context;
     dropTargetCardId := dropTargetCardId context;
     dropPosition := dropPosition context;
     editingCardId := editingCardId context;
     editTitle := editTitle context; editPriority := editPriority context;
     editDescription := editDescription context; editAssignee := v;
     searchQuery := searchQuery context;
     filterPriority := filterPriority context; history := history context;
     historyIndex := historyIndex context;
     newCardModalOpen := newCardModalOpen context;
     newCardColumnId := newCardColumnId context;
     newCardTitle := newCardTitle context;
     newCardPriority := newCardPriority context;
     newCardDescription := newCardDescription context;
     newCardAssignee := newCardAssignee context;
     revisionPanelOpen := revisionPanelOpen context;
     hoveredRevisionId := hoveredRevisionId context |}.

Definition set_newCardPriority (v : Priority) (context : KanbanContext) :
    KanbanContext :=
  {| columns := columns context; draggedCardId := draggedCardId context;
     sourceColumnId := sourceColumnId context;
     dropTargetColumnId := dropTargetColumnId context;
     dropTargetCardId := dropTargetCardId context;
     dropPosition := dropPosition context;
     editingCardId := editingCardId context;
     editTitle := editTitle context; editPriority := editPriority context;
     editDescription := editDescription context;
     editAssignee := editAssignee context;
     searchQuery := searchQuery context;
     filterPriority := filterPriority context; history := history context;
     historyIndex := historyIndex context;
     newCardModalOpen := newCardModalOpen context;
     newCardColumnId := newCardColumnId context;
     newCardTitle := newCardTitle context; newCardPriority := v;
     newCardDescription := newCardDescription context;
     newCardAssignee := newCardAssignee context;
     revisionPanelOpen := revisionPanelOpen context;
     hoveredRevisionId := hoveredRevisionId context |}.

(** ** Command execution ([kanban.ts], lines 163-291) *)

Section Execution.
(** The card objects. *)
Variable σ : gmap CardRef KanbanCard.

(** [c.id === cardId] for the card object behind [c]. *)
Definition has_id (cardId : string) (c : CardRef) : Prop :=
  card_id <$> σ !! c = Some cardId.

#[global] Instance has_id_dec cardId c : Decision (has_id cardId c).
Proof. unfold has_id. apply _. Defined.

(** [column.cards.findIndex( c => c.id === cardId )] *)
Definition findCardIndex (cardId : string) (cards : list CardRef) :
    option nat :=
  JS.findIndex (has_id cardId) cards.

(** The column of the result is given by its position in [columns]. *)
Definition findCardLocation (columns : list KanbanColumn)
    (cardId : string) : option (nat * nat) :=
  '(ci, column) ← list_find
      (λ column, is_Some (findCardIndex cardId (col_cards column))) columns;
  i ← findCardIndex cardId (col_cards column);
  Some (ci, i).

(** [columns.find( c => c.id === id )], with the position of the
    column found. *)
Definition findColumn (columns : list KanbanColumn) (id : string) :
    option (nat * KanbanColumn) :=
  list_find (λ c, col_id c = id) columns.
End Execution.

(** In-place update of [columns[ci].cards]. *)
Definition update_cards (ci : nat) (f : list CardRef → list CardRef)
    (columns : list KanbanColumn) : list KanbanColumn :=
  alter (λ column, with_cards column (f (col_cards column))) ci columns.

(** The card at a location. *)
Definition card_at (columns : list KanbanColumn) (ci i : nat) :
    option CardRef :=
  column ← columns !! ci; col_cards column !! i.

(** The shared body of the two [Move] cases: take the card out of its
    location and insert it into the column [target] at [position]. *)
Definition move_card (σ : gmap CardRef KanbanCard)
    (columns : list KanbanColumn) (cardId : string) (target : Place) :
    list KanbanColumn :=
  match findCardLocation σ columns cardId with
  | None => columns
  | Some (ci, i) =>
      let card := card_at columns ci i in
      let columns := update_cards ci (JS.splice_remove i) columns in
      match card, findColumn columns (columnId target) with
      | Some card, Some (cj, _) =>
          update_cards cj (JS.splice_insert (index target) card) columns
      | _, _ => columns
      end
  end.

(** Assignment of the four editable fields of a card object. *)
Definition assign_values (values : Values) (card : KanbanCard) :
    KanbanCard :=
  {| card_id := card_id card;
     card_title := v_title values;
     card_description := JS.or_undefined (v_description values);
     card_priority := v_priority values;
     card_assignee := JS.or_undefined (v_assignee values);
     card_createdAt := card_createdAt card |}.

(** The shared body of the two [Edit] cases. *)
Definition edit_card (σ : gmap CardRef KanbanCard)
    (columns : list KanbanColumn) (cardId : string) (values : Values) :
    gmap CardRef KanbanCard :=
  match findCardLocation σ columns cardId with
  | None => σ
  | Some (ci, i) =>
      match card_at columns ci i with
      | Some card => alter (assign_values values) card σ
      | None => σ
      end
  end.

(** Removal of the first card of column [columnId] with the id of [card]. *)
Definition remove_card (σ : gmap CardRef KanbanCard)
    (columns : list KanbanColumn) (card : CardRef) (columnId : string) :
    list KanbanColumn :=
  match findColumn columns columnId, σ !! card with
  | Some (ci, column), Some c =>
      match findCardIndex σ (card_id c) (col_cards column) with
      | Some i => update_cards ci (JS.splice_remove i) columns
      | None => columns
      end
  | _, _ => columns
  end.

(** [executeCommand]: the store of card objects and the columns after
    the call. *)
Definition executeCommand (σ : gmap CardRef KanbanCard)
    (columns : list KanbanColumn) (command : Command) :
    gmap CardRef KanbanCard * list KanbanColumn :=
  match command with
  | MoveCommand _ cardId _ _ to => (σ, move_card σ columns cardId to)
  | CreateCommand _ card columnId =>
      match findColumn columns columnId with
      | Some (ci, _) => (σ, update_cards ci (λ cards, JS.push cards card) columns)
      | None => (σ, columns)
      end
  | EditCommand _ cardId _ newValues =>
      (edit_card σ columns cardId newValues, columns)
  | DeleteCommand _ card columnId _ =>
      (σ, remove_card σ columns card columnId)
  end.

(** [reverseCommand] *)
Definition reverseCommand (σ : gmap CardRef KanbanCard)
    (columns : list KanbanColumn) (command : Command) :
    gmap CardRef KanbanCard * list KanbanColumn :=
  match command with
  | MoveCommand _ cardId _ from _ => (σ, move_card σ columns cardId from)
  | CreateCommand _ card columnId =>
      (σ, remove_card σ columns card columnId)
  | EditCommand _ cardId oldValues _ =>
      (edit_card σ columns cardId oldValues, columns)
  | DeleteCommand _ card columnId index =>
      match findColumn columns columnId with
      | Some (ci, _) =>
          (σ, update_cards ci (JS.splice_insert index card) columns)
      | None => (σ, columns)
      end
  end.

(** [pushCommand] ([kanban.ts], lines 268-283) *)
Definition pushCommand (context : KanbanContext) (command : Command) :
    KanbanContext :=
  let history := JS.slice (history context) 0 (historyIndex context + 1) in
  let history := JS.push history command in
  if Z.of_nat (length history) >? MAX_HISTORY_SIZE then
    let history := JS.slice_from history (- MAX_HISTORY_SIZE) in
    set_historyIndex
      (Z.min (historyIndex context) (Z.of_nat (length history) - 1))
      (set_history history context)
  else
    set_historyIndex (Z.of_nat (length history) - 1)
      (set_history history context).

(** ** Helpers ([kanban.ts], lines 306-413) *)

Definition resetNewCardModal (context : KanbanContext) : KanbanContext :=
  set_newCardAssignee ""
    (set_newCardDescription ""
      (set_newCardTitle ""
        (set_newCardColumnId None
          (set_newCardModalOpen false context)))).

(** [card-${ Date.now() }-${ 7 random characters }]; the clock and the
    random characters are given. *)
Definition generateId (now : Z) (random : string) : string :=
  "card-" +:+ pretty now +:+ "-" +:+ random.

Definition sanitizeTitle (title : string) : string :=
  String.substring 0 MAX_TITLE_LENGTH (JS.trim title).

(** [changes.join( ', ' )] *)
Fixpoint join (sep : string) (parts : list string) : string :=
  match parts with
  | [] => ""
  | [part] => part
  | part :: parts => part +:+ sep +:+ join sep parts
  end.

(** The double quote character. *)
Definition quote : string := String (Ascii.ascii_of_nat 34) EmptyString.

Definition getEditDescription (oldValues newValues : Values) : string :=
  let titleChanged := bool_decide (v_title oldValues ≠ v_title newValues) in
  let priorityChanged :=
    bool_decide (v_priority oldValues ≠ v_priority newValues) in
  let descriptionChanged :=
    bool_decide (v_description oldValues ≠ v_description newValues) in
  let assigneeChanged :=
    bool_decide (v_assignee oldValues ≠ v_assignee newValues) in
  let cardTitle := v_title newValues in
  let changes :=
    ((if titleChanged then ["title"] else []) ++
     (if priorityChanged then ["priority"] else []) ++
     (if descriptionChanged then ["description"] else []) ++
     (if assigneeChanged then ["assignee"] else []))%list in
  if bool_decide (length changes = 0%nat) then
    quote +:+ cardTitle +:+ quote +:+ " ✎"
  else
    quote +:+ cardTitle +:+ quote +:+ " ✎ " +:+ join ", " changes.

Definition resetDragState (context : KanbanContext) : KanbanContext :=
  set_dropTargetCardId None
    (set_dropTargetColumnId None
      (set_sourceColumnId None
        (set_draggedCardId None context))).

(** [performEdit].  The store of card objects, the context and the
    counter [commandSeqId] after the call; [now] is [Date.now()]. *)
Definition performEdit (σ : gmap CardRef KanbanCard)
    (context : KanbanContext) (now commandSeqId : Z) :
    gmap CardRef KanbanCard * KanbanContext * Z :=
  let sanitizedTitle := sanitizeTitle (editTitle context) in
  if negb (JS.truthy_opt (editingCardId context))
     || negb (JS.truthy sanitizedTitle)
  then (σ, set_editingCardId None context, commandSeqId)
  else
    let editing := default "" (editingCardId context) in
    match findCardLocation σ (columns context) editing with
    | None => (σ, set_editingCardId None context, commandSeqId)
    | Some (ci, i) =>
        match r ← card_at (columns context) ci i; c ← σ !! r; Some (r, c) with
        | None => (σ, set_editingCardId None context, commandSeqId)
        | Some (r, card) =>
            let oldValues :=
              {| v_title := card_title card;
                 v_priority := card_priority card;
                 v_description := JS.or_empty (card_description card);
                 v_assignee := JS.or_empty (card_assignee card) |} in
            let newValues :=
              {| v_title := sanitizedTitle;
                 v_priority := editPriority context;
                 v_description := JS.trim (editDescription context);
                 v_assignee := JS.trim (editAssignee context) |} in
            let command :=
              EditCommand
                {| timestamp := now;
                   description := getEditDescription oldValues newValues;
                   seqId := commandSeqId + 1 |}
                editing oldValues newValues in
            (alter (assign_values newValues) r σ,
             set_editingCardId None (pushCommand context command),
             commandSeqId + 1)
        end
    end.

Definition initNewCardModal (context : KanbanContext)
    (columnId : option string) : KanbanContext :=
  set_newCardAssignee ""
    (set_newCardDescription ""
      (set_newCardPriority Medium
        (set_newCardTitle ""
          (set_newCardModalOpen true
            (set_newCardColumnId columnId context))))).

(** [performUndo] and [performRedo] ([kanban.ts], lines 471-484).
    [None]: [history[ historyIndex ]] is [undefined] and reading its
    [type] raises. *)
Definition performUndo (σ : gmap CardRef KanbanCard)
    (context : KanbanContext) :
    option (gmap CardRef KanbanCard * KanbanContext) :=
  if historyIndex context >=? 0 then
    command ← JS.at_index (history context) (historyIndex context);
    let '(σ, columns) := reverseCommand σ (columns context) command in
    Some (σ, set_historyIndex (historyIndex context - 1)
               (set_columns columns context))
  else Some (σ, context).

Definition performRedo (σ : gmap CardRef KanbanCard)
    (context : KanbanContext) :
    option (gmap CardRef KanbanCard * KanbanContext) :=
  if historyIndex context <? Z.of_nat (length (history context)) - 1 then
    let context := set_historyIndex (historyIndex context + 1) context in
    command ← JS.at_index (history context) (historyIndex context);
    let '(σ, columns) := executeCommand σ (columns context) command in
    Some (σ, set_columns columns context)
  else Some (σ, context).

(** ** Actions of the store ([kanban.ts], lines 865-1361) *)

(** [handleDropOnColumn]; [item] is the column the handler is bound to.
    The card objects are read but not written. *)
Definition handleDropOnColumn (σ : gmap CardRef KanbanCard)
    (context : KanbanContext) (item : option KanbanColumn)
    (now commandSeqId : Z) : KanbanContext * Z :=
  let targetColumnId := col_id <$> item in
  if negb (JS.truthy_opt (draggedCardId context))
     || negb (JS.truthy_opt (sourceColumnId context))
     || negb (JS.truthy_opt targetColumnId)
  then (context, commandSeqId)
  else
    let dragged := default "" (draggedCardId context) in
    let sourceId := default "" (sourceColumnId context) in
    let targetId := default "" targetColumnId in
    match findColumn (columns context) sourceId,
          findColumn (columns context) targetId with
    | Some (si, sourceColumn), Some (ti, targetColumn) =>
        match findCardIndex σ dragged (col_cards sourceColumn) with
        | None => (context, commandSeqId)
        | Some cardIndex =>
            match r ← col_cards sourceColumn !! cardIndex;
                  c ← σ !! r; Some (r, c) with
            | None => (context, commandSeqId)
            | Some (r, card) =>
                let insertIndex :=
                  if JS.truthy_opt (dropTargetCardId context) then
                    match findCardIndex σ
                            (default "" (dropTargetCardId context))
                            (col_cards targetColumn) with
                    | Some targetIndex =>
                        match dropPosition context with
                        | Before => targetIndex
                        | After => (targetIndex + 1)%nat
                        end
                    | None => length (col_cards targetColumn)
                    end
                  else length (col_cards targetColumn) in
                let finalIndex :=
                  if (cardIndex <? insertIndex)%nat
                  then (insertIndex - 1)%nat else insertIndex in
                if bool_decide (si = ti) && bool_decide (finalIndex = cardIndex)
                then (resetDragState context, commandSeqId)
                else
                  let actualInsertIndex :=
                    if bool_decide (si = ti) && (cardIndex <? insertIndex)%nat
                    then (insertIndex - 1)%nat else insertIndex in
                  let command :=
                    MoveCommand
                      {| timestamp := now;
                         description :=
                           col_title sourceColumn +:+ " → " +:+
                           col_title targetColumn;
                         seqId := commandSeqId + 1 |}
                      (card_id card) (card_title card)
                      {| columnId := sourceId; index := Z.of_nat cardIndex |}
                      {| columnId := targetId;
                         index := Z.of_nat insertIndex |} in
                  let columns :=
                    update_cards si (JS.splice_remove cardIndex)
                      (columns context) in
                  let columns :=
                    update_cards ti
                      (JS.splice_insert (Z.of_nat actualInsertIndex) r)
                      columns in
                  (resetDragState
                     (pushCommand (set_columns columns context) command),
                   commandSeqId + 1)
            end
        end
    | _, _ => (context, commandSeqId)
    end.

Definition handleDragEnd (context : KanbanContext) : KanbanContext :=
  resetDragState context.

(** [openNewCardModal]; [item] is the column of the button.
    [column?.id || null] *)
Definition openNewCardModal (context : KanbanContext)
    (item : option KanbanColumn) : KanbanContext :=
  initNewCardModal context
    (match item with
     | Some column =>
         if JS.truthy (col_id column) then Some (col_id column) else None
     | None => None
     end).

(** [setNewCardTitle]; [value] is the value of the input element. *)
Definition setNewCardTitle (context : KanbanContext) (value : string) :
    KanbanContext :=
  set_newCardTitle value context.

(** [createCard]; [random] is the random part of the new id.  The new
    card object gets a reference that is not in use. *)
Definition createCard (σ : gmap CardRef KanbanCard)
    (context : KanbanContext) (now : Z) (random : string)
    (commandSeqId : Z) : gmap CardRef KanbanCard * KanbanContext * Z :=
  let sanitizedTitle := sanitizeTitle (newCardTitle context) in
  if negb (JS.truthy sanitizedTitle)
     || negb (JS.truthy_opt (newCardColumnId context))
  then (σ, context, commandSeqId)
  else
    let newCardColumnId := default "" (newCardColumnId context) in
    match findColumn (columns context) newCardColumnId with
    | None => (σ, resetNewCardModal context, commandSeqId)
    | Some (ci, _) =>
        let newCard :=
          {| card_id := generateId now random;
             card_title := sanitizedTitle;
             card_description :=
               JS.or_undefined (JS.trim (newCardDescription context));
             card_priority := newCardPriority context;
             card_assignee :=
               JS.or_undefined (JS.trim (newCardAssignee context));
             card_createdAt := now |} in
        let r := fresh (dom σ) in
        let command :=
          CreateCommand
            {| timestamp := now;
               description := "+ " +:+ quote +:+ card_title newCard +:+ quote;
               seqId := commandSeqId + 1 |}
            r newCardColumnId in
        let columns :=
          update_cards ci (λ cards, JS.push cards r) (columns context) in
        (<[r := newCard]> σ,
         set_newCardTitle ""
           (set_newCardModalOpen false
              (pushCommand (set_columns columns context) command)),
         commandSeqId + 1)
    end.

(** [editCard], up to [yield splitTask()]; what follows the [yield]
    only moves the focus.  [item] is the card object of the button. *)
Definition editCard (σ : gmap CardRef KanbanCard)
    (context : KanbanContext) (item : option CardRef) : KanbanContext :=
  match c ← item; σ !! c with
  | None => context
  | Some card =>
      set_editAssignee (JS.or_empty (card_assignee card))
        (set_editDescription (JS.or_empty (card_description card))
          (set_editPriority (card_priority card)
            (set_editTitle (card_title card)
              (set_editingCardId (Some (card_id card)) context))))
  end.

(** [setEditTitle]; [value] is the value of the input element. *)
Definition setEditTitle (context : KanbanContext) (value : string) :
    KanbanContext :=
  set_editTitle value context.

Definition saveEdit := performEdit.

(** [deleteCard]; [item] is the card object the handler is bound to.
    The command keeps a copy [{ ...card }] of it, a new object. *)
Definition deleteCard (σ : gmap CardRef KanbanCard)
    (context : KanbanContext) (item : option CardRef)
    (now commandSeqId : Z) : gmap CardRef KanbanCard * KanbanContext * Z :=
  match c ← item; card ← σ !! c; Some card with
  | None => (σ, context, commandSeqId)
  | Some card =>
      match findCardLocation σ (columns context) (card_id card) with
      | None => (σ, context, commandSeqId)
      | Some (ci, i) =>
          let copy := fresh (dom σ) in
          let command :=
            DeleteCommand
              {| timestamp := now;
                 description := card_title card;
                 seqId := commandSeqId + 1 |}
              copy
              (default "" (col_id <$> columns context !! ci))
              (Z.of_nat i) in
          let columns :=
            update_cards ci (JS.splice_remove i) (columns context) in
          (<[copy := card]> σ,
           pushCommand (set_columns columns context) command,
           commandSeqId + 1)
      end
  end.

(** The loop [for ( i = first; ...; i++ ) executeCommand( columns,
    history[ i ] )] with [count] iterations. *)
Fixpoint execute_from (history : list Command) (count : nat) (i : Z)
    (σ : gmap CardRef KanbanCard) (columns : list KanbanColumn) :
    option (gmap CardRef KanbanCard * list KanbanColumn) :=
  match count with
  | O => Some (σ, columns)
  | S count =>
      command ← JS.at_index history i;
      let '(σ, columns) := executeCommand σ columns command in
      execute_from history count (i + 1) σ columns
  end.

(** The loop [for ( i = first; ...; i-- ) reverseCommand( columns,
    history[ i ] )] with [count] iterations. *)
Fixpoint reverse_from (history : list Command) (count : nat) (i : Z)
    (σ : gmap CardRef KanbanCard) (columns : list KanbanColumn) :
    option (gmap CardRef KanbanCard * list KanbanColumn) :=
  match count with
  | O => Some (σ, columns)
  | S count =>
      command ← JS.at_index history i;
      let '(σ, columns) := reverseCommand σ columns command in
      reverse_from history count (i - 1) σ columns
  end.

Definition undo := performUndo.
Definition redo := performRedo.

(** [jumpToRevision]; [item] is the command of the revision clicked.
    The first loop runs for [i = historyIndex + 1 .. targetIndex], the
    second for [i = historyIndex .. targetIndex + 1]: both
    [|targetIndex - historyIndex|] times. *)
Definition jumpToRevision (σ : gmap CardRef KanbanCard)
    (context : KanbanContext) (item : option Command) :
    option (gmap CardRef KanbanCard * KanbanContext) :=
  match item with
  | None => Some (σ, context)
  | Some command =>
      match JS.findIndex
              (λ c, seqId (base_of c) = seqId (base_of command))
              (history context) with
      | None => Some (σ, context)
      | Some targetIndex =>
          let targetIndex := Z.of_nat targetIndex in
          '(σ, columns) ←
            (if targetIndex >? historyIndex context then
               execute_from (history context)
                 (Z.to_nat (targetIndex - historyIndex context))
                 (historyIndex context + 1) σ (columns context)
             else if targetIndex <? historyIndex context then
               reverse_from (history context)
                 (Z.to_nat (historyIndex context - targetIndex))
                 (historyIndex context) σ (columns context)
             else Some (σ, columns context));
          Some (σ, set_historyIndex targetIndex (set_columns columns context))
      end
  end.

(** [resetToInitial]: the loop [while ( historyIndex >= 0 )] runs
    [historyIndex + 1] times. *)
Definition resetToInitial (σ : gmap CardRef KanbanCard)
    (context : KanbanContext) :
    option (gmap CardRef KanbanCard * KanbanContext) :=
  if historyIndex context >=? 0 then
    '(σ, columns) ←
      reverse_from (history context)
        (Z.to_nat (historyIndex context + 1))
        (historyIndex context) σ (columns context);
    Some (σ, set_historyIndex (-1) (set_columns columns context))
  else Some (σ, context).

(** ** Derived state and the remaining drag actions
    ([kanban.ts], lines 515-554, 650-657, 870-957, 1195-1198) *)

Definition set_dropPosition (v : DropPosition) (context : KanbanContext) :
    KanbanContext :=
  {| columns := columns context; draggedCardId := draggedCardId context;
     sourceColumnId := sourceColumnId context;
     dropTargetColumnId := dropTargetColumnId context;
     dropTargetCardId := dropTargetCardId context; dropPosition := v;
     editingCardId := editingCardId context;
     editTitle := editTitle context; editPriority := editPriority context;
     editDescription := editDescription context;
     editAssignee := editAssignee context;
     searchQuery := searchQuery context;
     filterPriority := filterPriority context; history := history context;
     historyIndex := historyIndex context;
     newCardModalOpen := newCardModalOpen context;
     newCardColumnId := newCardColumnId context;
     newCardTitle := newCardTitle context;
     newCardPriority := newCardPriority context;
     newCardDescription := newCardDescription context;
     newCardAssignee := newCardAssignee context;
     revisionPanelOpen := revisionPanelOpen context;
     hoveredRevisionId := hoveredRevisionId context |}.

(** [state.canUndo] and [state.canRedo] *)
Definition canUndo (context : KanbanContext) : bool :=
  historyIndex context >=? 0.

Definition canRedo (context : KanbanContext) : bool :=
  historyIndex context <? Z.of_nat (length (history context)) - 1.

(** The filter of the search box: [card.title.toLowerCase().includes(
    query ) || card.description?.toLowerCase().includes( query ) ||
    card.assignee?.toLowerCase().includes( query )]. *)
Definition matches_query (query : string) (card : KanbanCard) : bool :=
  JS.includes (JS.toLowerCase (card_title card)) query
  || match card_description card with
     | Some description => JS.includes (JS.toLowerCase description) query
     | None => false
     end
  || match card_assignee card with
     | Some assignee => JS.includes (JS.toLowerCase assignee) query
     | None => false
     end.

(** [state.filteredCards]; [item] is the column of the list. *)
Definition filteredCards (σ : gmap CardRef KanbanCard)
    (context : KanbanContext) (item : option KanbanColumn) : list CardRef :=
  match item with
  | None => []
  | Some column =>
      let cards := col_cards column in
      let cards :=
        if JS.truthy (searchQuery context) then
          let query := JS.toLowerCase (searchQuery context) in
          filter (λ r, matches_query query <$> σ !! r = Some true) cards
        else cards in
      match filterPriority context with
      | FilterAll => cards
      | FilterBy priority =>
          filter (λ r, card_priority <$> σ !! r = Some priority) cards
      end
  end.

(** [state.isCurrentRevision]; [item] is the command of the list.
    [findIndex] gives [-1] when no entry has the [seqId]. *)
Definition isCurrentRevision (context : KanbanContext)
    (item : option Command) : bool :=
  match item with
  | None => false
  | Some command =>
      let commandIndex :=
        match JS.findIndex
                (λ c, seqId (base_of c) = seqId (base_of command))
                (history context) with
        | Some i => Z.of_nat i
        | None => -1
        end in
      bool_decide (commandIndex = historyIndex context)
  end.

(** [handleDragStart], without the [dataTransfer] of the event;
    [item] is the card object. *)
Definition handleDragStart (σ : gmap CardRef KanbanCard)
    (context : KanbanContext) (item : option CardRef) : KanbanContext :=
  match c ← item; σ !! c with
  | None => context
  | Some card =>
      let context := set_draggedCardId (Some (card_id card)) context in
      match findCardLocation σ (columns context) (card_id card) with
      | Some (ci, _) =>
          match columns context !! ci with
          | Some column => set_sourceColumnId (Some (col_id column)) context
          | None => context
          end
      | None => context
      end
  end.

(** [handleDragOver]; [item] is the column. *)
Definition handleDragOver (context : KanbanContext)
    (item : option KanbanColumn) : KanbanContext :=
  match item with
  | Some column =>
      if bool_decide (Some (col_id column) ≠ sourceColumnId context) then
        set_dropTargetCardId None
          (set_dropTargetColumnId (Some (col_id column)) context)
      else context
  | None => context
  end.

(** [handleCardDragOver]; [item] is the card object under the pointer
    and [upperHalf] is [event.clientY < midY], when the element is
    there to measure. *)
Definition handleCardDragOver (σ : gmap CardRef KanbanCard)
    (context : KanbanContext) (item : option CardRef)
    (upperHalf : option bool) : KanbanContext :=
  match c ← item; σ !! c with
  | None => context
  | Some card =>
      if bool_decide (Some (card_id card) = draggedCardId context)
      then context
      else
        let context := set_dropTargetCardId (Some (card_id card)) context in
        match upperHalf with
        | Some true => set_dropPosition Before context
        | Some false => set_dropPosition After context
        | None => context
        end
  end.

End Kanban.

(** ** Live search ([live-search.ts]) *)

Module LiveSearch.

Record SearchResult := {
  id : Z;
  title : string;
  description : string;
  category : string;
}.

Record LiveSearchContext := {
  query : string;
  results : list SearchResult;
  isLoading : bool;
  selectedIndex : Z;
  isOpen : bool;
  recentSearches : list string;
  _pendingSearchId : option Z;
}.

Definition result (id : Z) (title description category : string) :=
  {| id := id; title := title; description := description;
     category := category |}.

Definition searchDatabase : list SearchResult := [
  result 1 "React Hooks" "useState, useEffect, useContext" "Frontend";
  result 2 "Vue Composition API" "ref, reactive, computed" "Frontend";
  result 3 "Angular Services" "Dependency injection patterns" "Frontend";
  result 4 "Node.js Streams" "Readable and writable streams" "Backend";
  result 5 "Express Middleware" "Request processing pipeline" "Backend";
  result 6 "GraphQL Queries" "Schema and resolver patterns" "API";
  result 7 "REST API Design" "Resource-based architecture" "API";
  result 8 "SQL Joins" "Inner, outer, and cross joins" "Database";
  result 9 "MongoDB Aggregation" "Pipeline stages and operators" "Database";
  result 10 "Redis Caching" "In-memory data structures" "Database";
  result 11 "Docker Containers" "Containerization basics" "DevOps";
  result 12 "Kubernetes Pods" "Orchestration fundamentals" "DevOps";
  result 13 "React Context" "Global state management" "Frontend";
  result 14 "Redux Store" "Predictable state container" "Frontend";
  result 15 "TypeScript Generics" "Type parameter patterns" "Language"
].

(** The value the promise of [simulateSearch( query )] resolves with,
    some time after the call. *)
Definition simulateSearch (query : string) : list SearchResult :=
  filter
    (λ item,
       JS.includes (JS.toLowerCase (title item)) (JS.toLowerCase query)
       || JS.includes (JS.toLowerCase (description item))
            (JS.toLowerCase query)
       || JS.includes (JS.toLowerCase (category item))
            (JS.toLowerCase query))
    searchDatabase.

(** A suspended invocation of the generator [updateQuery]: the place it
    is suspended at and its local constants [newQuery] and [searchId]. *)
Inductive Task :=
| AtSplitTask (newQuery : string) (searchId : Z)
| AtSimulateSearch (newQuery : string) (searchId : Z).

(** What the awaited promise settles with. *)
Inductive Settled :=
| Resolved (results : list SearchResult)
| Rejected.

(** [updateQuery], from the call to the first [yield] or to [return];
    [newQuery] is [event.target.value]. *)
Definition updateQuery (context : LiveSearchContext) (newQuery : string) :
    LiveSearchContext * option Task :=
  if negb (JS.truthy (JS.trim newQuery)) then
    ({| query := newQuery; results := []; isLoading := isLoading context;
        selectedIndex := -1; isOpen := false;
        recentSearches := recentSearches context;
        _pendingSearchId := _pendingSearchId context |},
     None)
  else
    let searchId := default 0 (_pendingSearchId context) + 1 in
    ({| query := newQuery; results := results context; isLoading := true;
        selectedIndex := -1; isOpen := true;
        recentSearches := recentSearches context;
        _pendingSearchId := Some searchId |},
     Some (AtSplitTask newQuery searchId)).

(** [context._pendingSearchId === searchId] *)
Definition is_current (context : LiveSearchContext) (searchId : Z) : bool :=
  bool_decide (_pendingSearchId context = Some searchId).

Definition set_results (v : list SearchResult)
    (context : LiveSearchContext) : LiveSearchContext :=
  {| query := query context; results := v; isLoading := isLoading context;
     selectedIndex := selectedIndex context; isOpen := isOpen context;
     recentSearches := recentSearches context;
     _pendingSearchId := _pendingSearchId context |}.

Definition set_isLoading (v : bool) (context : LiveSearchContext) :
    LiveSearchContext :=
  {| query := query context; results := results context; isLoading := v;
     selectedIndex := selectedIndex context; isOpen := isOpen context;
     recentSearches := recentSearches context;
     _pendingSearchId := _pendingSearchId context |}.

(** [updateQuery], resumed after [yield splitTask()]: it calls
    [simulateSearch( newQuery )] and yields the promise. *)
Definition resume_splitTask (task : Task) : Task :=
  match task with
  | AtSplitTask newQuery searchId => AtSimulateSearch newQuery searchId
  | AtSimulateSearch _ _ => task
  end.

(** [updateQuery], resumed when the promise is settled: the rest of the
    [try], the [catch] and the [finally] blocks. *)
Definition resume_search (context : LiveSearchContext) (searchId : Z)
    (settled : Settled) : LiveSearchContext :=
  let context :=
    match settled with
    | Resolved results =>
        if is_current context searchId then set_results results context
        else context
    | Rejected =>
        if is_current context searchId
        then set_isLoading false (set_results [] context)
        else context
    end in
  if is_current context searchId then set_isLoading false context
  else context.

(** [callbacks.init] *)
Definition init (context : LiveSearchContext) : LiveSearchContext :=
  {| query := query context; results := results context;
     isLoading := isLoading context;
     selectedIndex := selectedIndex context; isOpen := isOpen context;
     recentSearches := recentSearches context;
     _pendingSearchId := Some 0 |}.

(** *** The single-threaded scheduler

    The page is the context and the suspended invocations of
    [updateQuery]; one event is handled at a time. *)

Record Page := {
  context : LiveSearchContext;
  tasks : list Task;
}.

Inductive Event :=
| Input (newQuery : string)
    (* the user edits the search box: [updateQuery] is called *)
| TaskResumes (k : nat)
    (* the scheduler resumes task [k] after [splitTask] *)
| SearchSettles (k : nat) (rejects : bool).
    (* the promise task [k] waits for resolves (or rejects) *)

Definition handle (page : Page) (event : Event) : Page :=
  match event with
  | Input newQuery =>
      let '(context, task) := updateQuery (context page) newQuery in
      {| context := context;
         tasks := tasks page ++ option_list task |}
  | TaskResumes k =>
      {| context := context page;
         tasks := alter resume_splitTask k (tasks page) |}
  | SearchSettles k rejects =>
      match tasks page !! k with
      | Some (AtSimulateSearch newQuery searchId) =>
          {| context :=
               resume_search (context page) searchId
                 (if rejects then Rejected
                  else Resolved (simulateSearch newQuery));
             tasks := delete k (tasks page) |}
      | _ => page
      end
  end.

Definition run (page : Page) (events : list Event) : Page :=
  foldl handle page events.

(** *** Derived state and the other actions ([live-search.ts],
    lines 63-95 and 143-205) *)

Definition hasResults (context : LiveSearchContext) : bool :=
  bool_decide (0 < length (results context))%nat.

Definition hasQuery (context : LiveSearchContext) : bool :=
  JS.truthy (JS.trim (query context)).

Definition showDropdown (context : LiveSearchContext) : bool :=
  isOpen context && (isLoading context || hasResults context).

Definition selectedResult (context : LiveSearchContext) :
    option SearchResult :=
  if (selectedIndex context >=? 0)
     && (selectedIndex context <? Z.of_nat (length (results context)))
  then JS.at_index (results context) (selectedIndex context)
  else None.

(** The keys [handleKeydown] tells apart. *)
Inductive Key := ArrowDown | ArrowUp | Enter | Escape | OtherKey.

Definition set_selectedIndex (v : Z) (context : LiveSearchContext) :
    LiveSearchContext :=
  {| query := query context; results := results context;
     isLoading := isLoading context; selectedIndex := v;
     isOpen := isOpen context; recentSearches := recentSearches context;
     _pendingSearchId := _pendingSearchId context |}.

Definition set_isOpen (v : bool) (context : LiveSearchContext) :
    LiveSearchContext :=
  {| query := query context; results := results context;
     isLoading := isLoading context;
     selectedIndex := selectedIndex context; isOpen := v;
     recentSearches := recentSearches context;
     _pendingSearchId := _pendingSearchId context |}.

(** The shared end of [Enter] and [selectResult]: the title goes to
    the front of the recent searches unless it is among them, and the
    search is closed. *)
Definition choose (context : LiveSearchContext) (result : SearchResult) :
    LiveSearchContext :=
  {| query := ""; results := []; isLoading := isLoading context;
     selectedIndex := selectedIndex context; isOpen := false;
     recentSearches :=
       if bool_decide (title result ∈ recentSearches context)
       then recentSearches context
       else JS.slice (title result :: recentSearches context) 0 5;
     _pendingSearchId := _pendingSearchId context |}.

Definition handleKeydown (context : LiveSearchContext) (key : Key) :
    LiveSearchContext :=
  match key with
  | ArrowDown =>
      if bool_decide (0 < length (results context))%nat then
        set_selectedIndex
          (if selectedIndex context
              <? Z.of_nat (length (results context)) - 1
           then selectedIndex context + 1 else 0)
          context
      else context
  | ArrowUp =>
      if bool_decide (0 < length (results context))%nat then
        set_selectedIndex
          (if selectedIndex context >? 0
           then selectedIndex context - 1
           else Z.of_nat (length (results context)) - 1)
          context
      else context
  | Enter =>
      if selectedIndex context >=? 0 then
        match JS.at_index (results context) (selectedIndex context) with
        | Some result => choose context result
        | None => context
        end
      else context
  | Escape => set_isOpen false context
  | OtherKey => context
  end.

(** [selectResult]; [item] is the result clicked. *)
Definition selectResult (context : LiveSearchContext)
    (item : option SearchResult) : LiveSearchContext :=
  match item with
  | Some result => choose context result
  | None => context
  end.

Definition focusInput (context : LiveSearchContext) : LiveSearchContext :=
  if JS.truthy (JS.trim (query context)) then set_isOpen true context
  else context.

End LiveSearch.

(** ** Todo list ([todo-list.ts]) *)

Module TodoList.

Record TodoItem := {
  id : Z;
  text : string;
  completed : bool;
}.

Record TodoContext := {
  todos : list TodoItem;
  newTodoText : string;
  nextId : Z;
}.

Definition addTodoItem (context : TodoContext) : TodoContext :=
  let text := JS.trim (newTodoText context) in
  if JS.truthy text then
    {| todos :=
         JS.push (todos context)
           {| id := nextId context; text := text; completed := false |};
       newTodoText := "";
       nextId := nextId context + 1 |}
  else context.

(** [state.remainingItems] *)
Definition remainingItems (context : TodoContext) : Z :=
  Z.of_nat (length (filter (λ t, negb (completed t) = true) (todos context))).

Definition hasNoTodos (context : TodoContext) : bool :=
  bool_decide (length (todos context) = 0%nat).

Definition hasCompletedItems (context : TodoContext) : bool :=
  existsb completed (todos context).

(** [actions.updateNewTodoText]; [value] is [event.target.value]. *)
Definition updateNewTodoText (context : TodoContext) (value : string) :
    TodoContext :=
  {| todos := todos context; newTodoText := value;
     nextId := nextId context |}.

Definition addTodo (context : TodoContext) : TodoContext :=
  addTodoItem context.

(** [actions.toggleTodo].  [context.item] is one of the objects of
    [context.todos], given by its position in the array. *)
Definition toggleTodo (context : TodoContext) (item : option nat) :
    TodoContext :=
  match item with
  | Some position =>
      {| todos :=
           alter
             (λ t, {| id := id t; text := text t;
                      completed := negb (completed t) |})
             position (todos context);
         newTodoText := newTodoText context;
         nextId := nextId context |}
  | None => context
  end.

Definition deleteTodo (context : TodoContext) (item : option nat) :
    TodoContext :=
  match i ← item; todos context !! i with
  | Some item =>
      match JS.findIndex (λ t, id t = id item) (todos context) with
      | Some idx =>
          {| todos := JS.splice_remove idx (todos context);
             newTodoText := newTodoText context;
             nextId := nextId context |}
      | None => context
      end
  | None => context
  end.

Definition toggleAll (context : TodoContext) : TodoContext :=
  let allCompleted := forallb completed (todos context) in
  {| todos :=
       map (λ t, {| id := id t; text := text t;
                    completed := negb allCompleted |})
         (todos context);
     newTodoText := newTodoText context;
     nextId := nextId context |}.

Definition clearCompleted (context : TodoContext) : TodoContext :=
  {| todos := filter (λ t, negb (completed t) = true) (todos context);
     newTodoText := newTodoText context;
     nextId := nextId context |}.

End TodoList.

Local Close Scope string_scope.

(** ** Vocabulary of the properties *)

Module Props.
Import Kanban.

(** The invariant of the history log: the index is [-1] (initial
    state) or the position of an entry, and the log holds at most
    [MAX_HISTORY_SIZE] entries. *)
Definition history_ok (context : KanbanContext) : Prop :=
  -1 ≤ historyIndex context ≤ Z.of_nat (length (history context)) - 1
  ∧ Z.of_nat (length (history context)) ≤ MAX_HISTORY_SIZE.

(** The entries of the log up to and including [historyIndex]. *)
Definition past (context : KanbanContext) : list Command :=
  take (Z.to_nat (historyIndex context + 1)) (history context).

(** The value of a column: its fields, each card reference replaced
    by the content of the card object. *)
Record ColumnValue := {
  cv_id : string;
  cv_title : string;
  cv_cards : list (option KanbanCard);
  cv_color : string;
}.

Definition column_value (σ : gmap CardRef KanbanCard)
    (column : KanbanColumn) : ColumnValue :=
  {| cv_id := col_id column; cv_title := col_title column;
     cv_cards := (σ !!.) <$> col_cards column;
     cv_color := col_color column |}.

(** The state of the columns document: the value of [context.columns]. *)
Definition document (σ : gmap CardRef KanbanCard)
    (columns : list KanbanColumn) : list ColumnValue :=
  column_value σ <$> columns.

(** The card references of the columns of a context, and the titles
    of the cards behind them. *)
Definition cards_of (context : KanbanContext) : list (list CardRef) :=
  col_cards <$> columns context.

Definition titles_of (σ : gmap CardRef KanbanCard)
    (context : KanbanContext) : list (list (option string)) :=
  (λ column, (λ r, card_title <$> σ !! r) <$> col_cards column)
  <$> columns context.

(** The id [cardId] is the id of at most one card of the document. *)
Definition unique_id (σ : gmap CardRef KanbanCard)
    (columns : list KanbanColumn) (cardId : string) : Prop :=
  ∀ ci i cj j r r',
    card_at columns ci i = Some r → card_at columns cj j = Some r' →
    has_id σ cardId r → has_id σ cardId r' → ci = cj ∧ i = j.

(** A command records a document when its data are those of the
    document it is to be executed on:
    - Move: the card is the only one with its id, [from] is the column
      and the index it is found at, and the column [to] exists;
    - Create: the card object exists and the target column holds no
      card with its id;
    - Edit: the old values are those of the card ([''] for an absent
      description or assignee);
    - Delete: [card] is a copy of the card found in the column, and
      [index] is its index. *)
Definition records (σ : gmap CardRef KanbanCard)
    (columns : list KanbanColumn) (command : Command) : Prop :=
  match command with
  | MoveCommand _ cardId _ from to =>
      unique_id σ columns cardId
      ∧ ∀ ci i,
          findCardLocation σ columns cardId = Some (ci, i) →
          fst <$> findColumn columns (columnId from) = Some ci
          ∧ index from = Z.of_nat i
          ∧ is_Some (findColumn columns (columnId to))
  | CreateCommand _ card columnId =>
      ∀ ci column,
        findColumn columns columnId = Some (ci, column) →
        ∃ c, σ !! card = Some c
             ∧ findCardIndex σ (card_id c) (col_cards column) = None
  | EditCommand _ cardId oldValues _ =>
      ∀ ci i r c,
        findCardLocation σ columns cardId = Some (ci, i) →
        card_at columns ci i = Some r → σ !! r = Some c →
        assign_values oldValues c = c
  | DeleteCommand _ card columnId index =>
      ∀ ci column,
        findColumn columns columnId = Some (ci, column) →
        ∃ c i r,
          σ !! card = Some c
          ∧ findCardIndex σ (card_id c) (col_cards column) = Some i
          ∧ index = Z.of_nat i
          ∧ col_cards column !! i = Some r
          ∧ σ !! r = Some c
  end.


(** Executing a command and reversing it at once. *)
Definition execute_then_reverse (σ : gmap CardRef KanbanCard)
    (columns : list KanbanColumn) (command : Command) :
    gmap CardRef KanbanCard * list KanbanColumn :=
  let '(σ, columns) := executeCommand σ columns command in
  reverseCommand σ columns command.

(** What [resetDragState] establishes: the four references of the
    drag session are [null]; the drop position is not part of it. *)
Definition drag_session_cleared (before after : KanbanContext) : Prop :=
  draggedCardId after = None
  ∧ sourceColumnId after = None
  ∧ dropTargetColumnId after = None
  ∧ dropTargetCardId after = None
  ∧ dropPosition after = dropPosition before.

(** The newest [n] entries of a log. *)
Definition newest (n : nat) (log : list Command) : list Command :=
  drop (length log - n) log.

(** Calling [pushCommand] for each command of a list, in order. *)
Definition push_all (context : KanbanContext) (commands : list Command) :
    KanbanContext :=
  foldl pushCommand context commands.

(** Executing, respectively reversing, the commands of a list in order. *)
Definition execute_all (σ : gmap CardRef KanbanCard)
    (columns : list KanbanColumn) (commands : list Command) :
    gmap CardRef KanbanCard * list KanbanColumn :=
  foldl (λ '(σ, columns) command, executeCommand σ columns command)
    (σ, columns) commands.

Definition reverse_all (σ : gmap CardRef KanbanCard)
    (columns : list KanbanColumn) (commands : list Command) :
    gmap CardRef KanbanCard * list KanbanColumn :=
  foldl (λ '(σ, columns) command, reverseCommand σ columns command)
    (σ, columns) commands.

End Props.

(** ** Sample data *)

Module Sample.
Import Kanban.
Local Open Scope string_scope.

Definition a_command (n : Z) : Command :=
  CreateCommand {| timestamp := 0; description := ""; seqId := n |}
    0%nat "todo".

Definition empty_context : KanbanContext :=
  {| columns := []; draggedCardId := None; sourceColumnId := None;
     dropTargetColumnId := None; dropTargetCardId := None;
     dropPosition := Before; editingCardId := None; editTitle := "";
     editPriority := Medium; editDescription := ""; editAssignee := "";
     searchQuery := ""; filterPriority := FilterAll; history := [];
     historyIndex := -1; newCardModalOpen := false;
     newCardColumnId := None; newCardTitle := "";
     newCardPriority := Medium; newCardDescription := "";
     newCardAssignee := ""; revisionPanelOpen := false;
     hoveredRevisionId := None |}.

Definition a_card (id title : string) : KanbanCard :=
  {| card_id := id; card_title := title; card_description := None;
     card_priority := Medium; card_assignee := None; card_createdAt := 0 |}.

(** Three card objects A, B and C with the ids a, b and c. *)
Definition cards : gmap CardRef KanbanCard :=
  <[0%nat := a_card "a" "A"]>
    (<[1%nat := a_card "b" "B"]> (<[2%nat := a_card "c" "C"]> ∅)).

Definition a_column (id title : string) (cards : list CardRef) :=
  {| col_id := id; col_title := title; col_cards := cards;
     col_color := "" |}.

Definition todo : KanbanColumn := a_column "todo" "To Do" [0; 1; 2]%nat.
Definition done_column : KanbanColumn := a_column "done" "Done" [].

(** The board: A, B and C in "To Do", nothing in "Done". *)
Definition board : KanbanContext := set_columns [todo; done_column] empty_context.

(** The board while the card [cardId] of column [sourceId] is dragged
    over the card [over], in the half given by [position]. *)
Definition dragging (cardId sourceId : string) (over : option string)
    (position : DropPosition) : KanbanContext :=
  {| columns := [todo; done_column]; draggedCardId := Some cardId;
     sourceColumnId := Some sourceId;
     dropTargetColumnId := None; dropTargetCardId := over;
     dropPosition := position; editingCardId := None; editTitle := "";
     editPriority := Medium; editDescription := ""; editAssignee := "";
     searchQuery := ""; filterPriority := FilterAll; history := [];
     historyIndex := -1; newCardModalOpen := false;
     newCardColumnId := None; newCardTitle := "";
     newCardPriority := Medium; newCardDescription := "";
     newCardAssignee := ""; revisionPanelOpen := false;
     hoveredRevisionId := None |}.

(** The objects A, B, C, a card object D that is in no column, and a
    copy of B. *)
Definition objects : gmap CardRef KanbanCard :=
  <[3%nat := a_card "d" "D"]> (<[4%nat := a_card "b" "B"]> cards).

Definition values (title : string) : Values :=
  {| v_title := title; v_priority := Medium; v_description := "";
     v_assignee := "" |}.

Definition base (n : Z) : BaseCommand :=
  {| timestamp := 0; description := ""; seqId := n |}.

(** Commands that record the board. *)
Definition move_a_to_done : Command :=
  MoveCommand (base 1) "a" "A" {| columnId := "todo"; index := 0 |}
    {| columnId := "done"; index := 0 |}.
Definition create_d : Command := CreateCommand (base 2) 3%nat "done".
Definition edit_a : Command :=
  EditCommand (base 3) "a" (values "A") (values "A, again").
Definition delete_b : Command := DeleteCommand (base 4) 4%nat "todo" 1.


(** The board with the log [move_a_to_done; edit_a] and the given
    index. *)
Definition board_at (i : Z) : KanbanContext :=
  set_historyIndex i (set_history [move_a_to_done; edit_a] board).

(** An empty board with the one column "To Do". *)
Definition to_do : KanbanColumn := a_column "todo" "To Do" [].
Definition empty_board : KanbanContext := set_columns [to_do] empty_context.

End Sample.

(** *** Live search: vocabulary and sample data *)

Module SearchProps.
Import LiveSearch.

(** The constant [searchId] of a suspended invocation. *)
Definition searchId_of (task : Task) : Z :=
  match task with
  | AtSplitTask _ searchId | AtSimulateSearch _ searchId => searchId
  end.

(** The counter of invocations; [undefined ?? 0] is [0]. *)
Definition pending (context : LiveSearchContext) : Z :=
  default 0 (_pendingSearchId context).

(** No suspended invocation is ahead of the counter. *)
Definition page_ok (page : Page) : Prop :=
  is_Some (_pendingSearchId (context page))
  ∧ ∀ task, task ∈ tasks page → searchId_of task ≤ pending (context page).

(** The page after [callbacks.init], before any input. *)
Definition first_page : Page :=
  {| context :=
       init {| query := ""%string; results := []; isLoading := false;
               selectedIndex := -1; isOpen := false; recentSearches := [];
               _pendingSearchId := None |};
     tasks := [] |}.

End SearchProps.

(** ** Vocabulary of the further properties *)

Module TodoProps.
Import TodoList.


(** A list with two items, the first one completed. *)
Definition two_todos : TodoContext :=
  {| todos :=
       [{| id := 1; text := "Buy milk"%string; completed := true |};
        {| id := 2; text := "Walk dog"%string; completed := false |}];
     newTodoText := " Call mum "%string;
     nextId := 3 |}.

End TodoProps.

Module SearchProps2.
Import LiveSearch SearchProps.

(** The suspended invocations are listed oldest first: the ids grow
    along the list, and none is ahead of the counter. *)
Definition tasks_ordered (page : Page) : Prop :=
  is_Some (_pendingSearchId (context page))
  ∧ StronglySorted Z.lt (searchId_of <$> tasks page)
  ∧ Forall (λ n, n ≤ pending (context page)) (searchId_of <$> tasks page).

(** The recent searches: at most five, none twice. *)
Definition recent_ok (context : LiveSearchContext) : Prop :=
  NoDup (recentSearches context)
  ∧ (length (recentSearches context) ≤ 5)%nat.

(** The page while the results of "react" are shown, the second one
    selected. *)
Definition showing_react : LiveSearchContext :=
  {| query := "react"%string; results := simulateSearch "react";
     isLoading := false; selectedIndex := 1; isOpen := true;
     recentSearches := ["Redux Store"; "SQL Joins"]%string;
     _pendingSearchId := Some 1 |}.

End SearchProps2.

Module BoardProps.
Import Kanban Props.

(** Every card reference of the board, column after column. *)
Definition all_cards (columns : list KanbanColumn) : list CardRef :=
  columns ≫= col_cards.

(** There is a card object behind every reference of the board. *)
Definition allocated (σ : gmap CardRef KanbanCard)
    (columns : list KanbanColumn) : Prop :=
  ∀ ci i r, card_at columns ci i = Some r → is_Some (σ !! r).

(** A board as the page delivers it: no two cards with the same id, no
    two columns with the same id, and a card object behind every
    reference. *)
Definition board_ok (σ : gmap CardRef KanbanCard)
    (columns : list KanbanColumn) : Prop :=
  (∀ cardId, unique_id σ columns cardId)
  ∧ NoDup (col_id <$> columns)
  ∧ allocated σ columns.

(** What [handleDropOnColumn] looks up before it moves a card: the
    dragged card id and the ids of the two columns are set, both
    columns are found, at [si] and [ti], and the dragged card is found
    in the source column, at [cardIndex], where [r] refers to the card
    object [card]. *)
Definition drop_finds (σ : gmap CardRef KanbanCard)
    (context : KanbanContext) (item : option KanbanColumn)
    (si : nat) (sourceColumn : KanbanColumn)
    (ti : nat) (targetColumn : KanbanColumn)
    (cardIndex : nat) (r : CardRef) (card : KanbanCard) : Prop :=
  JS.truthy_opt (draggedCardId context) = true
  ∧ JS.truthy_opt (sourceColumnId context) = true
  ∧ JS.truthy_opt (col_id <$> item) = true
  ∧ findColumn (columns context) (default ""%string (sourceColumnId context))
    = Some (si, sourceColumn)
  ∧ findColumn (columns context) (default ""%string (col_id <$> item))
    = Some (ti, targetColumn)
  ∧ findCardIndex σ (default ""%string (draggedCardId context))
      (col_cards sourceColumn) = Some cardIndex
  ∧ col_cards sourceColumn !! cardIndex = Some r
  ∧ σ !! r = Some card.

(** A string of white space only. *)
Fixpoint blank (s : string) : bool :=
  match s with
  | String a s' => JS.is_white a && blank s'
  | EmptyString => true
  end.

(** Every card object has a title that is not empty and not longer
    than [MAX_TITLE_LENGTH]. *)
Definition titles_ok (σ : gmap CardRef KanbanCard) : Prop :=
  ∀ r card, σ !! r = Some card →
    card_title card ≠ EmptyString
    ∧ (String.length (card_title card) ≤ MAX_TITLE_LENGTH)%nat.

(** The sequence ids of the log, oldest first. *)
Definition seqIds (context : KanbanContext) : list Z :=
  (λ command, seqId (base_of command)) <$> history context.

(** The sequence ids grow along the log and none is ahead of the
    counter [commandSeqId]. *)
Definition log_ok (context : KanbanContext) (commandSeqId : Z) : Prop :=
  StronglySorted Z.lt (seqIds context)
  ∧ Forall (λ n, n ≤ commandSeqId) (seqIds context).

(** [performUndo], [n] times in a row. *)
Fixpoint undo_times (n : nat) (σ : gmap CardRef KanbanCard)
    (context : KanbanContext) :
    option (gmap CardRef KanbanCard * KanbanContext) :=
  match n with
  | O => Some (σ, context)
  | S n => '(σ, context) ← performUndo σ context; undo_times n σ context
  end.

(** The board while the card A is edited, a new title typed in. *)
Definition editing_a : KanbanContext :=
  setEditTitle (editCard Sample.objects Sample.board (Some 0%nat))
    "  A, again "%string.

(** The board with the new-card modal open for "Done" and a title
    typed in. *)
Definition new_card_form : KanbanContext :=
  setNewCardTitle
    (openNewCardModal Sample.board (Some Sample.done_column))
    "Write tests"%string.

End BoardProps.

(** * Properties of the stores *)

Import Kanban Props Sample.

(** ** Arrays *)

Section ArrayFacts.
Context {A : Type}.
Implicit Types l : list A.

Lemma slice_prefix l (stop : Z) :
  0 ≤ stop → JS.slice l 0 stop = take (Z.to_nat stop) l.
Proof.
  intros Hstop. unfold JS.slice, JS.rel_index. simpl.
  destruct (Z.ltb_spec stop 0) as [|_]; [lia|].
  replace (Z.to_nat (0 `min` Z.of_nat (length l))) with 0%nat by lia.
  rewrite Nat.sub_0_r, drop_0.
  destruct (decide (stop ≤ Z.of_nat (length l))).
  - by rewrite Z.min_l.
  - rewrite Z.min_r, Nat2Z.id by lia.
    rewrite !take_ge; [done | lia | lia].
Qed.

Lemma slice_between l (a b : nat) :
  (a ≤ b ≤ length l)%nat →
  JS.slice l (Z.of_nat a) (Z.of_nat b) = take (b - a) (drop a l).
Proof.
  intros H. unfold JS.slice, JS.rel_index.
  destruct (Z.ltb_spec (Z.of_nat a) 0); [lia|].
  destruct (Z.ltb_spec (Z.of_nat b) 0); [lia|].
  rewrite !Z.min_l, !Nat2Z.id by lia. done.
Qed.

Lemma slice_from_last l (n : Z) :
  0 < n → JS.slice_from l (- n) = drop (length l - Z.to_nat n) l.
Proof.
  intros Hn. unfold JS.slice_from, JS.rel_index.
  destruct (Z.ltb_spec (- n) 0) as [_|]; [|lia].
  f_equal. lia.
Qed.

Lemma at_index_nat l (i : nat) : JS.at_index l (Z.of_nat i) = l !! i.
Proof.
  unfold JS.at_index. destruct (Z.ltb_spec (Z.of_nat i) 0); [lia|].
  by rewrite Nat2Z.id.
Qed.

Lemma at_index_is_Some l (i : Z) :
  0 ≤ i < Z.of_nat (length l) → is_Some (JS.at_index l i).
Proof.
  intros H. unfold JS.at_index. destruct (Z.ltb_spec i 0); [lia|].
  apply lookup_lt_is_Some. lia.
Qed.

Lemma splice_insert_nat l (i : nat) x :
  (i ≤ length l)%nat →
  JS.splice_insert (Z.of_nat i) x l = take i l ++ x :: drop i l.
Proof.
  intros H. unfold JS.splice_insert, JS.rel_index.
  destruct (Z.ltb_spec (Z.of_nat i) 0); [lia|].
  by rewrite Z.min_l, Nat2Z.id by lia.
Qed.

Lemma rel_index_le (len : nat) (i : Z) : (JS.rel_index len i ≤ len)%nat.
Proof. unfold JS.rel_index. destruct (Z.ltb_spec i 0); lia. Qed.

(** Inserting at the index [splice( i, 1 )] took an element from. *)
Lemma splice_insert_replace l (i : nat) x y :
  l !! i = Some x →
  JS.splice_insert (Z.of_nat i) y (JS.splice_remove i l) = <[i := y]> l.
Proof.
  intros Hx. pose proof (lookup_lt_Some _ _ _ Hx) as Hlt.
  unfold JS.splice_remove.
  rewrite splice_insert_nat by (rewrite length_delete by eauto; lia).
  rewrite delete_take_drop.
  rewrite take_app_le by (rewrite length_take; lia).
  rewrite take_take, Nat.min_id.
  rewrite drop_app_ge by (rewrite length_take; lia).
  rewrite length_take, Nat.min_l, Nat.sub_diag, drop_0 by lia.
  by rewrite insert_take_drop.
Qed.

(** Putting back what [splice( i, 1 )] took out. *)
Lemma splice_insert_remove l (i : nat) x :
  l !! i = Some x →
  JS.splice_insert (Z.of_nat i) x (JS.splice_remove i l) = l.
Proof.
  intros Hx. rewrite (splice_insert_replace _ _ x) by done.
  by apply list_insert_id.
Qed.

(** Taking out what [splice( i, 0, x )] put in. *)
Lemma splice_remove_insert l (i : Z) x :
  JS.splice_remove (JS.rel_index (length l) i) (JS.splice_insert i x l) = l.
Proof.
  unfold JS.splice_remove, JS.splice_insert.
  set (k := JS.rel_index (length l) i).
  assert (k ≤ length l)%nat as Hk by apply rel_index_le.
  rewrite delete_take_drop.
  rewrite take_app_le, take_take, Nat.min_id by (rewrite length_take; lia).
  rewrite drop_app_ge by (rewrite length_take; lia).
  rewrite length_take, Nat.min_l by lia.
  replace (S k - k)%nat with 1%nat by lia. simpl. rewrite drop_0.
  apply take_drop.
Qed.

Lemma splice_insert_lookup l (i : Z) x :
  JS.splice_insert i x l !! JS.rel_index (length l) i = Some x.
Proof.
  unfold JS.splice_insert.
  set (k := JS.rel_index (length l) i).
  assert (k ≤ length l)%nat as Hk by apply rel_index_le.
  rewrite lookup_app_r by (rewrite length_take; lia).
  rewrite length_take, Nat.min_l, Nat.sub_diag by lia. done.
Qed.
End ArrayFacts.

(** ** The history log *)

Section History.
Implicit Types (context : KanbanContext) (command : Command).
Implicit Types (σ : gmap CardRef KanbanCard).

Lemma pushCommand_history context command :
  -1 ≤ historyIndex context →
  history (pushCommand context command)
  = newest 50 (past context ++ [command]).
Proof.
  intros Hidx. unfold pushCommand, newest.
  rewrite slice_prefix by lia. fold (past context).
  unfold JS.push. set (log := past context ++ [command]).
  destruct (Z.gtb_spec (Z.of_nat (length log)) MAX_HISTORY_SIZE) as [Hov|Hov];
    unfold MAX_HISTORY_SIZE in *; simpl.
  - by rewrite slice_from_last.
  - replace (length log - 50)%nat with 0%nat by lia. done.
Qed.

Lemma pushCommand_index context command :
  -1 ≤ historyIndex context →
  historyIndex (pushCommand context command)
  = Z.of_nat (length (history (pushCommand context command))) - 1.
Proof.
  intros Hidx. unfold pushCommand.
  rewrite slice_prefix by lia. fold (past context).
  unfold JS.push. set (log := past context ++ [command]).
  destruct (Z.gtb_spec (Z.of_nat (length log)) MAX_HISTORY_SIZE) as [Hov|Hov];
    unfold MAX_HISTORY_SIZE in *; simpl; [|done].
  rewrite slice_from_last by done. rewrite length_drop.
  assert (length log = S (length (past context))) as Hlen.
  { unfold log. rewrite length_app. simpl. lia. }
  assert (length (past context) ≤ Z.to_nat (historyIndex context + 1))%nat.
  { unfold past. rewrite length_take. lia. }
  lia.
Qed.

Lemma length_newest n (log : list Command) :
  length (newest n log) = (length log `min` n)%nat.
Proof. unfold newest. rewrite length_drop. lia. Qed.

Lemma newest_snoc n (log : list Command) command :
  newest (S n) (newest (S n) log ++ [command])
  = newest (S n) (log ++ [command]).
Proof.
  unfold newest. rewrite !length_app, length_drop.
  change (length [command]) with 1%nat.
  destruct (decide (length log ≤ S n)%nat).
  - replace (length log - S n)%nat with 0%nat by lia. rewrite drop_0.
    f_equal. lia.
  - rewrite !drop_app_le by (rewrite ?length_drop; lia).
    rewrite drop_drop. do 2 f_equal. lia.
Qed.

Lemma past_pushCommand context command :
  -1 ≤ historyIndex context →
  past (pushCommand context command) = history (pushCommand context command).
Proof.
  intros Hidx. unfold past. rewrite pushCommand_index by done.
  apply take_ge. lia.
Qed.

Lemma push_all_snoc context commands command :
  push_all context (commands ++ [command])
  = pushCommand (push_all context commands) command.
Proof. unfold push_all. by rewrite foldl_app. Qed.

Lemma push_all_history context commands :
  -1 ≤ historyIndex context → commands ≠ [] →
  history (push_all context commands)
  = newest 50 (past context ++ commands)
  ∧ historyIndex (push_all context commands)
    = Z.of_nat (length (history (push_all context commands))) - 1.
Proof.
  intros Hidx. induction commands as [|command commands IH] using rev_ind;
    [done|]. intros _.
  rewrite push_all_snoc.
  destruct (decide (commands = [])) as [->|Hne].
  - simpl. split; [by apply pushCommand_history|by apply pushCommand_index].
  - destruct (IH Hne) as [Hlog Hi].
    assert (-1 ≤ historyIndex (push_all context commands)) by lia.
    split; [|by apply pushCommand_index].
    rewrite pushCommand_history by done.
    assert (past (push_all context commands)
            = history (push_all context commands)) as ->.
    { unfold past. apply take_ge. lia. }
    rewrite Hlog, newest_snoc. by rewrite app_assoc.
Qed.
End History.

Section HistoryOperations.
Implicit Types (context : KanbanContext) (command : Command).
Implicit Types (σ : gmap CardRef KanbanCard).

Lemma execute_all_cons σ columns command commands :
  execute_all σ columns (command :: commands)
  = let '(σ, columns) := executeCommand σ columns command in
    execute_all σ columns commands.
Proof. unfold execute_all. simpl. by destruct executeCommand. Qed.

Lemma reverse_all_cons σ columns command commands :
  reverse_all σ columns (command :: commands)
  = let '(σ, columns) := reverseCommand σ columns command in
    reverse_all σ columns commands.
Proof. unfold reverse_all. simpl. by destruct reverseCommand. Qed.

(** The ascending loop executes the entries [i], [i + 1], ... in
    this order. *)
Lemma execute_from_range (log : list Command) (count : nat) (i : Z)
    σ columns :
  0 ≤ i → i + Z.of_nat count ≤ Z.of_nat (length log) →
  execute_from log count i σ columns
  = Some (execute_all σ columns (take count (drop (Z.to_nat i) log))).
Proof.
  revert i σ columns.
  induction count as [|count IH]; intros i σ columns Hi Hlen; [done|].
  destruct (at_index_is_Some log i) as [command Hcommand]; [lia|].
  cbn [execute_from]. rewrite Hcommand. simpl.
  assert (log !! Z.to_nat i = Some command) as Hlookup.
  { revert Hcommand. unfold JS.at_index.
    by destruct (Z.ltb_spec i 0); [lia|]. }
  rewrite (drop_S _ _ _ Hlookup). cbn [take].
  rewrite execute_all_cons.
  destruct (executeCommand σ columns command) as [σ1 columns1].
  rewrite IH by lia.
  by replace (Z.to_nat (i + 1)) with (S (Z.to_nat i)) by lia.
Qed.

(** The descending loop reverses the entries [i], [i - 1], ... in
    this order. *)
Lemma reverse_from_range (log : list Command) (count : nat) (i : Z)
    σ columns :
  Z.of_nat count ≤ i + 1 → i < Z.of_nat (length log) →
  reverse_from log count i σ columns
  = Some (reverse_all σ columns
            (reverse (take count (drop (Z.to_nat (i + 1) - count) log)))).
Proof.
  revert i σ columns.
  induction count as [|count IH]; intros i σ columns Hi Hlen; [done|].
  destruct (at_index_is_Some log i) as [command Hcommand]; [lia|].
  cbn [reverse_from]. rewrite Hcommand. simpl.
  assert (log !! Z.to_nat i = Some command) as Hlookup.
  { revert Hcommand. unfold JS.at_index.
    by destruct (Z.ltb_spec i 0); [lia|]. }
  rewrite (take_S_r _ _ command).
  2:{ rewrite lookup_drop, <- Hlookup. f_equal. lia. }
  rewrite reverse_snoc, reverse_all_cons.
  destruct (reverseCommand σ columns command) as [σ1 columns1].
  rewrite IH by lia.
  by replace (Z.to_nat (i - 1 + 1) - count)%nat
    with (Z.to_nat (i + 1) - S count)%nat by lia.
Qed.

Lemma findIndex_lt {A} (P : A → Prop) `{∀ x, Decision (P x)}
    (l : list A) (i : nat) :
  JS.findIndex P l = Some i → (i < length l)%nat.
Proof.
  unfold JS.findIndex. intros Hfind.
  destruct (list_find P l) as [[j x]|] eqn:Hj; simplify_eq/=.
  apply list_find_Some in Hj as (Hx & _ & _).
  by eapply lookup_lt_Some.
Qed.
End HistoryOperations.

(** ** C3: [pushCommand] *)

(** C3.  After a call to [pushCommand] the log is the entries up to the
    former [historyIndex] followed by the new command, cut down to its
    newest [MAX_HISTORY_SIZE] entries: the entries beyond the former
    index are gone, the new command is the last entry, the log has at
    most 50 entries, and [historyIndex] is [history.length - 1].
    So after [50 + k] pushes the log is the newest 50 commands pushed. *)
Theorem pushCommand_bounded_log (context : KanbanContext) :
  -1 ≤ historyIndex context →
  (∀ command,
     let context' := pushCommand context command in
     history context'
     = newest (Z.to_nat MAX_HISTORY_SIZE) (past context ++ [command])
     ∧ last (history context') = Some command
     ∧ Z.of_nat (length (history context')) ≤ MAX_HISTORY_SIZE
     ∧ historyIndex context' = Z.of_nat (length (history context')) - 1)
  ∧ (∀ commands (k : nat),
       Z.of_nat (length commands) = MAX_HISTORY_SIZE + Z.of_nat k →
       let context' := push_all context commands in
       history context' = drop k commands
       ∧ Z.of_nat (length (history context')) = MAX_HISTORY_SIZE
       ∧ historyIndex context' = MAX_HISTORY_SIZE - 1).
Proof.
  intros Hidx. unfold MAX_HISTORY_SIZE. change (Z.to_nat 50) with 50%nat.
  split.
  - intros command.
    rewrite pushCommand_index, pushCommand_history by done.
    split_and!; [done | | | done].
    + unfold newest. rewrite length_app. simpl.
      rewrite drop_app_le by lia. rewrite last_snoc. done.
    + rewrite length_newest. lia.
  - intros commands k Hlen.
    assert (commands ≠ []) as Hne by (intros ->; simpl in Hlen; lia).
    destruct (push_all_history context commands Hidx Hne) as [Hlog Hi].
    assert (history (push_all context commands) = drop k commands) as Hdrop.
    { rewrite Hlog. unfold newest. rewrite length_app.
      rewrite drop_app_ge by lia.
      by replace (length (past context) + length commands - 50
                  - length (past context))%nat with k by lia. }
    rewrite Hi, Hdrop, length_drop. split_and!; [done | lia | lia].
Qed.

Lemma pushCommand_bounded_log_witness :
  (history (pushCommand empty_context (a_command 1)) = [a_command 1]
   ∧ historyIndex (pushCommand empty_context (a_command 1)) = 0)
  ∧ (history (push_all empty_context (a_command <$> seqZ 1 52))
     = drop 2 (a_command <$> seqZ 1 52)
     ∧ historyIndex (push_all empty_context (a_command <$> seqZ 1 52))
       = 49).
Proof.
  destruct (pushCommand_bounded_log empty_context) as [Hpush Hall];
    [simpl; lia|].
  split.
  - destruct (Hpush (a_command 1)) as (Hlog & _ & _ & Hi).
    split; [exact Hlog | exact Hi].
  - destruct (Hall (a_command <$> seqZ 1 52) 2%nat) as (Hlog & _ & Hi);
      [reflexivity|].
    split; [exact Hlog | exact Hi].
Defined.

(** ** C5: undo and redo *)

(** C5.  [performUndo] at [historyIndex = -1] and [performRedo] at
    [historyIndex = history.length - 1] return without an error and
    change nothing.  Otherwise (the index being the position of an
    entry, resp. having an entry after it) undo reverses the command at
    [historyIndex] and decrements the index, and redo increments the
    index and executes the command at the new index. *)
Theorem undo_redo_steps (σ : gmap CardRef KanbanCard)
    (context : KanbanContext) :
  (historyIndex context = -1 → performUndo σ context = Some (σ, context))
  ∧ (historyIndex context = Z.of_nat (length (history context)) - 1 →
     performRedo σ context = Some (σ, context))
  ∧ (0 ≤ historyIndex context < Z.of_nat (length (history context)) →
     ∃ command,
       JS.at_index (history context) (historyIndex context) = Some command
       ∧ performUndo σ context
         = Some ((reverseCommand σ (columns context) command).1,
                 set_historyIndex (historyIndex context - 1)
                   (set_columns
                      (reverseCommand σ (columns context) command).2
                      context)))
  ∧ (-1 ≤ historyIndex context < Z.of_nat (length (history context)) - 1 →
     ∃ command,
       JS.at_index (history context) (historyIndex context + 1)
       = Some command
       ∧ performRedo σ context
         = Some ((executeCommand σ (columns context) command).1,
                 set_columns
                   (executeCommand σ (columns context) command).2
                   (set_historyIndex (historyIndex context + 1) context))).
Proof.
  split_and!.
  - intros Hi. unfold performUndo. rewrite Hi. done.
  - intros Hi. unfold performRedo.
    by destruct (Z.ltb_spec (historyIndex context)
                   (Z.of_nat (length (history context)) - 1)); [lia|].
  - intros Hi.
    destruct (at_index_is_Some (history context) (historyIndex context))
      as [command Hcommand]; [lia|].
    exists command. split; [done|]. unfold performUndo.
    destruct (Z.geb_spec (historyIndex context) 0); [|lia].
    rewrite Hcommand. simpl. by destruct reverseCommand.
  - intros Hi.
    destruct (at_index_is_Some (history context) (historyIndex context + 1))
      as [command Hcommand]; [lia|].
    exists command. split; [done|]. unfold performRedo.
    destruct (Z.ltb_spec (historyIndex context)
                (Z.of_nat (length (history context)) - 1)); [|lia].
    simpl. rewrite Hcommand. simpl. by destruct executeCommand.
Qed.

Lemma undo_redo_steps_witness :
  performUndo ∅ empty_context = Some (∅, empty_context)
  ∧ performRedo ∅ empty_context = Some (∅, empty_context)
  ∧ (∃ command,
       performUndo ∅ (pushCommand empty_context (a_command 1))
       = Some ((reverseCommand ∅ [] command).1,
               set_historyIndex (0 - 1)
                 (set_columns (reverseCommand ∅ [] command).2
                    (pushCommand empty_context (a_command 1)))))
  ∧ (∃ command,
       performRedo ∅
         (set_historyIndex (-1) (pushCommand empty_context (a_command 1)))
       = Some ((executeCommand ∅ [] command).1,
               set_columns (executeCommand ∅ [] command).2
                 (set_historyIndex (-1 + 1)
                    (set_historyIndex (-1)
                       (pushCommand empty_context (a_command 1)))))).
Proof.
  split_and!.
  - apply (undo_redo_steps ∅ empty_context). reflexivity.
  - apply (undo_redo_steps ∅ empty_context). reflexivity.
  - destruct (undo_redo_steps ∅ (pushCommand empty_context (a_command 1)))
      as (_ & _ & Hundo & _).
    destruct Hundo as (command & _ & Hundo); [simpl; lia|].
    exists command. exact Hundo.
  - destruct (undo_redo_steps ∅
               (set_historyIndex (-1)
                  (pushCommand empty_context (a_command 1))))
      as (_ & _ & _ & Hredo).
    destruct Hredo as (command & _ & Hredo); [simpl; lia|].
    exists command. exact Hredo.
Defined.

(** ** C9: the invariant of the history log *)

Lemma history_ok_pushCommand (context : KanbanContext) command :
  history_ok context → history_ok (pushCommand context command).
Proof.
  intros [Hi Hlen]. unfold history_ok.
  rewrite pushCommand_index, pushCommand_history by lia.
  rewrite length_newest, length_app. simpl.
  unfold MAX_HISTORY_SIZE. lia.
Qed.

Lemma jumpToRevision_outcome (σ : gmap CardRef KanbanCard)
    (context : KanbanContext) (command : Command) (targetIndex : nat) :
  -1 ≤ historyIndex context < Z.of_nat (length (history context)) →
  JS.findIndex (λ c, seqId (base_of c) = seqId (base_of command))
    (history context) = Some targetIndex →
  jumpToRevision σ context (Some command)
  = Some
      (let '(σ', columns') :=
         if decide (historyIndex context < Z.of_nat targetIndex) then
           execute_all σ (columns context)
             (JS.slice (history context) (historyIndex context + 1)
                (Z.of_nat targetIndex + 1))
         else if decide (Z.of_nat targetIndex < historyIndex context) then
           reverse_all σ (columns context)
             (reverse
                (JS.slice (history context) (Z.of_nat targetIndex + 1)
                   (historyIndex context + 1)))
         else (σ, columns context) in
       (σ', set_historyIndex (Z.of_nat targetIndex)
              (set_columns columns' context))).
Proof.
  intros Hi Hfind. pose proof (findIndex_lt _ _ _ Hfind) as Hlt.
  unfold jumpToRevision. rewrite Hfind.
  set (i := historyIndex context) in *. set (log := history context) in *.
  destruct (Z.gtb_spec (Z.of_nat targetIndex) i) as [Hgt|Hle].
  - rewrite decide_True by lia.
    rewrite execute_from_range by lia.
    replace (i + 1) with (Z.of_nat (Z.to_nat (i + 1))) at 2 by lia.
    replace (Z.of_nat targetIndex + 1) with (Z.of_nat (S targetIndex))
      by lia.
    rewrite slice_between by lia. simpl.
    replace (Z.to_nat (Z.of_nat targetIndex - i))
      with (S targetIndex - Z.to_nat (i + 1))%nat by lia.
    by destruct execute_all.
  - rewrite decide_False by lia.
    destruct (Z.ltb_spec (Z.of_nat targetIndex) i) as [Hlt'|Hge].
    + rewrite decide_True by lia.
      rewrite reverse_from_range by lia.
      replace (i + 1) with (Z.of_nat (Z.to_nat (i + 1))) at 2 by lia.
      replace (Z.of_nat targetIndex + 1) with (Z.of_nat (S targetIndex))
        by lia.
      rewrite slice_between by lia. simpl.
      replace (Z.to_nat (i + 1) - Z.to_nat (i - Z.of_nat targetIndex))%nat
        with (S targetIndex) by lia.
      replace (Z.to_nat (i - Z.of_nat targetIndex))
        with (Z.to_nat (i + 1) - S targetIndex)%nat by lia.
      by destruct reverse_all.
    + rewrite decide_False by lia. done.
Qed.

Lemma resetToInitial_outcome (σ : gmap CardRef KanbanCard)
    (context : KanbanContext) :
  -1 ≤ historyIndex context < Z.of_nat (length (history context)) →
  resetToInitial σ context
  = Some
      (let '(σ', columns') :=
         reverse_all σ (columns context) (reverse (past context)) in
       (σ', set_historyIndex (-1) (set_columns columns' context))).
Proof.
  intros Hi. unfold resetToInitial.
  destruct (Z.geb_spec (historyIndex context) 0) as [Hge|Hlt].
  - rewrite reverse_from_range by lia.
    rewrite Nat.sub_diag, drop_0. fold (past context). simpl.
    by destruct reverse_all.
  - assert (historyIndex context = -1) as Heq by lia.
    unfold past. rewrite Heq. simpl. rewrite <- Heq. by destruct context.
Qed.

(** C9.  From a context in which [-1 <= historyIndex <=
    history.length - 1] and [history.length <= 50], each of
    [pushCommand], [performUndo], [performRedo], [jumpToRevision] and
    [resetToInitial] returns (without an error) a context in which this
    holds again. *)
Theorem history_ok_preserved (σ : gmap CardRef KanbanCard)
    (context : KanbanContext) :
  history_ok context →
  (∀ command, history_ok (pushCommand context command))
  ∧ (∃ σ' context',
       performUndo σ context = Some (σ', context') ∧ history_ok context')
  ∧ (∃ σ' context',
       performRedo σ context = Some (σ', context') ∧ history_ok context')
  ∧ (∀ item, ∃ σ' context',
       jumpToRevision σ context item = Some (σ', context')
       ∧ history_ok context')
  ∧ (∃ σ' context',
       resetToInitial σ context = Some (σ', context')
       ∧ history_ok context').
Proof.
  intros Hok. pose proof Hok as [Hi Hlen]. split_and!.
  - intros command. by apply history_ok_pushCommand.
  - unfold performUndo.
    destruct (Z.geb_spec (historyIndex context) 0) as [Hge|Hlt];
      [|by eauto].
    destruct (at_index_is_Some (history context) (historyIndex context))
      as [command ->]; [lia|]. simpl.
    destruct reverseCommand as [σ' columns']. do 2 eexists. split; [done|].
    unfold history_ok. simpl. lia.
  - unfold performRedo.
    destruct (Z.ltb_spec (historyIndex context)
                (Z.of_nat (length (history context)) - 1)) as [Hlt|Hge];
      [|by eauto].
    simpl.
    destruct (at_index_is_Some (history context) (historyIndex context + 1))
      as [command ->]; [lia|]. simpl.
    destruct executeCommand as [σ' columns']. do 2 eexists. split; [done|].
    unfold history_ok. simpl. lia.
  - intros [command|]; [|by eauto].
    destruct (JS.findIndex
                (λ c, seqId (base_of c) = seqId (base_of command))
                (history context)) as [targetIndex|] eqn:Hfind.
    + rewrite (jumpToRevision_outcome _ _ _ targetIndex) by (done || lia).
      pose proof (findIndex_lt _ _ _ Hfind).
      match goal with |- context [let '(_, _) := ?e in _] =>
        destruct e as [σ' columns'] end.
      do 2 eexists. split; [done|]. unfold history_ok. simpl. lia.
    + unfold jumpToRevision. rewrite Hfind. by eauto.
  - destruct (decide (historyIndex context < Z.of_nat (length (history context)))).
    + rewrite resetToInitial_outcome by lia.
      destruct reverse_all as [σ' columns'].
      do 2 eexists. split; [done|]. unfold history_ok. simpl. lia.
    + lia.
Qed.

(** ** C6: [jumpToRevision] *)

(** C6.  Let [targetIndex] be the position in the log of the first
    command with the [seqId] of the revision clicked.  [jumpToRevision]
    returns the columns obtained by executing the commands at
    [historyIndex + 1 .. targetIndex] in ascending order when
    [targetIndex > historyIndex], by reversing the commands at
    [historyIndex .. targetIndex + 1] in descending order when
    [targetIndex < historyIndex], and the columns as they are when both
    are equal; the log is unchanged and [historyIndex] is
    [targetIndex] afterwards. *)
Theorem jumpToRevision_replays (σ : gmap CardRef KanbanCard)
    (context : KanbanContext) (command : Command) (targetIndex : nat) :
  -1 ≤ historyIndex context < Z.of_nat (length (history context)) →
  JS.findIndex (λ c, seqId (base_of c) = seqId (base_of command))
    (history context) = Some targetIndex →
  ∃ σ' context',
    jumpToRevision σ context (Some command) = Some (σ', context')
    ∧ historyIndex context' = Z.of_nat targetIndex
    ∧ history context' = history context
    ∧ (historyIndex context < Z.of_nat targetIndex →
       (σ', columns context')
       = execute_all σ (columns context)
           (JS.slice (history context) (historyIndex context + 1)
              (Z.of_nat targetIndex + 1)))
    ∧ (Z.of_nat targetIndex < historyIndex context →
       (σ', columns context')
       = reverse_all σ (columns context)
           (reverse
              (JS.slice (history context) (Z.of_nat targetIndex + 1)
                 (historyIndex context + 1))))
    ∧ (Z.of_nat targetIndex = historyIndex context →
       (σ', columns context') = (σ, columns context)).
Proof.
  intros Hi Hfind.
  rewrite (jumpToRevision_outcome _ _ _ targetIndex) by done.
  destruct (decide (historyIndex context < Z.of_nat targetIndex)).
  - destruct execute_all as [σ' columns'] eqn:Hrun.
    do 2 eexists. split; [done|]. simpl. split_and!; (done || lia).
  - destruct (decide (Z.of_nat targetIndex < historyIndex context)).
    + destruct reverse_all as [σ' columns'] eqn:Hrun.
      do 2 eexists. split; [done|]. simpl. split_and!; (done || lia).
    + do 2 eexists. split; [done|]. simpl. split_and!; (done || lia).
Qed.

(** ** C10: [performEdit] and [createCard] when they give up *)

(** C10.  When the sanitized title is empty, or no card is being
    edited, or the card being edited is not found, [performEdit] only
    sets [editingCardId] to [null].  When the sanitized title is empty
    or no column is selected, [createCard] changes nothing; when the
    selected column is not found it only resets the fields of the
    new-card modal.  In all these cases no command is pushed: the card
    objects, the columns, the log, its index and the sequence counter
    are as before. *)
Theorem edit_create_give_up (σ : gmap CardRef KanbanCard)
    (context : KanbanContext) (now : Z) (random : string)
    (commandSeqId : Z) :
  (sanitizeTitle (editTitle context) = ""%string
   ∨ JS.truthy_opt (editingCardId context) = false
   ∨ (∃ cardId, editingCardId context = Some cardId
        ∧ findCardLocation σ (columns context) cardId = None) →
   ∃ context',
     performEdit σ context now commandSeqId = (σ, context', commandSeqId)
     ∧ context' = set_editingCardId None context
     ∧ columns context' = columns context
     ∧ history context' = history context
     ∧ historyIndex context' = historyIndex context)
  ∧ (sanitizeTitle (newCardTitle context) = ""%string
     ∨ JS.truthy_opt (newCardColumnId context) = false
     ∨ (∃ columnId, newCardColumnId context = Some columnId
          ∧ findColumn (columns context) columnId = None) →
     ∃ context',
       createCard σ context now random commandSeqId
       = (σ, context', commandSeqId)
       ∧ (context' = context ∨ context' = resetNewCardModal context)
       ∧ columns context' = columns context
       ∧ history context' = history context
       ∧ historyIndex context' = historyIndex context).
Proof.
  split.
  - intros Hfail. exists (set_editingCardId None context).
    split; [|done]. unfold performEdit.
    destruct (JS.truthy_opt (editingCardId context)) eqn:Hediting;
      [|done].
    destruct (JS.truthy (sanitizeTitle (editTitle context))) eqn:Htitle;
      [|done].
    simpl. destruct Hfail as [Hempty|[?|(cardId & Hid & Hnone)]];
      [by rewrite Hempty in Htitle | done |].
    rewrite Hid. simpl. by rewrite Hnone.
  - intros Hfail. unfold createCard.
    destruct (JS.truthy (sanitizeTitle (newCardTitle context))) eqn:Htitle;
      [|by exists context; split_and!; auto].
    destruct (JS.truthy_opt (newCardColumnId context)) eqn:Hcolumn;
      [|by exists context; split_and!; auto].
    simpl. destruct Hfail as [Hempty|[?|(columnId & Hid & Hnone)]];
      [by rewrite Hempty in Htitle | done |].
    rewrite Hid. simpl. rewrite Hnone.
    exists (resetNewCardModal context). split_and!; auto.
Qed.

(** ** C7: the drag session *)

Lemma findCardIndex_Some (σ : gmap CardRef KanbanCard) (cardId : string)
    (cards : list CardRef) (i : nat) :
  findCardIndex σ cardId cards = Some i ↔
  ∃ r c, cards !! i = Some r ∧ σ !! r = Some c ∧ card_id c = cardId
    ∧ ∀ j r', cards !! j = Some r' → (j < i)%nat → ¬ has_id σ cardId r'.
Proof.
  unfold findCardIndex, JS.findIndex. split.
  - intros Hfind.
    destruct (list_find (has_id σ cardId) cards) as [[j r]|] eqn:Hj;
      simplify_eq/=.
    apply list_find_Some in Hj as (Hr & Hid & Hfirst).
    unfold has_id in Hid.
    destruct (σ !! r) as [c|] eqn:Hc; simplify_eq/=. eauto 10.
  - intros (r & c & Hr & Hc & Hid & Hfirst).
    assert (list_find (has_id σ cardId) cards = Some (i, r)) as ->; [|done].
    apply list_find_Some. split_and!; [done| |done].
    unfold has_id. rewrite Hc. simpl. by rewrite Hid.
Qed.

Lemma findCardIndex_None (σ : gmap CardRef KanbanCard) (cardId : string)
    (cards : list CardRef) :
  findCardIndex σ cardId cards = None ↔
  ∀ r, r ∈ cards → ¬ has_id σ cardId r.
Proof.
  unfold findCardIndex, JS.findIndex.
  rewrite fmap_None, list_find_None, Forall_forall. done.
Qed.

Lemma dropPosition_pushCommand (context : KanbanContext) command :
  dropPosition (pushCommand context command) = dropPosition context.
Proof. unfold pushCommand. by destruct (_ >? _). Qed.

Lemma resetDragState_cleared (before context : KanbanContext) :
  dropPosition context = dropPosition before →
  drag_session_cleared before (resetDragState context).
Proof. intros Hposition. by repeat split. Qed.

(** C7, as the code has it.  After [handleDragEnd], and after a
    [handleDropOnColumn] that found the dragged card in its source
    column and the column dropped on (whether it moved the card or
    not), the dragged card id, the source column id, the drop target
    column id and the drop target card id are [null]; the drop position
    keeps its value. *)
Theorem drag_session_reset :
  (∀ context, drag_session_cleared context (handleDragEnd context))
  ∧ (∀ (σ : gmap CardRef KanbanCard) context column now commandSeqId
       dragged sourceId si sourceColumn ti targetColumn cardIndex,
       draggedCardId context = Some dragged → dragged ≠ ""%string →
       sourceColumnId context = Some sourceId → sourceId ≠ ""%string →
       col_id column ≠ ""%string →
       findColumn (columns context) sourceId = Some (si, sourceColumn) →
       findColumn (columns context) (col_id column)
       = Some (ti, targetColumn) →
       findCardIndex σ dragged (col_cards sourceColumn) = Some cardIndex →
       drag_session_cleared context
         (handleDropOnColumn σ context (Some column) now commandSeqId).1).
Proof.
  split.
  - intros context. by apply resetDragState_cleared.
  - intros σ context column now commandSeqId dragged sourceId si
      sourceColumn ti targetColumn cardIndex
      Hdragged Hd Hsource Hs Ht Hsi Hti Hcard.
    unfold handleDropOnColumn. rewrite Hdragged, Hsource. simpl.
    unfold JS.truthy. rewrite !bool_decide_eq_true_2 by done. simpl.
    rewrite Hsi, Hti, Hcard.
    apply findCardIndex_Some in Hcard as (r & c & Hr & Hc & _).
    rewrite Hr. simpl. rewrite Hc. simpl.
    destruct (_ && _); simpl; apply resetDragState_cleared; [done|].
    by rewrite dropPosition_pushCommand.
Qed.

Lemma drag_session_reset_witness :
  drag_session_cleared (dragging "a" "todo" (Some "b") After)
    (handleDragEnd (dragging "a" "todo" (Some "b") After))
  ∧ drag_session_cleared (dragging "a" "todo" (Some "b") After)
      (handleDropOnColumn cards (dragging "a" "todo" (Some "b") After)
         (Some todo) 1000 0).1.
Proof.
  destruct drag_session_reset as [Hend Hdrop]. split.
  - apply Hend.
  - apply (Hdrop cards (dragging "a" "todo" (Some "b") After) todo 1000 0
             "a"%string "todo"%string 0%nat todo 0%nat todo 0%nat);
      (reflexivity || discriminate).
Defined.

(** The claim as the specification has it fails: the drop position is
    not reset to any one value. *)
Lemma dropPosition_not_reset :
  ¬ ∃ initial : DropPosition,
      ∀ context, dropPosition (handleDragEnd context) = initial.
Proof.
  intros [initial Hreset].
  pose proof (Hreset (dragging "a" "todo" (Some "b") After)) as Hafter.
  pose proof (Hreset (dragging "a" "todo" (Some "b") Before)) as Hbefore.
  simpl in *. congruence.
Qed.

(** A drop that finds no dragged card returns before [resetDragState]:
    here a drop target column set by an earlier [dragover] stays set. *)
Lemma drop_without_dragged_card :
  let context := set_dropTargetColumnId (Some "done"%string) board in
  handleDropOnColumn cards context (Some done_column) 1000 0
  = (context, 0)
  ∧ dropTargetColumnId context = Some "done"%string.
Proof. done. Qed.

(** ** C8: the todo list scenario *)

(** C8.  From an empty list, adding "Buy milk", adding "Walk dog" and
    toggling the item "Buy milk" leaves the texts "Buy milk", "Walk dog"
    in this order and one remaining item. *)
Theorem todo_scenario (nextId : Z) (newTodoText : string) :
  let context :=
    {| TodoList.todos := []; TodoList.newTodoText := newTodoText;
       TodoList.nextId := nextId |} in
  let context :=
    TodoList.addTodo (TodoList.updateNewTodoText context "Buy milk") in
  let context :=
    TodoList.addTodo (TodoList.updateNewTodoText context "Walk dog") in
  TodoList.text <$> TodoList.todos context !! 0%nat = Some "Buy milk"%string
  ∧ let context := TodoList.toggleTodo context (Some 0%nat) in
    TodoList.text <$> TodoList.todos context
    = ["Buy milk"; "Walk dog"]%string
    ∧ TodoList.completed <$> TodoList.todos context = [true; false]
    ∧ TodoList.remainingItems context = 1.
Proof. done. Qed.

(** ** C4: stale searches *)

Section LiveSearchFacts.
Import LiveSearch SearchProps.
Implicit Types (context : LiveSearchContext) (page : Page).


(** An invocation with a non-blank query supersedes every invocation
    that is not ahead of the counter. *)
Lemma updateQuery_supersedes context newQuery searchId :
  JS.trim newQuery ≠ ""%string →
  searchId ≤ pending context →
  _pendingSearchId (updateQuery context newQuery).1 ≠ Some searchId.
Proof.
  intros Hquery Hle. unfold updateQuery, JS.truthy.
  rewrite bool_decide_eq_true_2 by done. simpl.
  unfold pending in Hle. intros [=]. lia.
Qed.

(** An invocation with a blank query leaves the counter alone. *)
Lemma updateQuery_blank context newQuery :
  JS.trim newQuery = ""%string →
  _pendingSearchId (updateQuery context newQuery).1
  = _pendingSearchId context
  ∧ (updateQuery context newQuery).2 = None.
Proof.
  intros Hquery. unfold updateQuery, JS.truthy.
  by rewrite Hquery.
Qed.

Lemma pending_resume_search context searchId settled :
  _pendingSearchId (resume_search context searchId settled)
  = _pendingSearchId context.
Proof.
  unfold resume_search.
  destruct settled; destruct (is_current context searchId) eqn:Hcurrent;
    simpl; rewrite ?Hcurrent; try done;
    by destruct (is_current _ searchId).
Qed.

(** The counter never decreases. *)
Lemma pending_handle page event :
  is_Some (_pendingSearchId (context page)) →
  is_Some (_pendingSearchId (context (handle page event)))
  ∧ pending (context page) ≤ pending (context (handle page event)).
Proof.
  intros [n Hn]. unfold pending.
  destruct event as [newQuery|k|k rejects]; simpl.
  - unfold updateQuery. destruct (negb _); simpl; rewrite Hn; simpl.
    + split; [by eauto | lia].
    + split; [by eauto | lia].
  - rewrite Hn. split; [by eauto | simpl; lia].
  - destruct (tasks page !! k) as [[]|]; simpl;
      rewrite ?pending_resume_search, Hn; (split; [by eauto | simpl; lia]).
Qed.

Lemma page_ok_handle page event : page_ok page → page_ok (handle page event).
Proof.
  intros [Hsome Hok].
  destruct (pending_handle page event Hsome) as [Hsome' Hmono].
  split; [done|]. intros task Htask.
  destruct event as [newQuery|k|k rejects]; simpl in *.
  - unfold updateQuery in *. unfold pending in *.
    destruct (negb _); simpl in *.
    + rewrite app_nil_r in Htask. by apply Hok.
    + apply elem_of_app in Htask as [Htask|Htask].
      * apply Hok in Htask. destruct Hsome as [n Hn].
        rewrite Hn in *. simpl in *. lia.
      * apply list_elem_of_singleton in Htask as ->. simpl. lia.
  - apply list_elem_of_lookup in Htask as [j Hj].
    rewrite list_lookup_alter in Hj.
    destruct (decide (k = j)) as [->|].
    + destruct (tasks page !! j) as [task'|] eqn:Hj'; simplify_eq/=.
      assert (searchId_of task' ≤ pending (context page))
        by (eapply Hok, list_elem_of_lookup; eauto).
      by destruct task'.
    + eapply Hok, list_elem_of_lookup; eauto.
  - destruct (tasks page !! k) as [[]|] eqn:Hk; simpl in *;
      try (etrans; [by apply Hok|lia]).
    etrans; [|exact Hmono]. by eapply Hok, list_elem_of_delete_inv.
Qed.

Lemma page_ok_run page events : page_ok page → page_ok (run page events).
Proof.
  revert page. induction events as [|event events IH]; intros page Hok;
    [done|].
  simpl. by apply IH, page_ok_handle.
Qed.



(** C4 at the input "react", then an emptied search box, before the
    search for "react" is over: the emptied box sets [results] to
    the empty list and leaves [_pendingSearchId] alone, so the first
    invocation is still the current one when its promise resolves,
    and it writes its three results and [isLoading]. *)
Theorem stale_search_after_blank_query :
  let before :=
    run first_page [Input "react"; TaskResumes 0; Input ""]%string in
  let after := handle before (SearchSettles 0 false) in
  (query (context before) = ""%string
   ∧ results (context before) = []
   ∧ isLoading (context before) = true
   ∧ tasks before = [AtSimulateSearch "react" 1])
  ∧ (query (context after) = ""%string
     ∧ title <$> results (context after)
       = ["React Hooks"; "Vue Composition API"; "React Context"]%string
     ∧ isLoading (context after) = false).
Proof. vm_compute. done. Qed.
End LiveSearchFacts.

(** ** C1: reversing a command *)

Section Locations.
Variable σ : gmap CardRef KanbanCard.
Implicit Types (columns : list KanbanColumn) (column : KanbanColumn).
Implicit Types (cards : list CardRef) (cardId : string).

Lemma findCardLocation_Some columns cardId ci i :
  findCardLocation σ columns cardId = Some (ci, i) ↔
  ∃ column, columns !! ci = Some column
    ∧ findCardIndex σ cardId (col_cards column) = Some i
    ∧ ∀ j column', columns !! j = Some column' → (j < ci)%nat →
        findCardIndex σ cardId (col_cards column') = None.
Proof.
  unfold findCardLocation. split.
  - intros Hfind.
    destruct (list_find _ columns) as [[cj column]|] eqn:Hcj;
      simplify_eq/=.
    apply list_find_Some in Hcj as (Hcolumn & [k Hk] & Hfirst).
    rewrite Hk in Hfind. simplify_eq/=.
    exists column. split_and!; [done..|].
    intros j column' Hj Hlt. specialize (Hfirst j column' Hj Hlt).
    destruct (findCardIndex σ cardId (col_cards column')); [|done].
    by destruct Hfirst.
  - intros (column & Hcolumn & Hi & Hfirst).
    assert (list_find
              (λ column,
                 is_Some (findCardIndex σ cardId (col_cards column)))
              columns = Some (ci, column)) as ->.
    { apply list_find_Some. split_and!; [done|by eauto|].
      intros j column' Hj Hlt. rewrite (Hfirst j column' Hj Hlt).
      by intros [? ?]. }
    simpl. by rewrite Hi.
Qed.

Lemma findCardLocation_None columns cardId :
  findCardLocation σ columns cardId = None ↔
  ∀ column, column ∈ columns →
    findCardIndex σ cardId (col_cards column) = None.
Proof.
  unfold findCardLocation. split.
  - intros Hfind column Hcolumn.
    destruct (list_find _ columns) as [[cj column']|] eqn:Hcj.
    + apply list_find_Some in Hcj as (_ & [k Hk] & _).
      simpl in Hfind. by rewrite Hk in Hfind.
    + rewrite list_find_None, Forall_forall in Hcj.
      specialize (Hcj column Hcolumn).
      destruct (findCardIndex σ cardId (col_cards column)); [|done].
      by destruct Hcj.
  - intros Hnone.
    assert (list_find
              (λ column,
                 is_Some (findCardIndex σ cardId (col_cards column)))
              columns = None) as ->; [|done].
    apply list_find_None, Forall_forall. intros column Hcolumn.
    rewrite (Hnone column Hcolumn). by intros [? ?].
Qed.

Lemma findCardLocation_card_at columns cardId ci i :
  findCardLocation σ columns cardId = Some (ci, i) →
  ∃ r, card_at columns ci i = Some r ∧ has_id σ cardId r.
Proof.
  intros (column & Hcolumn & Hi & _)%findCardLocation_Some.
  apply findCardIndex_Some in Hi as (r & c & Hr & Hc & Hid & _).
  exists r. unfold card_at, has_id. rewrite Hcolumn, Hc. simpl.
  by rewrite Hid.
Qed.

(** [update_cards] keeps the ids of the columns. *)
Lemma findColumn_update_cards columns ci f id :
  fst <$> findColumn (update_cards ci f columns) id
  = fst <$> findColumn columns id.
Proof.
  unfold findColumn, update_cards. revert ci.
  induction columns as [|column columns IH]; intros [|ci]; simpl; try done.
  - by case_decide.
  - case_decide; [done|]. specialize (IH ci). unfold alter in IH.
    destruct (list_find _ (list_alter _ ci columns)) as [[]|],
      (list_find _ columns) as [[]|]; by simplify_eq/=.
Qed.

Lemma findColumn_lookup columns id ci column :
  findColumn columns id = Some (ci, column) → columns !! ci = Some column.
Proof. by intros (? & _)%list_find_Some. Qed.

Lemma findColumn_updated columns ci f id cj :
  fst <$> findColumn columns id = Some cj →
  ∃ column,
    findColumn (update_cards ci f columns) id = Some (cj, column)
    ∧ update_cards ci f columns !! cj = Some column.
Proof.
  intros Hfind. rewrite <- (findColumn_update_cards _ ci f) in Hfind.
  destruct (findColumn (update_cards ci f columns) id)
    as [[cj' column]|] eqn:Hcj; simplify_eq/=.
  exists column. split; [done|]. by eapply findColumn_lookup.
Qed.

Lemma update_cards_lookup columns ci f column :
  columns !! ci = Some column →
  update_cards ci f columns !! ci
  = Some (with_cards column (f (col_cards column))).
Proof.
  intros Hcolumn. unfold update_cards.
  by rewrite list_lookup_alter, decide_True, Hcolumn.
Qed.

Lemma update_cards_lookup_ne columns ci f cj :
  ci ≠ cj → update_cards ci f columns !! cj = columns !! cj.
Proof. intros. unfold update_cards. by rewrite list_lookup_alter_ne. Qed.

(** Two updates of the cards of one column that cancel out. *)
Lemma update_cards_cancel columns ci f g column :
  columns !! ci = Some column →
  g (f (col_cards column)) = col_cards column →
  update_cards ci g (update_cards ci f columns) = columns.
Proof.
  intros Hcolumn Hgf. unfold update_cards.
  rewrite list_alter_alter_eq.
  rewrite <- (list_alter_id id columns ci) at 2 by done.
  apply list_alter_ext; [|done].
  intros column' Hcolumn'.
  assert (column' = column) as -> by congruence. simpl.
  rewrite Hgf. by destruct column.
Qed.
End Locations.

Section RoundTrip.
Variable σ : gmap CardRef KanbanCard.
Implicit Types (columns : list KanbanColumn) (column : KanbanColumn).
Implicit Types (cards : list CardRef) (cardId : string).

Lemma card_at_Some columns ci i r :
  card_at columns ci i = Some r ↔
  ∃ column, columns !! ci = Some column ∧ col_cards column !! i = Some r.
Proof.
  unfold card_at. destruct (columns !! ci) as [column|]; simpl.
  - split; [by eauto|]. by intros (? & [= <-] & ?).
  - split; [done|]. by intros (? & ? & _).
Qed.

(** Once the only card with the id is taken out, no card has it. *)
Lemma absent_after_removal columns cardId ci i :
  unique_id σ columns cardId →
  findCardLocation σ columns cardId = Some (ci, i) →
  ∀ cj j r,
    card_at (update_cards ci (JS.splice_remove i) columns) cj j = Some r →
    ¬ has_id σ cardId r.
Proof.
  intros Hunique Hloc cj j r Hr Hid.
  destruct (findCardLocation_card_at _ _ _ _ _ Hloc) as (r0 & Hr0 & Hid0).
  pose proof Hr0 as (column & Hcolumn & Hcard)%card_at_Some.
  apply card_at_Some in Hr as (column' & Hcolumn' & Hcard').
  destruct (decide (ci = cj)) as [<-|Hne].
  - rewrite (update_cards_lookup _ _ _ column) in Hcolumn' by done.
    simplify_eq/=. unfold JS.splice_remove in Hcard'.
    destruct (decide (j < i)%nat).
    + rewrite list_lookup_delete_lt in Hcard' by done.
      destruct (Hunique ci i ci j r0 r); try done; [|lia].
      apply card_at_Some. eauto.
    + rewrite list_lookup_delete_ge in Hcard' by lia.
      destruct (Hunique ci i ci (S j) r0 r); try done; [|lia].
      apply card_at_Some. eauto.
  - rewrite update_cards_lookup_ne in Hcolumn' by done.
    destruct (Hunique ci i cj j r0 r); try done.
    apply card_at_Some. eauto.
Qed.

(** A card inserted where no card has its id is found where it was
    inserted. *)
Lemma findCardLocation_inserted columns cardId cj column (k : Z) r :
  (∀ ci j r', card_at columns ci j = Some r' → ¬ has_id σ cardId r') →
  columns !! cj = Some column →
  has_id σ cardId r →
  findCardLocation σ (update_cards cj (JS.splice_insert k r) columns)
    cardId
  = Some (cj, JS.rel_index (length (col_cards column)) k).
Proof.
  intros Habsent Hcolumn Hid. apply findCardLocation_Some.
  exists (with_cards column (JS.splice_insert k r (col_cards column))).
  split_and!.
  - by apply update_cards_lookup.
  - simpl. apply findCardIndex_Some.
    pose proof Hid as Hid'. unfold has_id in Hid'.
    destruct (σ !! r) as [c|] eqn:Hc; simplify_eq/=.
    exists r, c. split_and!; [apply splice_insert_lookup|done..|].
    intros j r' Hj Hlt. unfold JS.splice_insert in Hj.
    pose proof (rel_index_le (length (col_cards column)) k).
    rewrite lookup_app_l in Hj by (rewrite length_take; lia).
    rewrite lookup_take, decide_True in Hj by done.
    apply (Habsent cj j r'). apply card_at_Some. eauto.
  - intros j column' Hj Hlt.
    rewrite update_cards_lookup_ne in Hj by lia.
    apply findCardIndex_None. intros r' [k' Hr']%list_elem_of_lookup.
    apply (Habsent j k' r'). apply card_at_Some. eauto.
Qed.

Lemma move_there_and_back columns base cardId cardTitle from to :
  records σ columns (MoveCommand base cardId cardTitle from to) →
  move_card σ (move_card σ columns cardId to) cardId from = columns.
Proof.
  intros [Hunique Hrecorded]. unfold move_card at 2.
  destruct (findCardLocation σ columns cardId) as [[ci i]|] eqn:Hloc.
  2:{ unfold move_card. by rewrite Hloc. }
  destruct (Hrecorded ci i eq_refl) as (Hfrom & Hindex & [[cj ?] Hto]).
  destruct (findCardLocation_card_at _ _ _ _ _ Hloc) as (r & Hr & Hid).
  pose proof Hr as (column & Hcolumn & Hcard)%card_at_Some.
  rewrite Hr.
  pose proof (absent_after_removal _ _ _ _ Hunique Hloc) as Habsent.
  set (columns1 := update_cards ci (JS.splice_remove i) columns) in *.
  destruct (findColumn_updated columns ci (JS.splice_remove i)
              (columnId to) cj) as (column1 & Hto1 & Hcolumn1).
  { by rewrite Hto. }
  fold columns1 in Hto1, Hcolumn1. rewrite Hto1.
  unfold move_card.
  rewrite (findCardLocation_inserted columns1 cardId cj column1)
    by done.
  assert (card_at
            (update_cards cj (JS.splice_insert (index to) r) columns1)
            cj (JS.rel_index (length (col_cards column1)) (index to))
          = Some r) as ->.
  { apply card_at_Some. eexists. split; [by apply update_cards_lookup|].
    apply splice_insert_lookup. }
  rewrite (update_cards_cancel columns1 cj _ _ column1)
    by (done || apply splice_remove_insert).
  destruct (findColumn_updated columns ci (JS.splice_remove i)
              (columnId from) ci Hfrom) as (? & Hfrom1 & _).
  fold columns1 in Hfrom1. rewrite Hfrom1.
  apply (update_cards_cancel columns ci _ _ column); [done|].
  rewrite Hindex. by apply splice_insert_remove.
Qed.

Lemma create_there_and_back columns base card columnId :
  records σ columns (CreateCommand base card columnId) →
  execute_then_reverse σ columns (CreateCommand base card columnId)
  = (σ, columns).
Proof.
  intros Hrecorded. unfold execute_then_reverse. simpl.
  destruct (findColumn columns columnId) as [[ci column]|] eqn:Hfind.
  2:{ unfold remove_card. by rewrite Hfind. }
  destruct (Hrecorded ci column Hfind) as (c & Hc & Hfresh).
  pose proof (findColumn_lookup _ _ _ _ Hfind) as Hcolumn.
  unfold remove_card.
  destruct (findColumn_updated columns ci (λ cards, JS.push cards card)
              columnId ci) as (column1 & Hfind1 & Hlookup1).
  { by rewrite Hfind. }
  rewrite Hfind1, Hc.
  rewrite (update_cards_lookup _ _ _ column) in Hlookup1 by done.
  simplify_eq/=.
  assert (findCardIndex σ (card_id c) (JS.push (col_cards column) card)
          = Some (length (col_cards column))) as ->.
  { apply findCardIndex_Some. exists card, c. unfold JS.push.
    split_and!; [|done..|].
    - by rewrite lookup_app_r, Nat.sub_diag by done.
    - intros j r' Hj Hlt. rewrite lookup_app_l in Hj by done.
      eapply findCardIndex_None in Hfresh; [done|].
      by eapply list_elem_of_lookup_2. }
  f_equal. apply (update_cards_cancel _ _ _ _ column); [done|].
  unfold JS.push, JS.splice_remove.
  by rewrite delete_middle, app_nil_r.
Qed.

Lemma document_alter columns ci (h : KanbanColumn → KanbanColumn) column :
  columns !! ci = Some column →
  column_value σ (h column) = column_value σ column →
  document σ (alter h ci columns) = document σ columns.
Proof.
  intros Hcolumn Hvalue. unfold document. apply list_eq. intros j.
  rewrite !list_lookup_fmap, list_lookup_alter.
  destruct (decide (ci = j)) as [<-|]; [|done].
  rewrite Hcolumn. simpl. by rewrite Hvalue.
Qed.

Lemma delete_there_and_back columns base card columnId index :
  records σ columns (DeleteCommand base card columnId index) →
  ∃ columns',
    execute_then_reverse σ columns
      (DeleteCommand base card columnId index) = (σ, columns')
    ∧ document σ columns' = document σ columns.
Proof.
  intros Hrecorded. unfold execute_then_reverse. simpl.
  unfold remove_card.
  destruct (findColumn columns columnId) as [[ci column]|] eqn:Hfind.
  2:{ rewrite Hfind. by eauto. }
  destruct (Hrecorded ci column Hfind)
    as (c & i & r & Hc & Hi & -> & Hr & Hrc).
  pose proof (findColumn_lookup _ _ _ _ Hfind) as Hcolumn.
  rewrite Hc, Hi.
  destruct (findColumn_updated columns ci (JS.splice_remove i)
              columnId ci) as (column1 & Hfind1 & _).
  { by rewrite Hfind. }
  rewrite Hfind1. eexists. split; [done|].
  unfold update_cards. rewrite list_alter_alter_eq.
  apply (document_alter _ _ _ column); [done|].
  unfold column_value. simpl. f_equal.
  rewrite (splice_insert_replace _ _ r) by done.
  rewrite list_fmap_insert. apply list_insert_id.
  rewrite list_lookup_fmap, Hr. simpl. congruence.
Qed.
End RoundTrip.

(** Assigning fields other than the id does not move cards around. *)
Lemma findCardIndex_alter (σ : gmap CardRef KanbanCard)
    (f : KanbanCard → KanbanCard) (r : CardRef) cardId cards :
  (∀ c, card_id (f c) = card_id c) →
  findCardIndex (alter f r σ) cardId cards = findCardIndex σ cardId cards.
Proof.
  intros Hf. unfold findCardIndex, JS.findIndex. f_equal.
  apply list_find_ext. intros r'. unfold has_id.
  rewrite lookup_alter. case_decide; [subst|done].
  destruct (σ !! r') as [c|]; simpl; [|done]. by rewrite Hf.
Qed.

Lemma findCardLocation_alter (σ : gmap CardRef KanbanCard)
    (f : KanbanCard → KanbanCard) (r : CardRef) columns cardId :
  (∀ c, card_id (f c) = card_id c) →
  findCardLocation (alter f r σ) columns cardId
  = findCardLocation σ columns cardId.
Proof.
  intros Hf. unfold findCardLocation.
  rewrite (list_find_ext _
             (λ column, is_Some (findCardIndex σ cardId (col_cards column)))).
  2:{ intros column. by rewrite findCardIndex_alter. }
  destruct (list_find _ columns) as [[ci column]|]; [|done]. simpl.
  by rewrite findCardIndex_alter.
Qed.

Lemma assign_values_twice (values values' : Values) (c : KanbanCard) :
  assign_values values (assign_values values' c) = assign_values values c.
Proof. done. Qed.

Lemma edit_there_and_back (σ : gmap CardRef KanbanCard) columns base
    cardId oldValues newValues :
  records σ columns (EditCommand base cardId oldValues newValues) →
  execute_then_reverse σ columns
    (EditCommand base cardId oldValues newValues) = (σ, columns).
Proof.
  intros Hrecorded. unfold execute_then_reverse. simpl. f_equal.
  unfold edit_card at 2.
  destruct (findCardLocation σ columns cardId) as [[ci i]|] eqn:Hloc.
  2:{ unfold edit_card. by rewrite Hloc. }
  destruct (card_at columns ci i) as [r|] eqn:Hr.
  2:{ unfold edit_card. by rewrite Hloc, Hr. }
  unfold edit_card. rewrite findCardLocation_alter, Hloc, Hr by done.
  rewrite alter_alter_eq. apply alter_id. intros c Hc. simpl.
  rewrite assign_values_twice. by eapply Hrecorded.
Qed.



(** The sample commands record the sample board. *)

Lemma card_at_board ci i r :
  card_at [todo; done_column] ci i = Some r → ci = 0%nat ∧ i = r ∧ (r < 3)%nat.
Proof.
  intros Hr.
  destruct ci as [|[|ci]]; [|by vm_compute in Hr..].
  destruct i as [|[|[|i]]]; vm_compute in Hr; simplify_eq; lia.
Qed.

Lemma unique_id_board cardId : unique_id objects [todo; done_column] cardId.
Proof.
  intros ci i cj j r r' (-> & -> & Hr)%card_at_board
    (-> & -> & Hr')%card_at_board Hid Hid'.
  split; [done|].
  destruct r as [|[|[|r]]], r' as [|[|[|r']]]; try lia;
    vm_compute in Hid, Hid'; congruence.
Qed.







(** An edit of a card whose description is the empty string, as
    [performEdit] records it, is not undone exactly: the description
    comes back as [undefined]. *)
Lemma undo_of_edit_with_empty_description :
  let σ := <[0%nat :=
             {| card_id := "a"; card_title := "A";
                card_description := Some ""%string;
                card_priority := Medium; card_assignee := None;
                card_createdAt := 0 |}]> cards in
  let '(σ1, context1, _) :=
    saveEdit σ (setEditTitle (editCard σ board (Some 0%nat)) "A, again")
      1000 0 in
  ∃ σ2 context2,
    undo σ1 context1 = Some (σ2, context2)
    ∧ card_description <$> σ !! 0%nat = Some (Some ""%string)
    ∧ card_description <$> σ2 !! 0%nat = Some None.
Proof. vm_compute. eauto. Qed.

(** ** C2: undo, then redo *)

(** C2 at an in-column move.  A, B, C are in "To Do"; A is dropped on
    the lower half of B.  [handleDropOnColumn] gives the order B, A, C
    and records the move with [to.index = 2].  Undo gives A, B, C
    again.  Redo takes A out and inserts it at index 2 of what is left:
    B, C, A, which is not the order before the undo. *)
Theorem redo_of_move_within_column :
  let '(context, _) :=
    handleDropOnColumn cards (dragging "a" "todo" (Some "b") After)
      (Some todo) 1000 0 in
  cards_of context = [[1; 0; 2]; []]%nat
  ∧ history context
    = [MoveCommand
         {| timestamp := 1000; description := "To Do → To Do"; seqId := 1 |}
         "a" "A" {| columnId := "todo"; index := 0 |}
         {| columnId := "todo"; index := 2 |}]
  ∧ ∃ σ1 context1 σ2 context2,
      undo cards context = Some (σ1, context1)
      ∧ cards_of context1 = [[0; 1; 2]; []]%nat
      ∧ redo σ1 context1 = Some (σ2, context2)
      ∧ cards_of context2 = [[1; 2; 0]; []]%nat
      ∧ historyIndex context2 = historyIndex context
      ∧ document σ2 (columns context2) ≠ document cards (columns context).
Proof.
  vm_compute. split_and!; [done..|].
  do 4 eexists. split_and!; [done..|discriminate].
Qed.

(** A second way for redo to miss the state before the undo.  The
    Create command holds the card object itself, the Delete command a
    copy of it.  A card is created with the title "New", renamed
    "Newer" and deleted; three undos put back the copy, give it the
    title "New" and take it out.  The card object of the Create command
    was not in the document when the edit was reversed and is still
    called "Newer": redo of the Create command brings back that one. *)
Lemma redo_of_create_after_edit_and_delete :
  let '(σ, context, seq) :=
    createCard ∅
      (setNewCardTitle (openNewCardModal empty_board (Some to_do)) "New")
      1000 "abcdefg" 0 in
  let created := titles_of σ context in
  let '(σ, context, seq) :=
    saveEdit σ (setEditTitle (editCard σ context (Some 0%nat)) "Newer")
      2000 seq in
  let '(σ, context, seq) := deleteCard σ context (Some 0%nat) 3000 seq in
  ∃ σ1 context1 σ2 context2 σ3 context3 σ4 context4,
    undo σ context = Some (σ1, context1)
    ∧ undo σ1 context1 = Some (σ2, context2)
    ∧ undo σ2 context2 = Some (σ3, context3)
    ∧ redo σ3 context3 = Some (σ4, context4)
    ∧ historyIndex context2 = 0
    ∧ historyIndex context4 = 0
    ∧ created = [[Some "New"%string]]
    ∧ titles_of σ2 context2 = [[Some "New"%string]]
    ∧ titles_of σ4 context4 = [[Some "Newer"%string]].
Proof. vm_compute. do 8 eexists. split_and!; done. Qed.

(** ** Instances on the sample board *)

Lemma jumpToRevision_replays_witness :
  (∃ σ' context',
     jumpToRevision objects (board_at (-1)) (Some edit_a)
     = Some (σ', context')
     ∧ historyIndex context' = 1
     ∧ (σ', columns context')
       = execute_all objects [todo; done_column] [move_a_to_done; edit_a])
  ∧ (∃ σ' context',
       jumpToRevision objects (board_at 1) (Some move_a_to_done)
       = Some (σ', context')
       ∧ historyIndex context' = 0
       ∧ (σ', columns context')
         = reverse_all objects [todo; done_column] [edit_a]).
Proof.
  split.
  - destruct (jumpToRevision_replays objects (board_at (-1)) edit_a 1)
      as (σ' & context' & Hjump & Hi & _ & Hforward & _);
      [simpl; lia | reflexivity |].
    exists σ', context'. split_and!; [done..|]. apply Hforward. simpl. lia.
  - destruct (jumpToRevision_replays objects (board_at 1) move_a_to_done 0)
      as (σ' & context' & Hjump & Hi & _ & _ & Hback & _);
      [simpl; lia | reflexivity |].
    exists σ', context'. split_and!; [done..|]. apply Hback. simpl. lia.
Defined.

Lemma history_ok_preserved_witness :
  history_ok (board_at 0)
  ∧ history_ok (pushCommand (board_at 0) create_d)
  ∧ (∃ σ' context',
       resetToInitial objects (board_at 0) = Some (σ', context')
       ∧ history_ok context').
Proof.
  assert (history_ok (board_at 0)) as Hok.
  { unfold history_ok, MAX_HISTORY_SIZE. simpl. lia. }
  destruct (history_ok_preserved objects (board_at 0) Hok)
    as (Hpush & _ & _ & _ & Hreset).
  split_and!; [exact Hok | apply Hpush | exact Hreset].
Defined.

Lemma edit_create_give_up_witness :
  (∃ context',
     performEdit objects board 1000 0 = (objects, context', 0)
     ∧ history context' = history board)
  ∧ (∃ context',
       createCard objects board 1000 "abcdefg" 0 = (objects, context', 0)
       ∧ history context' = history board).
Proof.
  destruct (edit_create_give_up objects board 1000 "abcdefg" 0)
    as [Hedit Hcreate].
  split.
  - destruct Hedit as (context' & Hresult & _ & _ & Hlog & _);
      [right; left; reflexivity|].
    by exists context'.
  - destruct Hcreate as (context' & Hresult & _ & _ & Hlog & _);
      [left; reflexivity|].
    by exists context'.
Defined.

(** * Further properties *)

(** ** The todo list *)

Section TodoFacts.
Import TodoList TodoProps.
Implicit Types (context : TodoContext) (t : TodoItem).






(** X2.  When the ids are distinct, [deleteTodo] removes the item it
    is called for and no other: the array loses the element at the
    position of the item.  Without an item it changes nothing. *)
Theorem deleteTodo_removes_item context (position : nat) t :
  NoDup (id <$> todos context) →
  todos context !! position = Some t →
  deleteTodo context (Some position)
  = {| todos := delete position (todos context);
       newTodoText := newTodoText context; nextId := nextId context |}
  ∧ deleteTodo context None = context.
Proof.
  intros Hnodup Ht. split; [|done]. unfold deleteTodo. simpl. rewrite Ht.
  simpl.
  assert (JS.findIndex (λ t', id t' = id t) (todos context)
          = Some position) as ->; [|done].
  unfold JS.findIndex.
  assert (list_find (λ t', id t' = id t) (todos context)
          = Some (position, t)) as ->; [|done].
  apply list_find_Some. split_and!; [done..|].
  intros j t' Hj Hlt Hid.
  assert (j = position); [|lia].
  eapply NoDup_lookup; [done|..]; rewrite list_lookup_fmap.
  - by rewrite Hj.
  - rewrite Ht. simpl. by rewrite Hid.
Qed.

Lemma deleteTodo_removes_item_witness :
  text <$> todos (deleteTodo two_todos (Some 1%nat)) = ["Buy milk"%string].
Proof.
  destruct (deleteTodo_removes_item two_todos 1
              {| id := 2; text := "Walk dog"; completed := false |})
    as [-> _]; [|reflexivity..].
  apply (bool_decide_unpack _). by vm_compute.
Defined.

Lemma remaining_alter_toggle (l : list TodoItem) (i : nat) t :
  l !! i = Some t →
  Z.of_nat (length (filter (λ t, negb (completed t) = true)
    (alter (λ t, {| id := id t; text := text t;
                    completed := negb (completed t) |}) i l)))
  = Z.of_nat (length (filter (λ t, negb (completed t) = true) l))
    + (if completed t then 1 else -1).
Proof.
  revert i. induction l as [|t' l IH]; intros [|i] Ht; [done..| |].
  - injection Ht as ->. cbn [alter list_alter]. rewrite !filter_cons.
    destruct t as [n s []]; simpl.
    + lia.
    + lia.
  - cbn [alter list_alter]. rewrite !filter_cons.
    specialize (IH i Ht). unfold alter in IH.
    destruct (decide (negb (completed t') = true)); simpl;
      unfold alter in *; lia.
Qed.

(** X3.  [toggleTodo] is its own inverse, and toggling an item of the
    list moves [remainingItems] by one: up when the item was
    completed, down when it was not. *)
Theorem toggleTodo_twice context item :
  toggleTodo (toggleTodo context item) item = context
  ∧ ∀ position t,
      item = Some position → todos context !! position = Some t →
      remainingItems (toggleTodo context item)
      = remainingItems context + (if completed t then 1 else -1).
Proof.
  split.
  - destruct item as [i|]; [|done]. unfold toggleTodo. simpl.
    rewrite list_alter_alter_eq, list_alter_id; [by destruct context|].
    intros [? ? []]; done.
  - intros position t -> Ht. unfold remainingItems. simpl.
    by apply remaining_alter_toggle.
Qed.

Lemma remaining_all_set (b : bool) (l : list TodoItem) :
  length (filter (λ t, negb (completed t) = true)
            (map (λ t, {| id := id t; text := text t; completed := b |}) l))
  = if b then 0%nat else length l.
Proof.
  induction l as [|t l IH]; [by destruct b|].
  cbn [map]. rewrite filter_cons. destruct b; simpl in *; [done|].
  by rewrite IH.
Qed.

(** X4.  After [toggleAll] either every item is completed or none is:
    nothing remains when some item was not completed, and everything
    remains when all were (also for the empty list); ids and texts
    are as before. *)
Theorem toggleAll_all_or_nothing context :
  remainingItems (toggleAll context)
  = (if forallb completed (todos context)
     then Z.of_nat (length (todos context)) else 0)
  ∧ id <$> todos (toggleAll context) = id <$> todos context
  ∧ text <$> todos (toggleAll context) = text <$> todos context.
Proof.
  unfold remainingItems, toggleAll. cbn [todos]. split_and!.
  - rewrite remaining_all_set.
    by destruct (forallb completed (todos context)).
  - rewrite <- list_fmap_compose. by apply list_fmap_ext.
  - rewrite <- list_fmap_compose. by apply list_fmap_ext.
Qed.

(** X5.  [clearCompleted] keeps the items that are not completed, in
    their order: no completed item is left, [remainingItems] is as
    before, and a second call changes nothing. *)
Theorem clearCompleted_keeps_remaining context :
  hasCompletedItems (clearCompleted context) = false
  ∧ remainingItems (clearCompleted context) = remainingItems context
  ∧ todos (clearCompleted context) `sublist_of` todos context
  ∧ clearCompleted (clearCompleted context) = clearCompleted context.
Proof.
  unfold hasCompletedItems, remainingItems, clearCompleted. cbn [todos].
  assert (filter (λ t, negb (completed t) = true)
            (filter (λ t, negb (completed t) = true) (todos context))
          = filter (λ t, negb (completed t) = true) (todos context))
    as Hidem.
  { induction (todos context) as [|t l IH]; [done|].
    rewrite filter_cons. case_decide; [|done].
    rewrite filter_cons, decide_True by done. by rewrite IH. }
  split_and!.
  - clear Hidem. induction (todos context) as [|t l IH]; [done|].
    rewrite filter_cons. case_decide; [|done]. cbn [existsb].
    rewrite IH. by destruct (completed t).
  - by rewrite Hidem.
  - apply sublist_filter.
  - by rewrite Hidem.
Qed.
End TodoFacts.

(** ** Sorted lists *)

Section SortedFacts.
Context {A : Type} (R : relation A).

Lemma StronglySorted_sublist (l1 l2 : list A) :
  l1 `sublist_of` l2 → StronglySorted R l2 → StronglySorted R l1.
Proof.
  induction 1 as [|x l1 l2 Hsub IH|x l1 l2 Hsub IH]; [done|..].
  - intros [Hx Hl2]%StronglySorted_cons. apply StronglySorted_cons.
    split; [|by apply IH]. rewrite Forall_forall in Hx |- *.
    intros y Hy. apply Hx. by eapply elem_of_sublist.
  - intros [_ Hl2]%StronglySorted_cons. by apply IH.
Qed.

Lemma StronglySorted_lookup_lt (l : list A) (i j : nat) a b :
  StronglySorted R l → l !! i = Some a → l !! j = Some b → (i < j)%nat →
  R a b.
Proof.
  intros Hl. revert i j. induction Hl as [|x l Hl IH Hx];
    intros [|i] [|j] Ha Hb Hlt; simplify_eq/=; try lia.
  - rewrite Forall_forall in Hx. apply Hx. by eapply list_elem_of_lookup_2.
  - apply (IH i j); (done || lia).
Qed.

Lemma Forall_sublist (P : A → Prop) (l1 l2 : list A) :
  l1 `sublist_of` l2 → Forall P l2 → Forall P l1.
Proof.
  rewrite !Forall_forall. intros Hsub HP x Hx.
  apply HP. by eapply elem_of_sublist.
Qed.
End SortedFacts.

(** ** Live search *)

Section LiveSearchMore.
Import LiveSearch SearchProps SearchProps2.
Implicit Types (context : LiveSearchContext) (page : Page).


Lemma tasks_ordered_handle page event :
  tasks_ordered page → tasks_ordered (handle page event).
Proof.
  intros (Hsome & Hsorted & Hbelow).
  destruct (pending_handle page event Hsome) as [Hsome' Hmono].
  split; [done|].
  destruct event as [newQuery|k|k rejects]; simpl in *.
  - unfold updateQuery, pending in *. destruct Hsome as [n Hn].
    destruct (negb _); simpl in *; rewrite ?Hn in *; simpl in *.
    + by rewrite app_nil_r.
    + rewrite fmap_app. simpl. split.
      * apply StronglySorted_app_2; [|done|by repeat constructor].
        intros a b Ha ->%list_elem_of_singleton.
        rewrite Forall_forall in Hbelow. specialize (Hbelow a Ha). lia.
      * apply Forall_app. split.
        -- eapply Forall_impl; [done|]. simpl. intros. lia.
        -- apply Forall_singleton. lia.
  - assert (searchId_of <$> alter resume_splitTask k (tasks page)
            = searchId_of <$> tasks page) as ->; [|done].
    apply list_eq. intros j.
    rewrite !list_lookup_fmap, list_lookup_alter.
    destruct (decide (k = j)) as [->|]; [|done].
    by destruct (tasks page !! j) as [[]|].
  - destruct (tasks page !! k) as [[]|] eqn:Hk; simpl in *; try done.
    unfold pending in *. rewrite pending_resume_search in *.
    assert ((searchId_of <$> delete k (tasks page))
              `sublist_of` (searchId_of <$> tasks page)) as Hsub
      by apply fmap_sublist, sublist_delete.
    split.
    + by eapply StronglySorted_sublist.
    + by eapply Forall_sublist.
Qed.

Lemma tasks_ordered_run page events :
  tasks_ordered page → tasks_ordered (run page events).
Proof.
  revert page. induction events as [|event events IH]; intros page Hok;
    [done|].
  simpl. by apply IH, tasks_ordered_handle.
Qed.

(** X7.  However the inputs, the resumptions and the settlements
    interleave after [init], at most one suspended invocation of
    [updateQuery] is the current one ([context._pendingSearchId ===
    searchId]): the ids of the suspended invocations are distinct and
    none is ahead of the counter. *)
Theorem one_current_search context events :
  let page := run {| context := init context; tasks := [] |} events in
  tasks_ordered page
  ∧ ∀ i j task task',
      tasks page !! i = Some task → tasks page !! j = Some task' →
      is_current (LiveSearch.context page) (searchId_of task) = true →
      is_current (LiveSearch.context page) (searchId_of task') = true →
      i = j.
Proof.
  intros page.
  assert (tasks_ordered page) as Hok.
  { apply tasks_ordered_run. split_and!; [by eexists|constructor..]. }
  split; [done|].
  intros i j task task' Hi Hj Hcurrent Hcurrent'.
  apply bool_decide_eq_true in Hcurrent, Hcurrent'.
  assert (searchId_of task = searchId_of task') as Heq by congruence.
  destruct Hok as (_ & Hsorted & _).
  destruct (Nat.lt_total i j) as [Hlt|[Heqij|Hlt]]; [|done|].
  - pose proof (StronglySorted_lookup_lt Z.lt _ i j (searchId_of task)
                  (searchId_of task') Hsorted) as Hlt'.
    rewrite !list_lookup_fmap, Hi, Hj in Hlt'. specialize (Hlt' eq_refl eq_refl Hlt). lia.
  - pose proof (StronglySorted_lookup_lt Z.lt _ j i (searchId_of task')
                  (searchId_of task) Hsorted) as Hlt'.
    rewrite !list_lookup_fmap, Hi, Hj in Hlt'. specialize (Hlt' eq_refl eq_refl Hlt). lia.
Qed.

(** What the current invocation writes when its promise settles. *)
Lemma resume_search_current context searchId settled :
  _pendingSearchId context = Some searchId →
  resume_search context searchId settled
  = set_isLoading false
      (set_results
         (match settled with Resolved results => results | Rejected => [] end)
         context).
Proof.
  intros Hcurrent. unfold resume_search.
  assert (∀ c, _pendingSearchId c = Some searchId →
               is_current c searchId = true) as Hyes
    by (intros; by apply bool_decide_eq_true_2).
  rewrite (Hyes context Hcurrent).
  destruct settled; by rewrite Hyes.
Qed.

(** X8.  A search that nothing interrupts delivers: after
    [updateQuery] with a query that is not blank, the resumption of the
    new task and the settlement of its promise, [results] is what
    [simulateSearch] found for the query (the empty list when the
    promise rejects), [isLoading] is [false], and the dropdown is
    open. *)
Theorem search_delivers page newQuery :
  JS.trim newQuery ≠ ""%string →
  let k := length (tasks page) in
  let started := handle page (Input newQuery) in
  let settled rejects :=
    handle (handle started (TaskResumes k)) (SearchSettles k rejects) in
  (isLoading (context started) = true
   ∧ selectedIndex (context started) = -1
   ∧ results (context started) = results (context page))
  ∧ (∀ rejects,
       results (context (settled rejects))
       = (if rejects then [] else simulateSearch newQuery)
       ∧ isLoading (context (settled rejects)) = false
       ∧ isOpen (context (settled rejects)) = true
       ∧ query (context (settled rejects)) = newQuery
       ∧ tasks (settled rejects) = tasks page).
Proof.
  intros Hquery k started settled. unfold settled, started, k. simpl.
  unfold updateQuery, JS.truthy.
  rewrite bool_decide_eq_true_2 by done. simpl.
  split; [done|]. intros rejects.
  replace (length (tasks page)) with (length (tasks page) + 0)%nat by lia.
  rewrite alter_app_r. simpl.
  rewrite (list_lookup_middle _ _ _ (length (tasks page) + 0)) by lia.
  simpl. rewrite Nat.add_0_r, delete_middle, app_nil_r.
  rewrite resume_search_current by done. by destruct rejects.
Qed.

Lemma search_delivers_witness :
  results
    (context
       (run first_page
          [Input "redis"; TaskResumes 0; SearchSettles 0 false]%string))
  = simulateSearch "redis".
Proof.
  destruct (search_delivers first_page "redis"%string) as [_ Hsettled];
    [vm_compute; discriminate|].
  apply (Hsettled false).
Defined.

Lemma recent_ok_choose context result :
  recent_ok context → recent_ok (choose context result).
Proof.
  intros [Hnodup Hlen]. unfold recent_ok, choose. simpl.
  case_bool_decide as Hin; [done|].
  rewrite slice_prefix by lia. change (Z.to_nat 5) with 5%nat. split.
  - eapply sublist_NoDup; [|apply sublist_take].
    by apply NoDup_cons.
  - rewrite length_take. lia.
Qed.

(** X9.  The recent searches stay at most five and without
    repetition under every action of the search box: a chosen title
    that is already among them changes nothing, a new one goes to the
    front and the sixth is dropped. *)
Theorem recent_searches_bounded context :
  recent_ok context →
  (∀ key, recent_ok (handleKeydown context key))
  ∧ (∀ item, recent_ok (selectResult context item))
  ∧ (∀ newQuery, recent_ok (updateQuery context newQuery).1)
  ∧ (∀ searchId settled, recent_ok (resume_search context searchId settled))
  ∧ recent_ok (focusInput context)
  ∧ (∀ result,
       title result ∉ recentSearches context →
       recentSearches (selectResult context (Some result))
       = take 5 (title result :: recentSearches context)).
Proof.
  intros Hok. split_and!.
  - intros []; unfold handleKeydown; simpl; try done.
    + by case_bool_decide.
    + by case_bool_decide.
    + destruct (_ >=? _); [|done].
      destruct (JS.at_index _ _); [|done]. by apply recent_ok_choose.
  - intros [result|]; [|done]. by apply recent_ok_choose.
  - intros newQuery. unfold updateQuery. by destruct (negb _).
  - intros searchId settled. unfold resume_search.
    destruct settled; destruct (is_current context searchId) eqn:Hcurrent;
      simpl; rewrite ?Hcurrent; try done;
      by destruct (is_current _ searchId).
  - unfold focusInput. by destruct (JS.truthy _).
  - intros result Hnew. simpl. rewrite bool_decide_eq_false_2 by done.
    by rewrite slice_prefix by lia.
Qed.

Lemma recent_searches_bounded_witness :
  recent_ok (handleKeydown showing_react Enter)
  ∧ recentSearches (handleKeydown showing_react Enter)
    = ["Vue Composition API"; "Redux Store"; "SQL Joins"]%string.
Proof.
  assert (recent_ok showing_react) as Hok.
  { split; [|simpl; lia]. apply (bool_decide_unpack _). by vm_compute. }
  destruct (recent_searches_bounded showing_react Hok)
    as (Hkey & _ & _ & _ & _ & Hfront).
  split; [apply Hkey|].
  apply (Hfront (result 2 "Vue Composition API" "ref, reactive, computed"
                   "Frontend")).
  apply (bool_decide_unpack _). by vm_compute.
Defined.

(** X10.  With results on display and the selection on one of them or
    on none ([-1]), [ArrowDown] and [ArrowUp] put the selection on a
    result: down goes to the next one and from the last to the first,
    up goes to the one before and from the first (or from none) to
    the last.  With the selection on a result, [ArrowUp] takes back
    [ArrowDown], and the other way round. *)
Theorem arrows_stay_on_results context :
  results context ≠ [] →
  -1 ≤ selectedIndex context < Z.of_nat (length (results context)) →
  is_Some (selectedResult (handleKeydown context ArrowDown))
  ∧ is_Some (selectedResult (handleKeydown context ArrowUp))
  ∧ (0 ≤ selectedIndex context →
     handleKeydown (handleKeydown context ArrowDown) ArrowUp = context
     ∧ handleKeydown (handleKeydown context ArrowUp) ArrowDown = context).
Proof.
  intros Hne Hsel.
  assert (0 < length (results context))%nat as Hlen
    by (destruct (results context); [done|simpl; lia]).
  assert (∀ i, 0 ≤ i < Z.of_nat (length (results context)) →
               is_Some (selectedResult (set_selectedIndex i context)))
    as Hon.
  { intros i Hi. unfold selectedResult. simpl.
    destruct (Z.geb_spec i 0); [|lia].
    destruct (Z.ltb_spec i (Z.of_nat (length (results context)))); [|lia].
    simpl. by apply at_index_is_Some. }
  unfold handleKeydown. rewrite !bool_decide_eq_true_2 by done.
  split_and!.
  - apply Hon. destruct (_ <? _) eqn:Hlast; [|lia].
    apply Z.ltb_lt in Hlast. lia.
  - apply Hon. destruct (_ >? _) eqn:Hfirst; lia.
  - intros Hon'. simpl. rewrite ?bool_decide_eq_true_2 by done. split.
    + destruct (Z.ltb_spec (selectedIndex context)
                  (Z.of_nat (length (results context)) - 1)).
      * destruct (Z.gtb_spec (selectedIndex context + 1) 0); [|lia].
        destruct context; unfold set_selectedIndex; simpl in *.
        f_equal. lia.
      * simpl. destruct context; unfold set_selectedIndex; simpl in *.
        f_equal. lia.
    + destruct (Z.gtb_spec (selectedIndex context) 0).
      * destruct (Z.ltb_spec (selectedIndex context - 1)
                    (Z.of_nat (length (results context)) - 1)); [|lia].
        destruct context; unfold set_selectedIndex; simpl in *.
        f_equal. lia.
      * destruct (Z.ltb_spec (Z.of_nat (length (results context)) - 1)
                    (Z.of_nat (length (results context)) - 1)); [lia|].
        destruct context; unfold set_selectedIndex; simpl in *.
        f_equal. lia.
Qed.

Lemma arrows_stay_on_results_witness :
  title <$> selectedResult (handleKeydown showing_react ArrowDown)
  = Some "React Context"%string
  ∧ handleKeydown (handleKeydown showing_react ArrowDown) ArrowUp
    = showing_react.
Proof.
  destruct (arrows_stay_on_results showing_react) as (_ & _ & Hback);
    [vm_compute; discriminate | split; by vm_compute |].
  split; [reflexivity|]. apply Hback. vm_compute. discriminate.
Defined.
End LiveSearchMore.

(** ** Choosing a result *)

Section Choice.
Import LiveSearch SearchProps SearchProps2.
Implicit Types (context : LiveSearchContext).

(** X11.  Choosing a result, by a click or by [Enter] on the selected
    result, closes the search: the query and the results are emptied
    and the dropdown is hidden; until the next input, focusing the box
    and every key leave the context as it is. *)
Theorem choice_closes_search context result :
  let context' := selectResult context (Some result) in
  (selectedResult context = Some result →
   handleKeydown context Enter = context')
  ∧ query context' = EmptyString ∧ results context' = []
  ∧ showDropdown context' = false ∧ hasQuery context' = false
  ∧ selectedResult context' = None
  ∧ focusInput context' = context'
  ∧ ∀ key, handleKeydown context' key = context'.
Proof.
  cbv zeta. split_and!; try done.
  - unfold selectedResult, handleKeydown.
    destruct (_ >=? _); [|done]. destruct (_ <? _); [|done]. simpl.
    by intros ->.
  - unfold selectedResult. simpl. destruct (_ && _); [|done].
    unfold JS.at_index. by destruct (_ <? _).
  - intros []; try done. unfold handleKeydown. simpl.
    destruct (_ >=? _); [|done]. unfold JS.at_index.
    by destruct (_ <? _).
Qed.
End Choice.

(** ** The history of the board *)

Section HistoryMore.
Import BoardProps.
Implicit Types (context : KanbanContext) (command : Command).
Implicit Types (σ : gmap CardRef KanbanCard).

Lemma context_eta context :
  set_historyIndex (historyIndex context)
    (set_columns (columns context) context) = context.
Proof. by destruct context. Qed.

(** The descending loop is [performUndo] again and again. *)
Lemma undo_times_reverse_from (count : nat) σ context σ' columns' :
  reverse_from (history context) count (historyIndex context) σ
    (columns context) = Some (σ', columns') →
  Z.of_nat count ≤ historyIndex context + 1 →
  undo_times count σ context
  = Some (σ', set_historyIndex (historyIndex context - Z.of_nat count)
                (set_columns columns' context)).
Proof.
  revert σ context. induction count as [|count IH];
    intros σ context Hloop Hcount.
  - simpl in *. simplify_eq. rewrite Z.sub_0_r. by rewrite context_eta.
  - cbn [reverse_from] in Hloop. cbn [undo_times]. unfold performUndo.
    destruct (Z.geb_spec (historyIndex context) 0); [|lia].
    destruct (JS.at_index (history context) (historyIndex context))
      as [command|]; [|done]. cbn [mbind option_bind] in *.
    destruct (reverseCommand σ (columns context) command)
      as [σ1 columns1]. cbn [mbind option_bind].
    rewrite (IH σ1 (set_historyIndex (historyIndex context - 1)
                      (set_columns columns1 context))).
    + unfold set_historyIndex, set_columns. simpl. do 3 f_equal. lia.
    + done.
    + simpl. lia.
Qed.

(** X12.  [resetToInitial] is undo, repeated until nothing is left to
    undo: with the index on an entry of the log (or at [-1]) it gives
    what [historyIndex + 1] calls of [performUndo] give, it does not
    raise, and afterwards [canUndo] is [false] and the log is as
    before. *)
Theorem resetToInitial_is_repeated_undo σ context :
  -1 ≤ historyIndex context < Z.of_nat (length (history context)) →
  resetToInitial σ context
  = undo_times (Z.to_nat (historyIndex context + 1)) σ context
  ∧ ∃ σ' context',
      resetToInitial σ context = Some (σ', context')
      ∧ canUndo context' = false
      ∧ history context' = history context.
Proof.
  intros Hi. rewrite resetToInitial_outcome by done.
  destruct (reverse_all σ (columns context) (reverse (past context)))
    as [σ' columns'] eqn:Hall.
  split; [|by eauto].
  symmetry. erewrite undo_times_reverse_from; [|..|lia].
  - do 3 f_equal. lia.
  - rewrite reverse_from_range by lia.
    replace (Z.to_nat (historyIndex context + 1)
             - Z.to_nat (historyIndex context + 1))%nat with 0%nat by lia.
    rewrite drop_0. fold (past context). by rewrite Hall.
Qed.

Lemma resetToInitial_is_repeated_undo_witness :
  resetToInitial objects (board_at 1) = undo_times 2 objects (board_at 1).
Proof.
  apply (resetToInitial_is_repeated_undo objects (board_at 1)).
  simpl. lia.
Defined.

(** X13.  A jump to the revision next to the current one is a redo, a
    jump to the one before is an undo, and a jump to the current one
    changes nothing; so does a jump without a command or with a
    command whose [seqId] is not in the log. *)
Theorem jumpToRevision_one_step σ context command (targetIndex : nat) :
  -1 ≤ historyIndex context < Z.of_nat (length (history context)) →
  JS.findIndex (λ c, seqId (base_of c) = seqId (base_of command))
    (history context) = Some targetIndex →
  (Z.of_nat targetIndex = historyIndex context + 1 →
   jumpToRevision σ context (Some command) = performRedo σ context)
  ∧ (Z.of_nat targetIndex = historyIndex context - 1 →
     jumpToRevision σ context (Some command) = performUndo σ context)
  ∧ (Z.of_nat targetIndex = historyIndex context →
     jumpToRevision σ context (Some command) = Some (σ, context))
  ∧ jumpToRevision σ context None = Some (σ, context)
  ∧ ∀ other,
      JS.findIndex (λ c, seqId (base_of c) = seqId (base_of other))
        (history context) = None →
      jumpToRevision σ context (Some other) = Some (σ, context).
Proof.
  intros Hi Hfind. pose proof (findIndex_lt _ _ _ Hfind) as Hlt.
  split_and!.
  - intros Htarget. unfold jumpToRevision, performRedo. rewrite Hfind.
    destruct (Z.gtb_spec (Z.of_nat targetIndex) (historyIndex context));
      [|lia].
    destruct (Z.ltb_spec (historyIndex context)
                (Z.of_nat (length (history context)) - 1)); [|lia].
    replace (Z.to_nat (Z.of_nat targetIndex - historyIndex context))
      with 1%nat by lia.
    simpl.
    destruct (JS.at_index (history context) (historyIndex context + 1))
      as [next|]; [|done]. simpl.
    destruct (executeCommand σ (columns context) next) as [σ' columns'].
    simpl. by rewrite Htarget.
  - intros Htarget. unfold jumpToRevision, performUndo. rewrite Hfind.
    destruct (Z.gtb_spec (Z.of_nat targetIndex) (historyIndex context));
      [lia|].
    destruct (Z.ltb_spec (Z.of_nat targetIndex) (historyIndex context));
      [|lia].
    destruct (Z.geb_spec (historyIndex context) 0); [|lia].
    replace (Z.to_nat (historyIndex context - Z.of_nat targetIndex))
      with 1%nat by lia.
    simpl.
    destruct (JS.at_index (history context) (historyIndex context))
      as [current|]; [|done]. simpl.
    destruct (reverseCommand σ (columns context) current) as [σ' columns'].
    simpl. by rewrite Htarget.
  - intros Htarget. unfold jumpToRevision. rewrite Hfind.
    destruct (Z.gtb_spec (Z.of_nat targetIndex) (historyIndex context));
      [lia|].
    destruct (Z.ltb_spec (Z.of_nat targetIndex) (historyIndex context));
      [lia|].
    simpl. by rewrite Htarget, context_eta.
  - done.
  - intros other Hnone. unfold jumpToRevision. by rewrite Hnone.
Qed.

Lemma jumpToRevision_one_step_witness :
  jumpToRevision objects (board_at 0) (Some edit_a)
  = performRedo objects (board_at 0)
  ∧ jumpToRevision objects (board_at 1) (Some move_a_to_done)
    = performUndo objects (board_at 1).
Proof.
  split.
  - apply (jumpToRevision_one_step objects (board_at 0) edit_a 1);
      [simpl; lia | reflexivity | reflexivity].
  - apply (jumpToRevision_one_step objects (board_at 1) move_a_to_done 0);
      [simpl; lia | reflexivity | reflexivity].
Defined.
End HistoryMore.

(** ** The sequence ids of the log *)

Section LogFacts.
Import BoardProps.
Implicit Types (context : KanbanContext) (command : Command).
Implicit Types (σ : gmap CardRef KanbanCard).

Lemma log_ok_same_history context context' n n' :
  history context' = history context → n ≤ n' →
  log_ok context n → log_ok context' n'.
Proof.
  intros Hlog Hle [Hsorted Hbelow]. unfold log_ok, seqIds in *.
  rewrite Hlog. split; [done|].
  eapply Forall_impl; [done|]. simpl. intros. lia.
Qed.

Lemma log_ok_pushCommand context command n :
  -1 ≤ historyIndex context →
  seqId (base_of command) = n + 1 →
  log_ok context n → log_ok (pushCommand context command) (n + 1).
Proof.
  intros Hi Hseq [Hsorted Hbelow]. unfold log_ok, seqIds in *.
  rewrite pushCommand_history by done.
  set (ids := (λ c, seqId (base_of c)) <$> history context) in *.
  assert (((λ c, seqId (base_of c)) <$> newest 50 (past context ++ [command]))
            `sublist_of` (ids ++ [n + 1])) as Hsub.
  { unfold newest. etrans; [apply fmap_sublist, sublist_drop|].
    rewrite fmap_app. simpl. rewrite Hseq.
    apply sublist_app; [|done]. apply fmap_sublist, sublist_take. }
  split.
  - eapply StronglySorted_sublist; [done|].
    apply StronglySorted_app_2; [|done|by repeat constructor].
    intros a b Ha ->%list_elem_of_singleton.
    rewrite Forall_forall in Hbelow. specialize (Hbelow a Ha). lia.
  - eapply Forall_sublist; [done|]. apply Forall_app. split.
    + eapply Forall_impl; [done|]. simpl. intros. lia.
    + by apply Forall_singleton.
Qed.

Lemma history_pushCommand_columns context columns command :
  history (pushCommand (set_columns columns context) command)
  = history (pushCommand context command).
Proof. unfold pushCommand. simpl. by destruct (_ >? _). Qed.

(** X14.  The actions that record a command ([performEdit],
    [createCard], [deleteCard], [handleDropOnColumn]) stamp it with the
    next value of [commandSeqId], so the sequence ids of the log keep
    growing from the oldest entry to the newest and none is ahead of
    the counter; the counter never goes back. *)
Theorem seqIds_grow σ context (commandSeqId now : Z) :
  log_ok context commandSeqId →
  -1 ≤ historyIndex context →
  (let '(_, context', n) := performEdit σ context now commandSeqId in
   log_ok context' n ∧ commandSeqId ≤ n)
  ∧ (∀ random,
       let '(_, context', n) :=
         createCard σ context now random commandSeqId in
       log_ok context' n ∧ commandSeqId ≤ n)
  ∧ (∀ item,
       let '(_, context', n) := deleteCard σ context item now commandSeqId in
       log_ok context' n ∧ commandSeqId ≤ n)
  ∧ (∀ item,
       let '(context', n) :=
         handleDropOnColumn σ context item now commandSeqId in
       log_ok context' n ∧ commandSeqId ≤ n).
Proof.
  intros Hok Hi.
  assert (∀ context' n, history context' = history context →
            n = commandSeqId → log_ok context' n ∧ commandSeqId ≤ n)
    as Hsame.
  { intros context' n Hlog ->. split; [|lia].
    by eapply log_ok_same_history. }
  assert (∀ context' columns command,
            history context'
            = history (pushCommand (set_columns columns context) command) →
            seqId (base_of command) = commandSeqId + 1 →
            log_ok context' (commandSeqId + 1)
            ∧ commandSeqId ≤ commandSeqId + 1) as Hpush.
  { intros context' columns command Hlog Hseq. split; [|lia].
    eapply (log_ok_same_history (pushCommand context command) _
              (commandSeqId + 1));
      [by rewrite Hlog, history_pushCommand_columns|lia|].
    by apply log_ok_pushCommand. }
  split_and!.
  - unfold performEdit.
    destruct (_ || _); [by apply Hsame|].
    destruct (findCardLocation _ _ _) as [[ci i]|]; [|by apply Hsame].
    destruct (_ ≫= _) as [[r card]|]; [|by apply Hsame].
    split; [|lia].
    eapply (log_ok_same_history (pushCommand context _) _
              (commandSeqId + 1)); [done|lia|].
    by apply log_ok_pushCommand.
  - intros random. unfold createCard.
    destruct (_ || _); [by apply Hsame|].
    destruct (findColumn _ _) as [[ci column]|]; [|by apply Hsame].
    by eapply Hpush.
  - intros item. unfold deleteCard.
    destruct (_ ≫= _) as [card|]; [|by apply Hsame].
    destruct (findCardLocation _ _ _) as [[ci i]|]; [|by apply Hsame].
    by eapply Hpush.
  - intros item. unfold handleDropOnColumn.
    destruct (_ || _); [by apply Hsame|].
    destruct (findColumn _ _) as [[si sourceColumn]|]; [|by apply Hsame].
    destruct (findColumn _ _) as [[ti targetColumn]|]; [|by apply Hsame].
    destruct (findCardIndex _ _ _) as [cardIndex|]; [|by apply Hsame].
    destruct (_ ≫= _) as [[r card]|]; [|by apply Hsame].
    destruct (_ && _); [by apply Hsame|].
    by eapply Hpush.
Qed.

Lemma seqIds_grow_witness :
  log_ok (deleteCard objects (board_at 1) (Some 1%nat) 1000 3).1.2 4.
Proof.
  assert (log_ok (board_at 1) 3) as Hok.
  { split; repeat constructor; simpl; lia. }
  destruct (seqIds_grow objects (board_at 1) 3 1000 Hok)
    as (_ & _ & Hdelete & _); [simpl; lia|].
  apply (Hdelete (Some 1%nat)).
Defined.

Lemma findIndex_seqId context (n : Z) (i : nat) command :
  StronglySorted Z.lt (seqIds context) →
  history context !! i = Some command →
  JS.findIndex (λ c, seqId (base_of c) = seqId (base_of command))
    (history context) = Some i.
Proof.
  intros Hsorted Hi. unfold JS.findIndex.
  assert (list_find (λ c, seqId (base_of c) = seqId (base_of command))
            (history context) = Some (i, command)) as ->; [|done].
  apply list_find_Some. split_and!; [done..|].
  intros j other Hj Hlt Heq.
  pose proof (StronglySorted_lookup_lt Z.lt _ j i
                (seqId (base_of other)) (seqId (base_of command)) Hsorted)
    as Hlt'.
  unfold seqIds in Hlt'. rewrite !list_lookup_fmap, Hi, Hj in Hlt'.
  specialize (Hlt' eq_refl eq_refl Hlt). lia.
Qed.

(** X15.  When the sequence ids grow along the log, a revision is
    found by its [seqId] at its own place: [jumpToRevision] called for
    the entry at position [i] leaves [historyIndex] at [i], and
    [isCurrentRevision] holds for the entry at [historyIndex] and for
    no other entry of the log. *)
Theorem revision_found_by_seqId σ context (n : Z) (i : nat) command :
  log_ok context n →
  -1 ≤ historyIndex context < Z.of_nat (length (history context)) →
  history context !! i = Some command →
  (∃ σ' context',
     jumpToRevision σ context (Some command) = Some (σ', context')
     ∧ historyIndex context' = Z.of_nat i)
  ∧ (isCurrentRevision context (Some command) = true
     ↔ Z.of_nat i = historyIndex context).
Proof.
  intros [Hsorted _] Hrange Hi.
  pose proof (findIndex_seqId context n i command Hsorted Hi) as Hfind.
  split.
  - rewrite (jumpToRevision_outcome _ _ _ i) by done.
    match goal with |- context [let '(_, _) := ?e in _] =>
      destruct e as [σ' columns'] end.
    by eauto.
  - unfold isCurrentRevision. rewrite Hfind. apply bool_decide_eq_true.
Qed.

Lemma revision_found_by_seqId_witness :
  isCurrentRevision (board_at 1) (Some edit_a) = true
  ∧ isCurrentRevision (board_at 1) (Some move_a_to_done) = false.
Proof.
  assert (log_ok (board_at 1) 3) as Hok.
  { split; repeat constructor; simpl; lia. }
  split.
  - apply (revision_found_by_seqId objects (board_at 1) 3 1 edit_a Hok);
      [simpl; lia | reflexivity | reflexivity].
  - destruct (isCurrentRevision (board_at 1) (Some move_a_to_done))
      eqn:Hcurrent; [|done].
    apply (revision_found_by_seqId objects (board_at 1) 3 0 move_a_to_done
             Hok) in Hcurrent; [done | simpl; lia | reflexivity].
Defined.
End LogFacts.

(** ** The undo and redo buttons *)

Section Buttons.
Implicit Types (context : KanbanContext) (command : Command).
Implicit Types (σ : gmap CardRef KanbanCard).

(** X16.  [canUndo] and [canRedo] tell what the buttons do: after a
    command is pushed there is something to undo and nothing to redo;
    where [canUndo] holds, undo goes one revision back and leaves
    something to redo; where [canRedo] holds, redo goes one revision
    forward and leaves something to undo; where they do not hold, undo
    and redo change nothing. *)
Theorem undo_redo_available σ context :
  history_ok context →
  (∀ command,
     canUndo (pushCommand context command) = true
     ∧ canRedo (pushCommand context command) = false)
  ∧ (canUndo context = true →
     ∃ σ' context',
       performUndo σ context = Some (σ', context')
       ∧ historyIndex context' = historyIndex context - 1
       ∧ canRedo context' = true)
  ∧ (canRedo context = true →
     ∃ σ' context',
       performRedo σ context = Some (σ', context')
       ∧ historyIndex context' = historyIndex context + 1
       ∧ canUndo context' = true)
  ∧ (canUndo context = false → performUndo σ context = Some (σ, context))
  ∧ (canRedo context = false → performRedo σ context = Some (σ, context)).
Proof.
  intros [Hindex Hsize]. unfold canUndo, canRedo. split_and!.
  - intros command.
    pose proof (pushCommand_index context command) as Hlast.
    pose proof (pushCommand_history context command) as Hlog.
    pose proof (length_newest 50 (past context ++ [command])) as Hlen.
    rewrite length_app in Hlen. simpl in Hlen.
    assert (-1 ≤ historyIndex context) as Hge by lia.
    rewrite Hlast, Hlog, Hlen by done.
    split; [apply Z.geb_le|apply Z.ltb_ge]; lia.
  - intros Hundo%Z.geb_le. unfold performUndo.
    destruct (_ >=? _) eqn:Hge; [|lia].
    destruct (at_index_is_Some (history context) (historyIndex context))
      as [command ->]; [lia|]. simpl.
    destruct (reverseCommand _ _ _) as [σ' columns'].
    eexists _, _. split; [done|]. simpl. split; [done|].
    apply Z.ltb_lt. lia.
  - intros Hredo%Z.ltb_lt. unfold performRedo.
    destruct (_ <? _) eqn:Hlt; [|lia]. simpl.
    destruct (at_index_is_Some (history context) (historyIndex context + 1))
      as [command ->]; [lia|]. simpl.
    destruct (executeCommand _ _ _) as [σ' columns'].
    eexists _, _. split; [done|]. simpl. split; [done|].
    apply Z.geb_le. lia.
  - intros Hundo. unfold performUndo. by rewrite Hundo.
  - intros Hredo. unfold performRedo. by rewrite Hredo.
Qed.

Lemma undo_redo_available_witness :
  canRedo (pushCommand (board_at 0) delete_b) = false
  ∧ performUndo objects (board_at (-1)) = Some (objects, board_at (-1)).
Proof.
  split.
  - destruct (undo_redo_available objects (board_at 0)) as [Hpush _];
      [unfold history_ok, MAX_HISTORY_SIZE; simpl; lia|].
    apply (Hpush delete_b).
  - destruct (undo_redo_available objects (board_at (-1)))
      as (_ & _ & _ & Hundo & _); [unfold history_ok, MAX_HISTORY_SIZE; simpl; lia|].
    apply Hundo. reflexivity.
Defined.
End Buttons.

(** ** A recorded action followed by undo *)

Section RoundTrips.
Import BoardProps.
Implicit Types (context : KanbanContext) (command : Command).
Implicit Types (σ : gmap CardRef KanbanCard).
Implicit Types (columns : list KanbanColumn).

Lemma columns_pushCommand context command :
  columns (pushCommand context command) = columns context.
Proof. unfold pushCommand. by destruct (_ >? _). Qed.

Lemma pushCommand_current context command :
  -1 ≤ historyIndex context →
  0 ≤ historyIndex (pushCommand context command)
  ∧ JS.at_index (history (pushCommand context command))
      (historyIndex (pushCommand context command)) = Some command
  ∧ columns (pushCommand context command) = columns context.
Proof.
  intros Hi. rewrite pushCommand_index, pushCommand_history by done.
  pose proof (length_newest 50 (past context ++ [command])) as Hlen.
  rewrite length_app in Hlen. simpl in Hlen.
  set (log := newest 50 (past context ++ [command])) in *.
  assert (log !! (length log - 1)%nat = Some command) as Hlast.
  { subst log. unfold newest in *. rewrite lookup_drop.
    rewrite length_drop, length_app in *. simpl in *.
    replace (length (past context) + 1 - 50
             + (length (past context) + 1
                - (length (past context) + 1 - 50) - 1))%nat
      with (length (past context) + 0)%nat by lia.
    by rewrite lookup_app_r, Nat.add_0_r, Nat.sub_diag by lia. }
  split_and!.
  - lia.
  - replace (Z.of_nat (length log) - 1) with (Z.of_nat (length log - 1))
      by lia.
    by rewrite at_index_nat.
  - apply columns_pushCommand.
Qed.

(** Undo right after a command was pushed reverses that command. *)
Lemma undo_after_push σ context0 context1 command :
  -1 ≤ historyIndex context0 →
  history context1 = history (pushCommand context0 command) →
  historyIndex context1 = historyIndex (pushCommand context0 command) →
  performUndo σ context1
  = Some ((reverseCommand σ (columns context1) command).1,
          set_historyIndex (historyIndex context1 - 1)
            (set_columns (reverseCommand σ (columns context1) command).2
               context1)).
Proof.
  intros Hi Hlog Hindex.
  destruct (pushCommand_current context0 command Hi) as (Hpos & Hat & _).
  unfold performUndo. rewrite Hlog, Hindex, Hat.
  destruct (_ >=? _) eqn:Hge; [|lia]. simpl.
  by destruct (reverseCommand _ _ _).
Qed.

(** Redo right after that undo executes the command again. *)
Lemma redo_after_undo σ context0 context1 context2 command :
  -1 ≤ historyIndex context0 →
  history context1 = history (pushCommand context0 command) →
  historyIndex context1 = historyIndex (pushCommand context0 command) →
  history context2 = history context1 →
  historyIndex context2 = historyIndex context1 - 1 →
  performRedo σ context2
  = Some ((executeCommand σ (columns context2) command).1,
          set_columns (executeCommand σ (columns context2) command).2
            (set_historyIndex (historyIndex context1) context2)).
Proof.
  intros Hi Hlog Hindex Hlog2 Hindex2.
  destruct (pushCommand_current context0 command Hi) as (Hpos & Hat & _).
  pose proof (pushCommand_index context0 command Hi) as Hlast.
  unfold performRedo. rewrite Hlog2, Hindex2, Hlog.
  destruct (_ <? _) eqn:Hlt; [|lia]. simpl.
  replace (historyIndex context1 - 1 + 1) with (historyIndex context1)
    by lia.
  rewrite Hlog2, Hlog, Hindex, Hat. simpl.
  by destruct (executeCommand _ _ _).
Qed.

Lemma findCardIndex_is_Some σ cardId cards r :
  r ∈ cards → has_id σ cardId r →
  is_Some (findCardIndex σ cardId cards).
Proof.
  intros Hin Hid.
  destruct (findCardIndex σ cardId cards) eqn:Hfind; [done|].
  rewrite findCardIndex_None in Hfind. by destruct (Hfind r).
Qed.

(** With ids that are not shared, a card is found where it is. *)
Lemma findCardLocation_unique σ columns cardId ci i r :
  unique_id σ columns cardId →
  card_at columns ci i = Some r → has_id σ cardId r →
  findCardLocation σ columns cardId = Some (ci, i).
Proof.
  intros Hunique Hat Hid.
  destruct (findCardLocation σ columns cardId) as [[cj j]|] eqn:Hfind.
  - destruct (findCardLocation_card_at σ _ _ _ _ Hfind) as (r' & Hat' & Hid').
    by destruct (Hunique _ _ _ _ _ _ Hat Hat' Hid Hid') as [-> ->].
  - rewrite findCardLocation_None in Hfind.
    apply card_at_Some in Hat as (column & Hcolumn & Hcard).
    apply list_elem_of_lookup_2 in Hcolumn, Hcard.
    specialize (Hfind column Hcolumn).
    rewrite findCardIndex_None in Hfind. by destruct (Hfind r).
Qed.

Lemma move_card_step σ columns cardId ci i r cj column (k : Z) :
  findCardLocation σ columns cardId = Some (ci, i) →
  card_at columns ci i = Some r →
  ∀ id, findColumn columns id = Some (cj, column) →
  move_card σ columns cardId {| columnId := id; index := k |}
  = update_cards cj (JS.splice_insert k r)
      (update_cards ci (JS.splice_remove i) columns).
Proof.
  intros Hfind Hat id Hcolumn. unfold move_card. rewrite Hfind, Hat.
  simpl.
  destruct (findColumn_updated columns ci (JS.splice_remove i) id cj)
    as (column' & -> & _); [by rewrite Hcolumn|done].
Qed.

Lemma drop_eval σ context item (now commandSeqId : Z) si sourceColumn ti
    targetColumn cardIndex r card :
  drop_finds σ context item si sourceColumn ti targetColumn cardIndex r
    card →
  handleDropOnColumn σ context item now commandSeqId
  = let insertIndex :=
      if JS.truthy_opt (dropTargetCardId context) then
        match findCardIndex σ (default ""%string (dropTargetCardId context))
                (col_cards targetColumn) with
        | Some targetIndex =>
            match dropPosition context with
            | Before => targetIndex
            | After => (targetIndex + 1)%nat
            end
        | None => length (col_cards targetColumn)
        end
      else length (col_cards targetColumn) in
    let finalIndex :=
      if (cardIndex <? insertIndex)%nat
      then (insertIndex - 1)%nat else insertIndex in
    if bool_decide (si = ti) && bool_decide (finalIndex = cardIndex)
    then (resetDragState context, commandSeqId)
    else
      let actualInsertIndex :=
        if bool_decide (si = ti) && (cardIndex <? insertIndex)%nat
        then (insertIndex - 1)%nat else insertIndex in
      (resetDragState
         (pushCommand
            (set_columns
               (update_cards ti
                  (JS.splice_insert (Z.of_nat actualInsertIndex) r)
                  (update_cards si (JS.splice_remove cardIndex)
                     (columns context)))
               context)
            (MoveCommand
               {| timestamp := now;
                  description :=
                    (col_title sourceColumn +:+ " → " +:+
                     col_title targetColumn)%string;
                  seqId := commandSeqId + 1 |}
               (card_id card) (card_title card)
               {| columnId := default ""%string (sourceColumnId context);
                  index := Z.of_nat cardIndex |}
               {| columnId := default ""%string (col_id <$> item);
                  index := Z.of_nat insertIndex |})),
       commandSeqId + 1).
Proof.
  intros (Hdragged & Hsource & Htarget & Hsi & Hti & Hcard & Hr & Hobject).
  unfold handleDropOnColumn.
  rewrite Hdragged, Hsource, Htarget. cbn [negb orb].
  rewrite Hsi, Hti, Hcard, Hr. cbn [mbind option_bind]. rewrite Hobject.
  done.
Qed.

Lemma drop_cases σ context item (now commandSeqId : Z) :
  columns (handleDropOnColumn σ context item now commandSeqId).1
  = columns context
  ∨ ∃ si sourceColumn ti targetColumn cardIndex r card,
      drop_finds σ context item si sourceColumn ti targetColumn cardIndex r
        card.
Proof.
  unfold handleDropOnColumn, drop_finds.
  destruct (JS.truthy_opt (draggedCardId context)); [|by left].
  destruct (JS.truthy_opt (sourceColumnId context)); [|by left].
  destruct (JS.truthy_opt (col_id <$> item)); [|by left].
  cbn [negb orb].
  destruct (findColumn _ _) as [[si sourceColumn]|]; [|by left].
  destruct (findColumn _ _) as [[ti targetColumn]|]; [|by left].
  destruct (findCardIndex _ _ _) as [cardIndex|] eqn:Hcard; [|by left].
  destruct (col_cards sourceColumn !! cardIndex) as [r|] eqn:Hr; [|by left].
  cbn [mbind option_bind].
  destruct (σ !! r) as [card|] eqn:Hobject; [|by left].
  right. by exists si, sourceColumn, ti, targetColumn, cardIndex, r, card.
Qed.

Lemma drop_moved σ context item (now commandSeqId : Z) :
  columns (handleDropOnColumn σ context item now commandSeqId).1
  ≠ columns context →
  ∃ si sourceColumn ti targetColumn cardIndex r card,
    drop_finds σ context item si sourceColumn ti targetColumn cardIndex r
      card.
Proof.
  intros Hmoved.
  by destruct (drop_cases σ context item now commandSeqId) as [?|?].
Qed.

Lemma findColumn_id columns id ci column :
  findColumn columns id = Some (ci, column) → col_id column = id.
Proof. unfold findColumn. by intros (_ & ? & _)%list_find_Some. Qed.

(** X17.  A drop that changes the columns is taken back exactly by
    undo, when no other card has the id of the dragged card: the
    columns are again what they were before the drop.  If the card was
    dropped on another column than its own, redo then gives the columns
    the drop had left. *)
Theorem drop_then_undo σ context item (now commandSeqId : Z) :
  unique_id σ (columns context) (default ""%string (draggedCardId context)) →
  -1 ≤ historyIndex context →
  columns (handleDropOnColumn σ context item now commandSeqId).1
  ≠ columns context →
  ∃ context2,
    performUndo σ (handleDropOnColumn σ context item now commandSeqId).1
    = Some (σ, context2)
    ∧ columns context2 = columns context
    ∧ (sourceColumnId context ≠ col_id <$> item →
       ∃ context3,
         performRedo σ context2 = Some (σ, context3)
         ∧ columns context3
           = columns (handleDropOnColumn σ context item now commandSeqId).1).
Proof.
  intros Hunique Hi Hmoved.
  destruct (drop_moved _ _ _ _ _ Hmoved)
    as (si & sourceColumn & ti & targetColumn & cardIndex & r & card & Hfinds).
  revert Hmoved. rewrite (drop_eval _ _ _ _ _ _ _ _ _ _ _ _ Hfinds).
  destruct Hfinds
    as (Hdragged & Hsource & Htarget & Hsi & Hti & Hcard & Hr & Hobject).
  cbv zeta.
  set (insertIndex := if JS.truthy_opt (dropTargetCardId context) then _
                      else _).
  destruct (_ && _) eqn:Hsame; [done|]. intros _.
  set (actual := if bool_decide (si = ti) && _ then _ else _).
  set (command := MoveCommand _ _ _ _ _).
  set (columns2 := update_cards ti _ _).
  cbn [fst].
  assert (card_at (columns context) si cardIndex = Some r) as Hat.
  { apply card_at_Some. exists sourceColumn.
    by rewrite (findColumn_lookup _ _ _ _ Hsi). }
  assert (card_id card = default ""%string (draggedCardId context)) as Hid.
  { apply findCardIndex_Some in Hcard
      as (r' & card' & Hr' & Hobject' & Hid & _). congruence. }
  assert (has_id σ (card_id card) r) as Hhas.
  { unfold has_id. by rewrite Hobject. }
  rewrite <- Hid in Hunique.
  pose proof (findCardLocation_unique _ _ _ _ _ _ Hunique Hat Hhas) as Hfind.
  assert (∀ k, move_card σ (columns context) (card_id card)
                 {| columnId := default ""%string (col_id <$> item);
                    index := k |}
               = update_cards ti (JS.splice_insert k r)
                   (update_cards si (JS.splice_remove cardIndex)
                      (columns context))) as Hmove.
  { intros k. by eapply move_card_step. }
  assert (move_card σ columns2 (card_id card)
            {| columnId := default ""%string (sourceColumnId context);
               index := Z.of_nat cardIndex |} = columns context) as Hback.
  { subst columns2. rewrite <- Hmove.
    apply (move_there_and_back σ _ (base_of command) _ (card_title card)).
    split; [done|]. intros ci i. rewrite Hfind. intros [= <- <-].
    cbn [columnId index]. by rewrite Hsi, Hti. }
  rewrite (undo_after_push σ (set_columns columns2 context) _ command)
    by done.
  eexists. split; [done|]. cbn [columns set_columns set_historyIndex].
  assert (columns (resetDragState
                     (pushCommand (set_columns columns2 context) command))
          = columns2) as Hcolumns2.
  { change (columns (pushCommand (set_columns columns2 context) command)
            = columns2).
    by destruct (pushCommand_current (set_columns columns2 context) command)
      as (_ & _ & ->). }
  rewrite Hcolumns2. cbn [reverseCommand command snd]. split; [done|].
  intros Hother.
  rewrite (redo_after_undo σ (set_columns columns2 context)
             (resetDragState
                (pushCommand (set_columns columns2 context) command))
             _ command) by done.
  eexists. split.
  - cbn [executeCommand command fst]. done.
  - cbn [columns set_columns set_historyIndex executeCommand command snd].
    rewrite Hback, Hmove. subst columns2 actual.
    assert (si ≠ ti) as Hne.
    { intros ->.
      apply findColumn_lookup in Hsi as Hsi', Hti as Hti'.
      apply findColumn_id in Hsi, Hti.
      destruct (sourceColumnId context), item; simplify_eq/=. congruence. }
    by rewrite bool_decide_eq_false_2.
Qed.
End RoundTrips.

(** ** Where a drop puts the card *)

Section DropFacts.
Import BoardProps.
Implicit Types (context : KanbanContext) (command : Command).
Implicit Types (σ : gmap CardRef KanbanCard).
Implicit Types (columns : list KanbanColumn).

Lemma all_cards_update columns ci column :
  columns !! ci = Some column →
  ∃ before after,
    all_cards columns = before ++ col_cards column ++ after
    ∧ ∀ f, all_cards (update_cards ci f columns)
           = before ++ f (col_cards column) ++ after.
Proof.
  unfold all_cards, update_cards. revert ci.
  induction columns as [|c columns IH]; intros [|ci] Hci; [done..| |].
  - injection Hci as ->. exists [], (columns ≫= col_cards). by split.
  - destruct (IH ci Hci) as (before & after & Hall & Hupdate).
    exists (col_cards c ++ before), after. split.
    + by rewrite bind_cons, Hall, (assoc_L (++)).
    + intros f.
      change (alter ?g (S ci) (c :: columns))
        with (c :: alter g ci columns).
      by rewrite bind_cons, Hupdate, (assoc_L (++)).
Qed.

Lemma splice_insert_Permutation {A} (l : list A) (k : Z) x :
  JS.splice_insert k x l ≡ₚ x :: l.
Proof.
  unfold JS.splice_insert. cbv zeta.
  by rewrite <- Permutation_middle, take_drop.
Qed.

Lemma splice_remove_Permutation {A} (l : list A) (i : nat) x :
  l !! i = Some x → l ≡ₚ x :: JS.splice_remove i l.
Proof.
  intros Hi. unfold JS.splice_remove. rewrite delete_take_drop.
  rewrite <- (take_drop_middle l i x) at 1 by done.
  by rewrite <- Permutation_middle.
Qed.

(** X18.  A drop neither loses nor duplicates a card: whatever the
    state of the drag, the cards of the board after
    [handleDropOnColumn] are the cards before it, up to their order. *)
Theorem drop_keeps_cards σ context item (now commandSeqId : Z) :
  all_cards (columns (handleDropOnColumn σ context item now commandSeqId).1)
  ≡ₚ all_cards (columns context).
Proof.
  destruct (drop_cases σ context item now commandSeqId)
    as [->|(si & sourceColumn & ti & targetColumn & cardIndex & r & card
            & Hfinds)]; [done|].
  rewrite (drop_eval _ _ _ _ _ _ _ _ _ _ _ _ Hfinds).
  destruct Hfinds as (_ & _ & _ & Hsi & Hti & _ & Hr & _).
  cbv zeta. destruct (_ && _); [done|]. cbn [fst].
  match goal with |- context [pushCommand ?c ?command] =>
    change (all_cards (columns (pushCommand c command))
            ≡ₚ all_cards (columns context));
    rewrite (columns_pushCommand c command)
  end.
  cbn [columns set_columns].
  apply findColumn_lookup in Hsi, Hti.
  destruct (all_cards_update _ _ _ Hsi)
    as (before & after & Hall & Hremoved).
  assert (is_Some (update_cards si (JS.splice_remove cardIndex)
                     (columns context) !! ti)) as [column1 Hcolumn1].
  { apply lookup_lt_is_Some. unfold update_cards.
    rewrite length_alter. by eapply lookup_lt_Some. }
  destruct (all_cards_update _ _ _ Hcolumn1)
    as (before1 & after1 & Hall1 & Hinserted).
  rewrite Hinserted, Hall, splice_insert_Permutation.
  rewrite (splice_remove_Permutation _ _ _ Hr).
  rewrite <- !app_comm_cons, <- !Permutation_middle. f_equiv.
  by rewrite <- Hall1, Hremoved.
Qed.

Lemma inserted_lookup_eq {A} (l : list A) (k : nat) x :
  (k ≤ length l)%nat → JS.splice_insert (Z.of_nat k) x l !! k = Some x.
Proof.
  intros. rewrite splice_insert_nat by done.
  apply list_lookup_middle. rewrite length_take. lia.
Qed.

Lemma inserted_lookup_lt {A} (l : list A) (k j : nat) x :
  (j < k ≤ length l)%nat →
  JS.splice_insert (Z.of_nat k) x l !! j = l !! j.
Proof.
  intros. rewrite splice_insert_nat by lia.
  rewrite lookup_app_l by (rewrite length_take; lia).
  apply lookup_take_lt. lia.
Qed.

Lemma inserted_lookup_gt {A} (l : list A) (k j : nat) x :
  (k ≤ j)%nat → (k ≤ length l)%nat →
  JS.splice_insert (Z.of_nat k) x l !! S j = l !! j.
Proof.
  intros. rewrite splice_insert_nat by lia.
  rewrite lookup_app_r by (rewrite length_take; lia).
  rewrite length_take.
  replace (S j - k `min` length l)%nat with (S (j - k)) by lia.
  change ((x :: drop k l) !! S (j - k)) with (drop k l !! (j - k)%nat).
  rewrite lookup_drop. f_equal. lia.
Qed.

(** The two cards after a drop inside one column. *)
Lemma placed_same_column {A} (l : list A) (ci τ : nat) r t
    (position : DropPosition) :
  l !! ci = Some r → l !! τ = Some t → τ ≠ ci →
  let insertIndex :=
    match position with Before => τ | After => (τ + 1)%nat end in
  let finalIndex :=
    if (ci <? insertIndex)%nat then (insertIndex - 1)%nat
    else insertIndex in
  let l' :=
    if bool_decide (finalIndex = ci) then l
    else JS.splice_insert (Z.of_nat finalIndex) r (JS.splice_remove ci l) in
  ∃ p, match position with
       | Before => l' !! p = Some r ∧ l' !! S p = Some t
       | After => l' !! p = Some t ∧ l' !! S p = Some r
       end.
Proof.
  intros Hr Ht Hne. cbv zeta. unfold JS.splice_remove.
  pose proof (lookup_lt_Some _ _ _ Hr) as Hci.
  pose proof (lookup_lt_Some _ _ _ Ht) as Hτ.
  pose proof (length_delete l ci (mk_is_Some _ _ Hr)) as Hlen.
  destruct position.
  - destruct (Nat.ltb_spec ci τ) as [Hlt|Hge]; case_bool_decide as Hfinal.
    + exists ci. split; [done|]. by replace (S ci) with τ by lia.
    + exists (τ - 1)%nat. split.
      * apply inserted_lookup_eq. lia.
      * replace (S (τ - 1)) with (S (τ - 1)) by done.
        rewrite inserted_lookup_gt by lia.
        rewrite list_lookup_delete_ge by lia.
        by replace (S (τ - 1)) with τ by lia.
    + lia.
    + exists τ. split.
      * apply inserted_lookup_eq. lia.
      * rewrite inserted_lookup_gt by lia.
        by rewrite list_lookup_delete_lt by lia.
  - destruct (Nat.ltb_spec ci (τ + 1)) as [Hlt|Hge];
      case_bool_decide as Hfinal.
    + lia.
    + replace (τ + 1 - 1)%nat with τ in * by lia.
      exists (τ - 1)%nat. split.
      * rewrite inserted_lookup_lt by lia.
        rewrite list_lookup_delete_ge by lia.
        by replace (S (τ - 1)) with τ by lia.
      * replace (S (τ - 1)) with τ by lia.
        apply inserted_lookup_eq. lia.
    + exists τ. split; [done|]. by replace (S τ) with ci by lia.
    + exists τ. split.
      * rewrite inserted_lookup_lt by lia.
        by rewrite list_lookup_delete_lt by lia.
      * replace (S τ) with (τ + 1)%nat by lia.
        apply inserted_lookup_eq. lia.
Qed.

(** The two cards after a drop on another column. *)
Lemma placed_other_column {A} (l : list A) (τ : nat) r t
    (position : DropPosition) :
  l !! τ = Some t →
  let insertIndex :=
    match position with Before => τ | After => (τ + 1)%nat end in
  let l' := JS.splice_insert (Z.of_nat insertIndex) r l in
  ∃ p, match position with
       | Before => l' !! p = Some r ∧ l' !! S p = Some t
       | After => l' !! p = Some t ∧ l' !! S p = Some r
       end.
Proof.
  intros Ht. cbv zeta.
  pose proof (lookup_lt_Some _ _ _ Ht) as Hτ.
  destruct position; exists τ; split.
  - apply inserted_lookup_eq. lia.
  - by rewrite inserted_lookup_gt by lia.
  - by rewrite inserted_lookup_lt by lia.
  - replace (S τ) with (τ + 1)%nat by lia. apply inserted_lookup_eq. lia.
Qed.

Lemma drop_places_card σ context item (now commandSeqId : Z) si
    sourceColumn ti targetColumn cardIndex r card (τ : nat) t :
  drop_finds σ context item si sourceColumn ti targetColumn cardIndex r
    card →
  JS.truthy_opt (dropTargetCardId context) = true →
  findCardIndex σ (default ""%string (dropTargetCardId context))
    (col_cards targetColumn) = Some τ →
  col_cards targetColumn !! τ = Some t →
  t ≠ r →
  ∃ column' p,
    columns (handleDropOnColumn σ context item now commandSeqId).1 !! ti
    = Some column'
    ∧ match dropPosition context with
      | Before => col_cards column' !! p = Some r
                  ∧ col_cards column' !! S p = Some t
      | After => col_cards column' !! p = Some t
                 ∧ col_cards column' !! S p = Some r
      end.
Proof.
  intros Hfinds Hover Hτ Ht Hne.
  rewrite (drop_eval _ _ _ _ _ _ _ _ _ _ _ _ Hfinds).
  destruct Hfinds as (_ & _ & _ & Hsi & Hti & _ & Hr & _).
  apply findColumn_lookup in Hsi, Hti.
  rewrite Hover, Hτ. cbv zeta.
  destruct (decide (si = ti)) as [->|Hother].
  - assert (sourceColumn = targetColumn) as -> by congruence.
    assert (τ ≠ cardIndex) as Hne' by congruence.
    destruct (placed_same_column _ _ _ _ _ (dropPosition context) Hr Ht Hne')
      as [p Hp]. cbv zeta in Hp.
    rewrite (bool_decide_eq_true_2 (ti = ti)) by done. cbn [andb].
    case_bool_decide as Hfinal.
    + exists targetColumn, p. by split.
    + cbn [fst].
      match goal with |- context [pushCommand ?c ?command] =>
        change (∃ column' p,
          columns (pushCommand c command) !! ti = Some column'
          ∧ match dropPosition context with
            | Before => col_cards column' !! p = Some r
                        ∧ col_cards column' !! S p = Some t
            | After => col_cards column' !! p = Some t
                       ∧ col_cards column' !! S p = Some r
            end);
        rewrite (columns_pushCommand c command)
      end.
      cbn [columns set_columns].
      erewrite update_cards_lookup; [|by apply update_cards_lookup].
      eexists _, p. split; [done|]. cbn [col_cards with_cards]. done.
  - destruct (placed_other_column _ _ r _ (dropPosition context) Ht)
      as [p Hp]. cbv zeta in Hp.
    rewrite (bool_decide_eq_false_2 (si = ti)) by done. cbn [andb fst].
    match goal with |- context [pushCommand ?c ?command] =>
      change (∃ column' p,
        columns (pushCommand c command) !! ti = Some column'
        ∧ match dropPosition context with
          | Before => col_cards column' !! p = Some r
                      ∧ col_cards column' !! S p = Some t
          | After => col_cards column' !! p = Some t
                     ∧ col_cards column' !! S p = Some r
          end);
      rewrite (columns_pushCommand c command)
    end.
    cbn [columns set_columns].
    erewrite update_cards_lookup;
      [|by rewrite update_cards_lookup_ne].
    eexists _, p. split; [done|]. cbn [col_cards with_cards]. done.
Qed.

(** X19.  A card dropped on another card ends up directly before it
    (drop position [Before]) or directly after it ([After]) in the
    target column, whether the two cards were in the same column or
    not, and also when the drop leaves the column as it is. *)
Theorem drop_next_to_target σ context item (now commandSeqId : Z) si
    sourceColumn ti targetColumn cardIndex r card (τ : nat) t :
  drop_finds σ context item si sourceColumn ti targetColumn cardIndex r
    card →
  dropTargetCardId context ≠ draggedCardId context →
  JS.truthy_opt (dropTargetCardId context) = true →
  findCardIndex σ (default ""%string (dropTargetCardId context))
    (col_cards targetColumn) = Some τ →
  col_cards targetColumn !! τ = Some t →
  ∃ column' p,
    columns (handleDropOnColumn σ context item now commandSeqId).1 !! ti
    = Some column'
    ∧ match dropPosition context with
      | Before => col_cards column' !! p = Some r
                  ∧ col_cards column' !! S p = Some t
      | After => col_cards column' !! p = Some t
                 ∧ col_cards column' !! S p = Some r
      end.
Proof.
  intros Hfinds Hne Hover Hτ Ht.
  eapply drop_places_card; [done..|]. intros ->.
  destruct Hfinds as (Hdragged & _ & _ & _ & _ & Hcard & Hr & Hobject).
  apply findCardIndex_Some in Hcard as (r1 & c1 & Hr1 & Hc1 & Hid1 & _).
  apply findCardIndex_Some in Hτ as (r2 & c2 & Hr2 & Hc2 & Hid2 & _).
  destruct (dropTargetCardId context), (draggedCardId context);
    simplify_eq/=.
Qed.

Lemma findColumn_NoDup columns ci column :
  NoDup (col_id <$> columns) → columns !! ci = Some column →
  findColumn columns (col_id column) = Some (ci, column).
Proof.
  intros Hnodup Hci. unfold findColumn. apply list_find_Some.
  split_and!; [done..|]. intros cj column' Hcj Hlt Hid.
  assert (ci = cj); [|lia].
  eapply NoDup_lookup; [done|..]; rewrite list_lookup_fmap.
  - by rewrite Hci.
  - rewrite Hcj. simpl. by f_equal.
Qed.

Lemma findCardIndex_unique σ columns ci column i r card :
  unique_id σ columns (card_id card) →
  columns !! ci = Some column → col_cards column !! i = Some r →
  σ !! r = Some card →
  findCardIndex σ (card_id card) (col_cards column) = Some i.
Proof.
  intros Hunique Hci Hi Hr. apply findCardIndex_Some.
  exists r, card. split_and!; [done..|]. intros j r' Hj Hlt Hid.
  assert (card_at columns ci i = Some r) as Hat.
  { apply card_at_Some. by exists column. }
  assert (card_at columns ci j = Some r') as Hat'.
  { apply card_at_Some. by exists column. }
  assert (has_id σ (card_id card) r) as Hhas.
  { unfold has_id. by rewrite Hr. }
  destruct (Hunique _ _ _ _ _ _ Hat Hat' Hhas Hid). lia.
Qed.

(** X20.  A whole drag: on a board whose card ids and column ids are
    not shared and not empty, the card [r] is picked up
    ([handleDragStart]), held over the upper or the lower half of
    another card [t] ([handleCardDragOver]) and dropped on the column
    of [t] ([handleDropOnColumn]).  Afterwards [r] is directly before
    [t] in that column (upper half) or directly after it (lower
    half). *)
Theorem drag_onto_card σ context (r t : CardRef) (upperHalf : bool)
    (si ci ti τ : nat) source target (now commandSeqId : Z) :
  board_ok σ (columns context) →
  columns context !! si = Some source → col_cards source !! ci = Some r →
  columns context !! ti = Some target → col_cards target !! τ = Some t →
  r ≠ t →
  col_id source ≠ ""%string → col_id target ≠ ""%string →
  card_id <$> σ !! r ≠ Some ""%string →
  card_id <$> σ !! t ≠ Some ""%string →
  let context1 := handleDragStart σ context (Some r) in
  let context2 :=
    handleCardDragOver σ context1 (Some t) (Some upperHalf) in
  let context3 :=
    (handleDropOnColumn σ context2 (Some target) now commandSeqId).1 in
  ∃ column' p,
    columns context3 !! ti = Some column'
    ∧ if upperHalf
      then col_cards column' !! p = Some r
           ∧ col_cards column' !! S p = Some t
      else col_cards column' !! p = Some t
           ∧ col_cards column' !! S p = Some r.
Proof.
  intros (Hunique & Hnodup & Hobjects) Hsi Hci Hti Hτ Hne Hsource Htarget
    Hid Hid'. cbv zeta.
  assert (card_at (columns context) si ci = Some r) as Hat.
  { apply card_at_Some. by exists source. }
  assert (card_at (columns context) ti τ = Some t) as Hat'.
  { apply card_at_Some. by exists target. }
  destruct (Hobjects _ _ _ Hat) as [card Hr].
  destruct (Hobjects _ _ _ Hat') as [card' Ht].
  rewrite Hr in Hid. rewrite Ht in Hid'.
  cbn [fmap option_fmap option_map] in Hid, Hid'.
  assert (card_id card' ≠ card_id card) as Hids.
  { intros Hsame. apply Hne.
    destruct (Hunique (card_id card) si ci ti τ r t Hat Hat') as [-> ->].
    - unfold has_id. by rewrite Hr.
    - unfold has_id. rewrite Ht. simpl. by f_equal.
    - congruence. }
  assert (handleDragStart σ context (Some r)
          = set_sourceColumnId (Some (col_id source))
              (set_draggedCardId (Some (card_id card)) context)) as ->.
  { unfold handleDragStart. cbn [mbind option_bind]. rewrite Hr.
    cbn [columns set_draggedCardId].
    rewrite (findCardLocation_unique σ _ _ si ci r), Hsi; [done..|].
    unfold has_id. by rewrite Hr. }
  assert (handleCardDragOver σ
            (set_sourceColumnId (Some (col_id source))
               (set_draggedCardId (Some (card_id card)) context))
            (Some t) (Some upperHalf)
          = set_dropPosition (if upperHalf then Before else After)
              (set_dropTargetCardId (Some (card_id card'))
                 (set_sourceColumnId (Some (col_id source))
                    (set_draggedCardId (Some (card_id card)) context))))
    as ->.
  { unfold handleCardDragOver. cbn [mbind option_bind]. rewrite Ht.
    cbn [draggedCardId set_sourceColumnId set_draggedCardId].
    rewrite bool_decide_eq_false_2 by congruence. by destruct upperHalf. }
  set (context2 := set_dropPosition _ _).
  destruct (drop_places_card σ context2 (Some target) now commandSeqId
              si source ti target ci r card τ t)
    as (column' & p & Hcolumn' & Hp).
  - unfold drop_finds.
    cbn [context2 draggedCardId sourceColumnId columns set_dropPosition
         set_dropTargetCardId set_sourceColumnId set_draggedCardId
         fmap option_fmap option_map default JS.truthy_opt].
    unfold JS.truthy. rewrite !bool_decide_eq_true_2 by congruence.
    split_and!; [done..| | |by eapply findCardIndex_unique|done|done].
    + by apply findColumn_NoDup.
    + by apply findColumn_NoDup.
  - cbn [context2 dropTargetCardId set_dropPosition set_dropTargetCardId
         JS.truthy_opt].
    unfold JS.truthy. apply bool_decide_eq_true_2.
    congruence.
  - cbn [context2 dropTargetCardId set_dropPosition set_dropTargetCardId
         default].
    by eapply findCardIndex_unique.
  - done.
  - done.
  - exists column', p. split; [done|].
    by destruct upperHalf.
Qed.

(** X21.  A drag onto another column: on a board whose card ids and
    column ids are not shared and not empty, the card [r] is picked up
    ([handleDragStart]), held over another column ([handleDragOver])
    and dropped there ([handleDropOnColumn]).  Afterwards [r] is the
    last card of that column, it is gone from its own column, and the
    other columns are as before. *)
Theorem drag_onto_column σ context (r : CardRef) (si ci ti : nat)
    source target (now commandSeqId : Z) :
  board_ok σ (columns context) →
  columns context !! si = Some source → col_cards source !! ci = Some r →
  columns context !! ti = Some target → si ≠ ti →
  col_id source ≠ ""%string → col_id target ≠ ""%string →
  card_id <$> σ !! r ≠ Some ""%string →
  let context1 := handleDragStart σ context (Some r) in
  let context2 := handleDragOver context1 (Some target) in
  let context3 :=
    (handleDropOnColumn σ context2 (Some target) now commandSeqId).1 in
  columns context3 !! si
  = Some (with_cards source (delete ci (col_cards source)))
  ∧ columns context3 !! ti
    = Some (with_cards target (col_cards target ++ [r]))
  ∧ ∀ cj, cj ≠ si → cj ≠ ti → columns context3 !! cj = columns context !! cj.
Proof.
  intros (Hunique & Hnodup & Hobjects) Hsi Hci Hti Hother Hsource Htarget
    Hid. cbv zeta.
  assert (card_at (columns context) si ci = Some r) as Hat.
  { apply card_at_Some. by exists source. }
  destruct (Hobjects _ _ _ Hat) as [card Hr].
  rewrite Hr in Hid. cbn [fmap option_fmap option_map] in Hid.
  assert (col_id target ≠ col_id source) as Hids.
  { intros Hsame. apply Hother.
    eapply NoDup_lookup; [done|..]; rewrite list_lookup_fmap.
    - by rewrite Hsi.
    - rewrite Hti. simpl. by f_equal. }
  assert (handleDragStart σ context (Some r)
          = set_sourceColumnId (Some (col_id source))
              (set_draggedCardId (Some (card_id card)) context)) as ->.
  { unfold handleDragStart. cbn [mbind option_bind]. rewrite Hr.
    cbn [columns set_draggedCardId].
    rewrite (findCardLocation_unique σ _ _ si ci r), Hsi; [done..|].
    unfold has_id. by rewrite Hr. }
  unfold handleDragOver.
  cbn [sourceColumnId set_sourceColumnId set_draggedCardId].
  rewrite bool_decide_eq_true_2 by congruence.
  set (context2 := set_dropTargetCardId _ _).
  assert (drop_finds σ context2 (Some target) si source ti target ci r card)
    as Hfinds.
  { unfold drop_finds.
    cbn [context2 draggedCardId sourceColumnId columns
         set_dropTargetCardId set_dropTargetColumnId set_sourceColumnId
         set_draggedCardId fmap option_fmap option_map default
         JS.truthy_opt].
    unfold JS.truthy. rewrite !bool_decide_eq_true_2 by congruence.
    split_and!; [done..| | |by eapply findCardIndex_unique|done|done].
    - by apply findColumn_NoDup.
    - by apply findColumn_NoDup. }
  rewrite (drop_eval _ _ _ _ _ _ _ _ _ _ _ _ Hfinds).
  cbn [context2 dropTargetCardId set_dropTargetCardId JS.truthy_opt].
  cbv zeta. rewrite (bool_decide_eq_false_2 (si = ti)) by done.
  cbn [andb fst].
  match goal with |- context [pushCommand ?c ?command] =>
    change (columns (resetDragState (pushCommand c command)))
      with (columns (pushCommand c command));
    rewrite (columns_pushCommand c command)
  end.
  cbn [columns set_columns set_dropTargetCardId set_dropTargetColumnId
       set_sourceColumnId set_draggedCardId].
  split_and!.
  - rewrite update_cards_lookup_ne by done.
    by rewrite (update_cards_lookup _ _ _ source).
  - rewrite (update_cards_lookup _ _ _ target)
      by (by rewrite update_cards_lookup_ne).
    rewrite splice_insert_nat by done.
    by rewrite take_ge, drop_ge by done.
  - intros cj ??. by rewrite !update_cards_lookup_ne by done.
Qed.
End DropFacts.

(** ** Deleting, creating and editing a card, followed by undo *)

Section UndoFacts.
Import BoardProps.
Implicit Types (context : KanbanContext) (command : Command).
Implicit Types (σ : gmap CardRef KanbanCard).
Implicit Types (columns : list KanbanColumn).

Lemma fresh_ne σ columns ci i r :
  allocated σ columns → card_at columns ci i = Some r →
  fresh (dom σ) ≠ r.
Proof.
  intros Hobjects Hat <-. apply Hobjects in Hat.
  apply elem_of_dom in Hat. by apply is_fresh in Hat.
Qed.

Lemma findCardIndex_fresh σ (x : KanbanCard) cardId cards :
  (∀ r, r ∈ cards → is_Some (σ !! r)) →
  findCardIndex (<[fresh (dom σ) := x]> σ) cardId cards
  = findCardIndex σ cardId cards.
Proof.
  intros Hobjects.
  assert (∀ r, r ∈ cards →
            <[fresh (dom σ) := x]> σ !! r = σ !! r) as Hsame.
  { intros r Hr. apply lookup_insert_ne. intros <-.
    apply Hobjects, elem_of_dom in Hr. by apply is_fresh in Hr. }
  destruct (findCardIndex σ cardId cards) as [i|] eqn:Hfind.
  - apply findCardIndex_Some in Hfind as (r & c & Hr & Hc & Hid & Hfirst).
    apply findCardIndex_Some. exists r, c. split_and!; [done| |done|].
    + rewrite Hsame; [done|]. by eapply list_elem_of_lookup_2.
    + intros j r' Hj Hlt. unfold has_id. rewrite Hsame.
      * by apply (Hfirst j).
      * by eapply list_elem_of_lookup_2.
  - rewrite findCardIndex_None in Hfind. apply findCardIndex_None.
    intros r Hr. unfold has_id. rewrite Hsame by done. by apply Hfind.
Qed.

Lemma document_fresh σ (x : KanbanCard) columns :
  allocated σ columns →
  document (<[fresh (dom σ) := x]> σ) columns = document σ columns.
Proof.
  intros Hobjects. unfold document. apply list_fmap_ext.
  intros ci column Hci. unfold column_value. f_equal.
  apply list_fmap_ext. intros i r Hr.
  apply lookup_insert_ne. eapply (fresh_ne _ columns ci i); [done|].
  apply card_at_Some. by exists column.
Qed.

Lemma allocated_column σ columns ci column :
  allocated σ columns → columns !! ci = Some column →
  ∀ r, r ∈ col_cards column → is_Some (σ !! r).
Proof.
  intros Hobjects Hci r [i Hr]%list_elem_of_lookup_1.
  apply (Hobjects ci i). apply card_at_Some. by exists column.
Qed.

(** X22.  Deleting a card of a board with unshared ids takes it off
    the board, and undo right after it puts a card with the same
    content back at the same place: the document is again what it was
    before the deletion. *)
Theorem delete_then_undo σ context (r : CardRef) (ci i : nat)
    (now commandSeqId : Z) :
  board_ok σ (columns context) →
  -1 ≤ historyIndex context →
  card_at (columns context) ci i = Some r →
  let σ1 := (deleteCard σ context (Some r) now commandSeqId).1.1 in
  let context1 := (deleteCard σ context (Some r) now commandSeqId).1.2 in
  (∀ cj j, card_at (columns context1) cj j ≠ Some r)
  ∧ ∃ context2,
      performUndo σ1 context1 = Some (σ1, context2)
      ∧ document σ1 (columns context2) = document σ (columns context).
Proof.
  intros (Hunique & Hnodup & Hobjects) Hi Hat. cbv zeta.
  destruct (Hobjects _ _ _ Hat) as [card Hr].
  assert (has_id σ (card_id card) r) as Hhas.
  { unfold has_id. by rewrite Hr. }
  pose proof (findCardLocation_unique σ _ _ _ _ _ (Hunique _) Hat Hhas)
    as Hfind.
  apply card_at_Some in Hat as Hat'. destruct Hat' as (column & Hci & Hcard).
  unfold deleteCard. cbn [mbind option_bind]. rewrite Hr.
  cbn [mbind option_bind]. rewrite Hfind, Hci.
  cbn [fmap option_fmap option_map default fst snd id].
  set (columns1 := update_cards ci (JS.splice_remove i) (columns context)).
  set (command := DeleteCommand _ _ _ _).
  split.
  - intros cj j Hgone. rewrite columns_pushCommand in Hgone.
    by eapply (absent_after_removal σ (columns context)).
  - rewrite (undo_after_push _ (set_columns columns1 context) _ command)
      by done.
    rewrite columns_pushCommand. cbn [columns set_columns].
    pose proof (findColumn_NoDup _ _ _ Hnodup Hci) as Hcolumn.
    assert (records (<[fresh (dom σ) := card]> σ) (columns context) command)
      as Hrecorded.
    { intros cj column' Hcolumn'. rewrite Hcolumn in Hcolumn'.
      injection Hcolumn' as <- <-.
      exists card, i, r. split_and!; [|..|done|done|].
      - apply lookup_insert_eq.
      - rewrite findCardIndex_fresh by (by eapply allocated_column).
        by eapply findCardIndex_unique.
      - rewrite lookup_insert_ne; [done|].
        by eapply (fresh_ne _ (columns context) ci i). }
    destruct (delete_there_and_back _ _ _ _ _ _ Hrecorded)
      as (columns' & Hback & Hdocument).
    revert Hback. unfold execute_then_reverse.
    cbn [executeCommand command]. unfold remove_card.
    rewrite Hcolumn, lookup_insert_eq.
    rewrite findCardIndex_fresh by (by eapply allocated_column).
    rewrite (findCardIndex_unique σ (columns context) ci column i r card)
      by done.
    intros Hback. subst command columns1. rewrite Hback.
    eexists. split; [done|].
    cbn [columns set_columns set_historyIndex snd].
    by rewrite Hdocument, document_fresh.
Qed.

(** X23.  [createCard] that adds a card puts a new card object, with
    the sanitised title, at the end of the column chosen in the modal;
    when the generated id is not yet on the board, undo right after it
    gives back the columns as they were. *)
Theorem create_then_undo σ context (now : Z) (random : string)
    (commandSeqId : Z) :
  allocated σ (columns context) →
  (∀ ci i r, card_at (columns context) ci i = Some r →
             ¬ has_id σ (generateId now random) r) →
  -1 ≤ historyIndex context →
  let σ1 := (createCard σ context now random commandSeqId).1.1 in
  let context1 := (createCard σ context now random commandSeqId).1.2 in
  columns context1 ≠ columns context →
  (∃ ci column r card,
     columns context1 !! ci = Some column
     ∧ Some (col_id column) = newCardColumnId context
     ∧ last (col_cards column) = Some r
     ∧ σ !! r = None ∧ σ1 !! r = Some card
     ∧ card_id card = generateId now random
     ∧ card_title card = sanitizeTitle (newCardTitle context))
  ∧ ∃ context2,
      performUndo σ1 context1 = Some (σ1, context2)
      ∧ columns context2 = columns context.
Proof.
  intros Hobjects Hfresh Hi. cbv zeta. unfold createCard.
  destruct (_ || _) eqn:Hguard; [done|].
  apply orb_false_elim in Hguard as [_ Hchosen].
  apply negb_false_iff in Hchosen.
  destruct (findColumn _ _) as [[ci column]|] eqn:Hcolumn; [|done].
  intros _. cbn [fst snd].
  set (card := Build_KanbanCard _ _ _ _ _ _).
  set (command := CreateCommand _ _ _).
  set (columns1 := update_cards ci _ (columns context)).
  pose proof (findColumn_lookup _ _ _ _ Hcolumn) as Hci.
  assert (columns
            (set_newCardTitle ""%string
               (set_newCardModalOpen false
                  (pushCommand (set_columns columns1 context) command)))
          = columns1) as Hcolumns1.
  { change (columns (pushCommand (set_columns columns1 context) command)
            = columns1).
    by rewrite columns_pushCommand. }
  split.
  - rewrite Hcolumns1. eexists ci, _, (fresh (dom σ)), card. split_and!.
    + by apply update_cards_lookup.
    + cbn [col_id with_cards]. apply findColumn_id in Hcolumn.
      destruct (newCardColumnId context); [|done]. simpl in *. congruence.
    + cbn [col_cards with_cards]. unfold JS.push. apply last_snoc.
    + apply not_elem_of_dom, is_fresh.
    + apply lookup_insert_eq.
    + done.
    + done.
  - rewrite (undo_after_push _ (set_columns columns1 context) _ command)
      by done.
    rewrite Hcolumns1.
    assert (records (<[fresh (dom σ) := card]> σ) (columns context) command)
      as Hrecorded.
    { intros cj column' Hcolumn'. rewrite Hcolumn in Hcolumn'.
      injection Hcolumn' as <- <-. exists card. split.
      - apply lookup_insert_eq.
      - rewrite findCardIndex_fresh by (by eapply allocated_column).
        apply findCardIndex_None.
        intros r [i Hr]%list_elem_of_lookup_1.
        apply (Hfresh ci i). apply card_at_Some. by exists column. }
    pose proof (create_there_and_back _ _ _ _ _ Hrecorded) as Hback.
    revert Hback. unfold execute_then_reverse.
    cbn [executeCommand command]. rewrite Hcolumn.
    intros Hback. subst command columns1. rewrite Hback. by eexists.
Qed.

Lemma or_undefined_or_empty (o : option string) :
  o ≠ Some ""%string → JS.or_undefined (JS.or_empty o) = o.
Proof.
  intros Ho. destruct o as [s|]; [|done]. unfold JS.or_empty, JS.truthy.
  rewrite bool_decide_eq_true_2 by congruence.
  unfold JS.or_undefined, JS.truthy.
  by rewrite bool_decide_eq_true_2 by congruence.
Qed.

(** X24.  Saving an edit that finds its card writes the sanitised
    title, the priority and the trimmed description and assignee into
    the card object and nothing else; undo right after it restores
    every card object, and redo after that undo writes the new values
    again.  (The card must not carry an empty string as description or
    assignee: that one comes back as an absent field.) *)
Theorem edit_then_undo σ context (now commandSeqId : Z) (cardId : string)
    (ci i : nat) r card :
  -1 ≤ historyIndex context →
  editingCardId context = Some cardId → cardId ≠ ""%string →
  sanitizeTitle (editTitle context) ≠ ""%string →
  findCardLocation σ (columns context) cardId = Some (ci, i) →
  card_at (columns context) ci i = Some r → σ !! r = Some card →
  card_description card ≠ Some ""%string →
  card_assignee card ≠ Some ""%string →
  let σ1 := (performEdit σ context now commandSeqId).1.1 in
  let context1 := (performEdit σ context now commandSeqId).1.2 in
  σ1 = <[r := {| card_id := card_id card;
                 card_title := sanitizeTitle (editTitle context);
                 card_description :=
                   JS.or_undefined (JS.trim (editDescription context));
                 card_priority := editPriority context;
                 card_assignee :=
                   JS.or_undefined (JS.trim (editAssignee context));
                 card_createdAt := card_createdAt card |}]> σ
  ∧ columns context1 = columns context
  ∧ ∃ context2,
      performUndo σ1 context1 = Some (σ, context2)
      ∧ columns context2 = columns context
      ∧ ∃ context3,
          performRedo σ context2 = Some (σ1, context3)
          ∧ columns context3 = columns context.
Proof.
  intros Hi Hediting Hid Htitle Hfind Hat Hr Hdescription Hassignee.
  cbv zeta. unfold performEdit. rewrite Hediting.
  cbn [JS.truthy_opt default id].
  assert (JS.truthy cardId = true) as ->.
  { by apply bool_decide_eq_true_2. }
  assert (JS.truthy (sanitizeTitle (editTitle context)) = true) as ->.
  { by apply bool_decide_eq_true_2. }
  cbn [negb orb].
  rewrite Hfind, Hat. cbn [mbind option_bind]. rewrite Hr.
  cbn [mbind option_bind fst snd].
  set (oldValues := Build_Values _ _ (JS.or_empty _) _).
  set (newValues := Build_Values _ _ (JS.trim _) _).
  set (command := EditCommand _ _ _ _).
  assert (edit_card σ (columns context) cardId newValues
          = alter (assign_values newValues) r σ) as Hedit.
  { unfold edit_card. by rewrite Hfind, Hat. }
  assert (records σ (columns context) command) as Hrecorded.
  { intros cj j r' card'. rewrite Hfind. intros [= <- <-].
    rewrite Hat. intros [= <-]. rewrite Hr. intros [= <-].
    destruct card. unfold assign_values, oldValues. simpl in *.
    by rewrite !or_undefined_or_empty by done. }
  pose proof (edit_there_and_back _ _ _ _ _ _ Hrecorded) as Hback.
  revert Hback. unfold execute_then_reverse.
  cbn [executeCommand command]. rewrite Hedit. intros Hback.
  assert (columns (set_editingCardId None (pushCommand context command))
          = columns context) as Hcolumns.
  { change (columns (pushCommand context command) = columns context).
    apply columns_pushCommand. }
  split_and!.
  - apply map_eq. intros r'. rewrite lookup_alter, lookup_insert.
    case_decide; [subst r'|done]. by rewrite Hr.
  - exact Hcolumns.
  - rewrite (undo_after_push _ context _ command) by done.
    rewrite Hcolumns. subst command. rewrite Hback.
    eexists. split; [done|]. split; [done|].
    erewrite (redo_after_undo σ context
                (set_editingCardId None (pushCommand context _)));
      [|done..].
    cbn [columns set_columns set_historyIndex executeCommand fst snd].
    rewrite Hedit. by eexists.
Qed.
End UndoFacts.

(** ** Titles and filters *)

Section TitleFacts.
Import BoardProps.
Implicit Types (context : KanbanContext) (s : string).
Implicit Types (σ : gmap CardRef KanbanCard).

Lemma substring_length (n : nat) s :
  (String.length (String.substring 0 n s) ≤ n)%nat.
Proof.
  revert s. induction n as [|n IH]; intros [|a s]; simpl; try lia.
  specialize (IH s). lia.
Qed.

Lemma substring_empty (n : nat) s :
  String.substring 0 (S n) s = EmptyString ↔ s = EmptyString.
Proof. by destruct s. Qed.

Lemma rev_app_empty s acc :
  String.rev_app s acc = EmptyString ↔ s = EmptyString ∧ acc = EmptyString.
Proof.
  revert acc. induction s as [|a s IH]; intros acc; simpl.
  - split; [done|by intros [_ ?]].
  - rewrite IH. split; [by intros [_ [=]]|by intros [[=] _]].
Qed.

Lemma blank_rev_app s acc :
  blank (String.rev_app s acc) = blank s && blank acc.
Proof.
  revert acc. induction s as [|a s IH]; intros acc; simpl; [done|].
  rewrite IH. simpl. by destruct (JS.is_white a), (blank s), (blank acc).
Qed.

Lemma trimStart_empty s : JS.trimStart s = EmptyString ↔ blank s = true.
Proof.
  induction s as [|a s IH]; simpl; [done|].
  destruct (JS.is_white a); simpl; [done|]. by split.
Qed.

Lemma blank_trimStart s : blank (JS.trimStart s) = blank s.
Proof.
  induction s as [|a s IH]; simpl; [done|].
  destruct (JS.is_white a) eqn:Ha; simpl; [done|]. by rewrite Ha.
Qed.

Lemma trim_empty s : JS.trim s = EmptyString ↔ blank s = true.
Proof.
  unfold JS.trim, JS.trimEnd, String.rev.
  rewrite rev_app_empty, trimStart_empty, blank_rev_app, blank_trimStart.
  rewrite andb_true_r. split; [by intros [? _]|done].
Qed.

Lemma sanitizeTitle_length s :
  (String.length (sanitizeTitle s) ≤ MAX_TITLE_LENGTH)%nat.
Proof.
  apply substring_length.
Qed.

(** X25.  [sanitizeTitle] gives at most [MAX_TITLE_LENGTH] characters,
    and it gives the empty string exactly for a title of white space
    only (the empty title included). *)
Theorem sanitizeTitle_blank s :
  (String.length (sanitizeTitle s) ≤ MAX_TITLE_LENGTH)%nat
  ∧ (sanitizeTitle s = EmptyString ↔ blank s = true).
Proof.
  split; [apply sanitizeTitle_length|].
  unfold sanitizeTitle, MAX_TITLE_LENGTH.
  by rewrite substring_empty, trim_empty.
Qed.

Lemma titles_ok_insert σ r card :
  titles_ok σ →
  card_title card ≠ EmptyString →
  (String.length (card_title card) ≤ MAX_TITLE_LENGTH)%nat →
  titles_ok (<[r := card]> σ).
Proof.
  intros Hok Hne Hlen r' card'. rewrite lookup_insert.
  case_decide; [|by apply Hok]. by intros [= <-].
Qed.

(** X26.  The handlers that write card objects keep every title non-empty
    and within [MAX_TITLE_LENGTH]: a blank title is refused by
    [performEdit] and [createCard], a long one is cut, and [deleteCard]
    copies the card as it is. *)
Theorem titles_ok_preserved σ context (now commandSeqId : Z) :
  titles_ok σ →
  titles_ok (performEdit σ context now commandSeqId).1.1
  ∧ (∀ random,
       titles_ok (createCard σ context now random commandSeqId).1.1)
  ∧ (∀ item, titles_ok (deleteCard σ context item now commandSeqId).1.1).
Proof.
  intros Hok. split_and!.
  - unfold performEdit.
    destruct (JS.truthy (sanitizeTitle (editTitle context))) eqn:Htitle.
    2:{ by rewrite orb_true_r. }
    destruct (_ || _); [done|].
    destruct (findCardLocation _ _ _) as [[ci i]|]; [|done].
    destruct (_ ≫= _) as [[r card]|]; [|done]. cbn [fst].
    intros r' card'. rewrite lookup_alter.
    case_decide; [subst r'|by apply Hok].
    destruct (σ !! r); [|done]. intros [= <-]. cbn [card_title assign_values
      v_title]. split.
    + by apply bool_decide_eq_true in Htitle.
    + apply sanitizeTitle_length.
  - intros random. unfold createCard.
    destruct (JS.truthy (sanitizeTitle (newCardTitle context))) eqn:Htitle;
      [|done].
    destruct (_ || _); [done|].
    destruct (findColumn _ _) as [[ci column]|]; [|done]. cbn [fst].
    apply titles_ok_insert; [done|..].
    + by apply bool_decide_eq_true in Htitle.
    + apply sanitizeTitle_length.
  - intros item. unfold deleteCard.
    destruct (_ ≫= _) as [card|] eqn:Hcard; [|done].
    destruct (findCardLocation _ _ _) as [[ci i]|]; [|done]. cbn [fst].
    destruct item as [r|]; [|done]. cbn [mbind option_bind] in Hcard.
    destruct (σ !! r) as [card'|] eqn:Hr; [|done]. simplify_eq/=.
    destruct (Hok r card Hr). by apply titles_ok_insert.
Qed.

Lemma lower_lower a : JS.lower (JS.lower a) = JS.lower a.
Proof. by destruct a as [[] [] [] [] [] [] [] []]. Qed.

Lemma toLowerCase_toLowerCase s :
  JS.toLowerCase (JS.toLowerCase s) = JS.toLowerCase s.
Proof.
  induction s as [|a s IH]; simpl; [done|]. by rewrite lower_lower, IH.
Qed.

Lemma truthy_toLowerCase s : JS.truthy (JS.toLowerCase s) = JS.truthy s.
Proof. by destruct s. Qed.

(** X27.  The cards shown in a column are cards of the column, in the
    order of the column; a card is shown exactly when it passes the
    search box (no query, or the query in lower case is part of its
    title, description or assignee in lower case) and the priority
    filter; and writing the query in lower case changes nothing. *)
Theorem filteredCards_shown σ context column :
  filteredCards σ context (Some column) `sublist_of` col_cards column
  ∧ (∀ r,
       r ∈ filteredCards σ context (Some column) ↔
       r ∈ col_cards column
       ∧ (searchQuery context = EmptyString
          ∨ matches_query (JS.toLowerCase (searchQuery context)) <$> σ !! r
            = Some true)
       ∧ (∀ priority, filterPriority context = FilterBy priority →
            card_priority <$> σ !! r = Some priority))
  ∧ (∀ context',
       searchQuery context' = JS.toLowerCase (searchQuery context) →
       filterPriority context' = filterPriority context →
       filteredCards σ context' (Some column)
       = filteredCards σ context (Some column)).
Proof.
  split_and!.
  - unfold filteredCards.
    destruct (JS.truthy _), (filterPriority context);
      repeat (etrans; [apply sublist_filter|]); done.
  - intros r. unfold filteredCards, JS.truthy.
    case_bool_decide as Hquery; destruct (filterPriority context) as [|p];
      rewrite ?list_elem_of_filter.
    + split.
      * intros (? & ?). split_and!; [done|by right|done].
      * intros (? & [?|?] & _); by split.
    + split.
      * intros (Hp & ? & ?). split_and!; [done|by right|by intros ? [= <-]].
      * intros (? & [?|?] & Hp); [done|]. split_and!; [|done..]. by apply Hp.
    + split.
      * intros ?. split_and!; [done|by left|done].
      * by intros (? & _).
    + split.
      * intros (Hp & ?). split_and!; [done|by left|by intros ? [= <-]].
      * intros (? & _ & Hp). split; [|done]. by apply Hp.
  - intros context' Hquery Hfilter. unfold filteredCards.
    by rewrite Hquery, Hfilter, truthy_toLowerCase, toLowerCase_toLowerCase.
Qed.
End TitleFacts.

(** ** The theorems on the sample board *)

Section OnTheBoard.
Import BoardProps.

Lemma board_ok_board : board_ok objects [todo; done_column].
Proof.
  split_and!.
  - apply unique_id_board.
  - apply (bool_decide_unpack _). by vm_compute.
  - intros ci i r (-> & -> & Hr)%card_at_board.
    destruct r as [|[|[|r]]]; [by eexists..|lia].
Qed.

Lemma absent_id_board cardId ci i r :
  cardId ≠ "a"%string → cardId ≠ "b"%string → cardId ≠ "c"%string →
  card_at [todo; done_column] ci i = Some r → ¬ has_id objects cardId r.
Proof.
  intros Ha Hb Hc (-> & -> & Hr)%card_at_board Hid.
  destruct r as [|[|[|r]]]; [..|lia]; vm_compute in Hid; congruence.
Qed.

Lemma drop_then_undo_witness :
  ∃ context2,
    performUndo objects
      (handleDropOnColumn objects (dragging "a" "todo" None Before)
         (Some done_column) 1000 0).1
    = Some (objects, context2)
    ∧ columns context2 = [todo; done_column].
Proof.
  destruct (drop_then_undo objects (dragging "a" "todo" None Before)
              (Some done_column) 1000 0) as (context2 & Hundo & Hcolumns & _).
  - apply unique_id_board.
  - simpl. lia.
  - vm_compute. discriminate.
  - by exists context2.
Defined.

Lemma drop_next_to_target_witness :
  ∃ column' p,
    columns
      (handleDropOnColumn cards (dragging "a" "todo" (Some "c") Before)
         (Some todo) 1000 0).1 !! 0%nat = Some column'
    ∧ col_cards column' !! p = Some 0%nat
    ∧ col_cards column' !! S p = Some 2%nat.
Proof.
  apply (drop_next_to_target cards (dragging "a" "todo" (Some "c") Before)
           (Some todo) 1000 0 0%nat todo 0%nat todo 0%nat 0%nat
           (a_card "a" "A") 2%nat 2%nat).
  - unfold drop_finds. split_and!; reflexivity.
  - discriminate.
  - reflexivity.
  - reflexivity.
  - reflexivity.
Defined.

Lemma drag_onto_card_witness :
  ∃ column' p,
    columns
      (handleDropOnColumn objects
         (handleCardDragOver objects
            (handleDragStart objects board (Some 0%nat)) (Some 2%nat)
            (Some false))
         (Some todo) 1000 0).1 !! 0%nat = Some column'
    ∧ col_cards column' !! p = Some 2%nat
    ∧ col_cards column' !! S p = Some 0%nat.
Proof.
  apply (drag_onto_card objects board 0%nat 2%nat false 0%nat 0%nat 0%nat
           2%nat todo todo 1000 0).
  - apply board_ok_board.
  - reflexivity.
  - reflexivity.
  - reflexivity.
  - reflexivity.
  - discriminate.
  - discriminate.
  - discriminate.
  - vm_compute. discriminate.
  - vm_compute. discriminate.
Defined.

Lemma drag_onto_column_witness :
  columns
    (handleDropOnColumn objects
       (handleDragOver (handleDragStart objects board (Some 1%nat))
          (Some done_column))
       (Some done_column) 1000 0).1 !! 1%nat
  = Some (a_column "done" "Done" [1%nat]).
Proof.
  destruct (drag_onto_column objects board 1%nat 0%nat 1%nat 1%nat todo
              done_column 1000 0) as (_ & Hthere & _).
  - apply board_ok_board.
  - reflexivity.
  - reflexivity.
  - reflexivity.
  - discriminate.
  - discriminate.
  - discriminate.
  - vm_compute. discriminate.
  - exact Hthere.
Defined.

Lemma delete_then_undo_witness :
  ∃ context2,
    performUndo (deleteCard objects board (Some 1%nat) 1000 0).1.1
      (deleteCard objects board (Some 1%nat) 1000 0).1.2
    = Some ((deleteCard objects board (Some 1%nat) 1000 0).1.1, context2)
    ∧ document (deleteCard objects board (Some 1%nat) 1000 0).1.1
        (columns context2)
      = document objects [todo; done_column].
Proof.
  destruct (delete_then_undo objects board 1%nat 0%nat 1%nat 1000 0)
    as (_ & Hundo).
  - apply board_ok_board.
  - simpl. lia.
  - reflexivity.
  - exact Hundo.
Defined.

Lemma create_then_undo_witness :
  ∃ context2,
    performUndo (createCard objects new_card_form 1000 "abc" 0).1.1
      (createCard objects new_card_form 1000 "abc" 0).1.2
    = Some ((createCard objects new_card_form 1000 "abc" 0).1.1, context2)
    ∧ columns context2 = [todo; done_column].
Proof.
  destruct (create_then_undo objects new_card_form 1000 "abc" 0)
    as (_ & Hundo).
  - apply board_ok_board.
  - intros ci i r. by apply absent_id_board.
  - simpl. lia.
  - vm_compute. discriminate.
  - exact Hundo.
Defined.

Lemma edit_then_undo_witness :
  card_title <$> (performEdit objects editing_a 1000 0).1.1 !! 0%nat
  = Some "A, again"%string
  ∧ ∃ context2,
      performUndo (performEdit objects editing_a 1000 0).1.1
        (performEdit objects editing_a 1000 0).1.2
      = Some (objects, context2)
      ∧ columns context2 = [todo; done_column].
Proof.
  destruct (edit_then_undo objects editing_a 1000 0 "a" 0%nat 0%nat 0%nat
              (a_card "a" "A"))
    as (Hstore & _ & context2 & Hundo & Hcolumns & _).
  - by vm_compute.
  - reflexivity.
  - discriminate.
  - vm_compute. discriminate.
  - reflexivity.
  - reflexivity.
  - reflexivity.
  - discriminate.
  - discriminate.
  - split; [by rewrite Hstore|]. by exists context2.
Defined.

Lemma titles_ok_preserved_witness :
  ∃ card,
    (createCard ∅ new_card_form 1000 "abc" 0).1.1 !! 0%nat = Some card
    ∧ card_title card ≠ EmptyString
    ∧ (String.length (card_title card) ≤ MAX_TITLE_LENGTH)%nat.
Proof.
  destruct (titles_ok_preserved ∅ new_card_form 1000 0) as (_ & Hcreate & _).
  - intros r card Hr. by rewrite lookup_empty in Hr.
  - eexists. split; [reflexivity|].
    apply (Hcreate "abc"%string 0%nat). reflexivity.
Defined.
End OnTheBoard.
